(** * A plugin host dispatching lifecycle events to a dynamically loaded handler

    Shallow embedding of [test.py]: the classes [DataProcessor],
    [ProcessEvent] and [OutputInterceptor] and the functions [print_error],
    [print_output], [get_standard_output_message] and [main]; and of the
    handler of [another_main.py], over the built-in [float] and the
    calculator it imports.

    Conventions of the embedding.
    - A Python [str] is a [string]; each character stands for the code point
      of the same number, so the strings covered are those whose code points
      are below 256.
    - A Python value is a [pyval]; a float is carried by its [repr] text.
    - [sys.stdout] is a variable of the process: it is bound to the real
      stream or to an [OutputInterceptor] object that remembers the sink it
      replaced.  The real streams are logs of writes and flushes.
    - The interpreter has its default settings.  On a [pyval] that is
      [ordinary] (no [int] of more than 4300 digits, the limit of the
      conversion of an [int] to text, and a nesting of at most 100, well
      within the recursion limit) [str] and [json.dumps] do what [py_str]
      and [Json.dumps] say; what they do on any other [pyval] is given by
      the host.  An object a call returns that is no [pyval] (one whose
      [__str__] or [__repr__] raises, a mapping that holds itself, ...) is
      an [opaque]: a record of what the operations of the loop give on it.
    - The thread started by [execute_with_timeout] is run to its outcome at
      the deadline: it has returned, it has raised, or it is still running.
      What a thread that is still running does after the deadline is not
      part of the loop of the model, in which the steps of a load that come
      before [exec_module] end within the deadline; the threads left before
      the assignment of the module come with the loop over what arrives,
      [serve]. *)

From Stdlib Require Import String Ascii List ZArith Bool Lia DecimalString.
Import ListNotations.
Local Open Scope string_scope.

(** ** Python strings *)

Module PyStr.

Definition code (c : ascii) : N := N_of_ascii c.

(** [str.isspace] on the code points below 256. *)
Definition isspace (c : ascii) : bool :=
  let n := code c in
  ((9 <=? n) && (n <=? 13) || (28 <=? n) && (n <=? 32)
   || (n =? 133) || (n =? 160))%N.

Fixpoint lstrip (s : string) : string :=
  match s with
  | EmptyString => EmptyString
  | String c r => if isspace c then lstrip r else s
  end.

Fixpoint rstrip (s : string) : string :=
  match s with
  | EmptyString => EmptyString
  | String c r =>
      match rstrip r with
      | EmptyString => if isspace c then EmptyString else String c EmptyString
      | r' => String c r'
      end
  end.

(** [s.strip()] *)
Definition strip (s : string) : string := rstrip (lstrip s).

(** Truth value of a string: it is not empty. *)
Definition truthy (s : string) : bool :=
  match s with EmptyString => false | _ => true end.

(** [needle in hay] *)
Fixpoint contains (needle hay : string) : bool :=
  if String.prefix needle hay then true
  else match hay with
       | EmptyString => false
       | String _ r => contains needle r
       end.

(** [sep.join(l)] *)
Fixpoint join (sep : string) (l : list string) : string :=
  match l with
  | [] => EmptyString
  | [x] => x
  | x :: r => x ++ sep ++ join sep r
  end.

(** [str(z)] for an [int]. *)
Definition of_Z (z : Z) : string := NilZero.string_of_int (Z.to_int z).

Definition hex_digit (n : N) : ascii :=
  if (n <? 10)%N then ascii_of_N (48 + n) else ascii_of_N (87 + n).

(** The two hexadecimal digits of a code point below 256, in lower case. *)
Definition hex2 (c : ascii) : string :=
  let n := code c in
  String (hex_digit (n / 16)) (String (hex_digit (n mod 16)) EmptyString).

Definition printable_ascii (c : ascii) : bool :=
  let n := code c in ((32 <=? n) && (n <=? 126))%N.

(** [str.isprintable] on one code point below 256. *)
Definition isprintable (c : ascii) : bool :=
  let n := code c in
  (printable_ascii c || (161 <=? n) && negb (n =? 173))%N.

Definition bslash : ascii := ascii_of_N 92.
Definition dquote : ascii := ascii_of_N 34.
Definition squote : ascii := ascii_of_N 39.
Definition newline : string := String (ascii_of_N 10) EmptyString.

Fixpoint mem (c : ascii) (s : string) : bool :=
  match s with
  | EmptyString => false
  | String d r => Ascii.eqb c d || mem c r
  end.

Definition repr_char (quote c : ascii) : string :=
  let n := code c in
  if Ascii.eqb c quote || Ascii.eqb c bslash then String bslash (String c EmptyString)
  else if (n =? 9)%N then String bslash "t"
  else if (n =? 10)%N then String bslash "n"
  else if (n =? 13)%N then String bslash "r"
  else if isprintable c then String c EmptyString
  else String bslash ("x" ++ hex2 c).

Fixpoint flat_map_string (f : ascii -> string) (s : string) : string :=
  match s with
  | EmptyString => EmptyString
  | String c r => f c ++ flat_map_string f r
  end.

(** Literals of this file write a double quote as a backquote; [dq] puts
    the double quotes back. *)
Fixpoint dq (s : string) : string :=
  match s with
  | EmptyString => EmptyString
  | String c r => String (if (code c =? 96)%N then dquote else c) (dq r)
  end.

(** [repr(s)] for a [str]. *)
Definition repr (s : string) : string :=
  let quote := if mem squote s && negb (mem dquote s) then dquote else squote in
  String quote (flat_map_string (repr_char quote) s ++ String quote EmptyString).

End PyStr.

(** ** Python values *)

#[warnings="-register-all"]
Inductive pyval : Type :=
| PNone
| PBool (b : bool)
| PInt (z : Z)
| PFloat (repr : string)
| PStr (s : string)
| PList (l : list pyval)
| PTuple (l : list pyval)
| PDict (d : list (pyval * pyval))
| PObj (type_name str_text repr_text : string).

(** [type(v).__name__] *)
Definition type_name (v : pyval) : string :=
  match v with
  | PNone => "NoneType"
  | PBool _ => "bool"
  | PInt _ => "int"
  | PFloat _ => "float"
  | PStr _ => "str"
  | PList _ => "list"
  | PTuple _ => "tuple"
  | PDict _ => "dict"
  | PObj n _ _ => n
  end.

(** [repr(v)] *)
Fixpoint py_repr (v : pyval) : string :=
  match v with
  | PNone => "None"
  | PBool b => if b then "True" else "False"
  | PInt z => PyStr.of_Z z
  | PFloat r => r
  | PStr s => PyStr.repr s
  | PList l => "[" ++ PyStr.join ", " (map py_repr l) ++ "]"
  | PTuple l =>
      match l with
      | [x] => "(" ++ py_repr x ++ ",)"
      | _ => "(" ++ PyStr.join ", " (map py_repr l) ++ ")"
      end
  | PDict d =>
      "{" ++ PyStr.join ", "
               (map (fun kv => py_repr (fst kv) ++ ": " ++ py_repr (snd kv)) d)
          ++ "}"
  | PObj _ _ r => r
  end.

(** [str(v)], which is what an f-string field [{v}] inserts. *)
Definition py_str (v : pyval) : string :=
  match v with
  | PStr s => s
  | PObj _ s _ => s
  | _ => py_repr v
  end.

(** The object is a [dict]. *)
Definition is_dict (v : pyval) : bool :=
  match v with
  | PDict _ => true
  | _ => false
  end.

(** The [int] has more than 4300 decimal digits: with the default
    [sys.int_max_str_digits], its conversion to text raises [ValueError]. *)
Definition long_int (z : Z) : bool :=
  (4300 <? String.length (PyStr.of_Z (Z.abs z)))%nat.

Fixpoint holds_long_int (v : pyval) : bool :=
  match v with
  | PInt z => long_int z
  | PList l | PTuple l => existsb holds_long_int l
  | PDict d =>
      existsb (fun kv => holds_long_int (fst kv) || holds_long_int (snd kv)) d
  | _ => false
  end.

(** The number of containers around the innermost part of an object. *)
Fixpoint nesting (v : pyval) : nat :=
  match v with
  | PList l | PTuple l =>
      S (fold_right (fun x n => Nat.max (nesting x) n) 0%nat l)
  | PDict d =>
      S (fold_right
           (fun kv n =>
              Nat.max (Nat.max (nesting (fst kv)) (nesting (snd kv))) n)
           0%nat d)
  | _ => 0%nat
  end.

(** The objects on which [repr], [str] and [json.dumps] are the functions
    of this file. *)
Definition ordinary (v : pyval) : bool :=
  negb (holds_long_int v) && (nesting v <=? 100)%nat.

(** [d.get(key)] for a [str] key: the value, or [None]. *)
Fixpoint dict_get (key : string) (d : list (pyval * pyval)) : pyval :=
  match d with
  | [] => PNone
  | (PStr k, v) :: r => if String.eqb k key then v else dict_get key r
  | _ :: r => dict_get key r
  end.

(** ** The JSON encoder, [json.dumps] with its default options *)

Module Json.

(** One character of [py_encode_basestring_ascii]. *)
Definition escape_char (c : ascii) : string :=
  let n := PyStr.code c in
  if Ascii.eqb c PyStr.bslash then String PyStr.bslash (String PyStr.bslash EmptyString)
  else if Ascii.eqb c PyStr.dquote then String PyStr.bslash (String PyStr.dquote EmptyString)
  else if (n =? 8)%N then String PyStr.bslash "b"
  else if (n =? 12)%N then String PyStr.bslash "f"
  else if (n =? 10)%N then String PyStr.bslash "n"
  else if (n =? 13)%N then String PyStr.bslash "r"
  else if (n =? 9)%N then String PyStr.bslash "t"
  else if PyStr.printable_ascii c then String c EmptyString
  else String PyStr.bslash ("u00" ++ PyStr.hex2 c).

Definition encode_str (s : string) : string :=
  String PyStr.dquote
    (PyStr.flat_map_string escape_char s ++ String PyStr.dquote EmptyString).

Definition floatstr (r : string) : string :=
  if String.eqb r "nan" then "NaN"
  else if String.eqb r "inf" then "Infinity"
  else if String.eqb r "-inf" then "-Infinity"
  else r.

(** The text a dictionary key is turned into, or [None] where the encoder
    raises [TypeError]. *)
Definition key_text (k : pyval) : option string :=
  match k with
  | PStr s => Some s
  | PFloat r => Some (floatstr r)
  | PBool b => Some (if b then "true" else "false")
  | PNone => Some "null"
  | PInt z => Some (PyStr.of_Z z)
  | _ => None
  end.

Definition all_some {A} (l : list (option A)) : option (list A) :=
  fold_right (fun o acc =>
                match o, acc with
                | Some x, Some r => Some (x :: r)
                | _, _ => None
                end) (Some []) l.

(** [json.dumps(v)]; [None] where it raises [TypeError]. *)
Fixpoint dumps (v : pyval) : option string :=
  match v with
  | PNone => Some "null"
  | PBool b => Some (if b then "true" else "false")
  | PInt z => Some (PyStr.of_Z z)
  | PFloat r => Some (floatstr r)
  | PStr s => Some (encode_str s)
  | PList l | PTuple l =>
      match all_some (map dumps l) with
      | Some parts => Some ("[" ++ PyStr.join ", " parts ++ "]")
      | None => None
      end
  | PDict d =>
      match all_some
              (map (fun kv =>
                      match key_text (fst kv), dumps (snd kv) with
                      | Some k, Some x => Some (encode_str k ++ ": " ++ x)
                      | _, _ => None
                      end) d) with
      | Some parts => Some ("{" ++ PyStr.join ", " parts ++ "}")
      | None => None
      end
  | PObj _ _ _ => None
  end.

End Json.


(** ** Decoded JSON: what [json.loads] returns *)

#[warnings="-register-all"]
Inductive json : Type :=
| JNull
| JBool (b : bool)
| JInt (z : Z)
| JFloat (repr : string)
| JStr (s : string)
| JList (l : list json)
| JDict (d : list (string * json)).

(** The Python object a decoded value is. *)
Fixpoint to_py (j : json) : pyval :=
  match j with
  | JNull => PNone
  | JBool b => PBool b
  | JInt z => PInt z
  | JFloat r => PFloat r
  | JStr s => PStr s
  | JList l => PList (map to_py l)
  | JDict d => PDict (map (fun kv => (PStr (fst kv), to_py (snd kv))) d)
  end.

(** [event.get(key)] on a decoded object. *)
Fixpoint json_get (key : string) (d : list (string * json)) : json :=
  match d with
  | [] => JNull
  | (k, v) :: r => if String.eqb k key then v else json_get key r
  end.

(** [json.dumps] of a value built from decoded values and strings; the
    encoder does not fail on these ([dumps_to_py]). *)
Definition json_text (j : json) : string :=
  match Json.dumps (to_py j) with
  | Some s => s
  | None => EmptyString
  end.

(** ** Exceptions and tracebacks *)

(** What happens on a real stream: a write of a text, or a flush. *)
Inductive io_event : Type :=
| Write (s : string)
| Flush.

(** One entry of a traceback: the code's file, the line, the function and
    the text of the line as [linecache] gives it (empty when unavailable). *)
Record frame : Type := {
  co_filename : string;
  tb_lineno : Z;
  co_name : string;
  source_line : string
}.

(** An exception instance, as far as the host looks at it:
    - the name of its class;
    - whether it is an instance of [Exception]: an instance of
      [BaseException] that is not, such as [SystemExit] or
      [KeyboardInterrupt], passes an [except Exception] clause;
    - whether it is an instance of [TimeoutError];
    - its truth value [bool(e)], which is true unless the class defines
      [__bool__] or [__len__] otherwise;
    - [str(e)], for an [__str__] that returns;
    - the exception that [str(e)] raises, for an [__str__] that does not
      return;
    - what the hook of [threading] for an exception that ends a thread
      writes to [sys.stderr] for it (nothing for [SystemExit]);
    - [e.__traceback__] as the list of its entries, outermost first. *)
#[warnings="-register-all"]
Inductive exn : Type := {
  exc_type : string;
  exc_is_exception : bool;
  exc_is_timeout : bool;
  exc_bool : bool;
  exc_str : string;
  exc_str_raises : option exn;
  exc_report : list io_event;
  exc_tb : list frame
}.

(** The exception has passed through the frame [f]: the traceback gets a new
    first entry. *)
Definition through (f : frame) (e : exn) : exn :=
  {| exc_type := exc_type e; exc_is_exception := exc_is_exception e;
     exc_is_timeout := exc_is_timeout e; exc_bool := exc_bool e;
     exc_str := exc_str e; exc_str_raises := exc_str_raises e;
     exc_report := exc_report e; exc_tb := f :: exc_tb e |}.

(** An instance of a class of the standard library derived from
    [Exception], made by [type(message)]: it is true and [str] gives the
    message. *)
Definition plain_exn (type : string) (is_timeout : bool) (message : string)
           (tb : list frame) : exn :=
  {| exc_type := type; exc_is_exception := true; exc_is_timeout := is_timeout;
     exc_bool := true; exc_str := message; exc_str_raises := None;
     exc_report := []; exc_tb := tb |}.

Module Traceback.

(** One element of [traceback.format_list]: the file line, then the source
    text when there is one. *)
Definition format_frame (f : frame) : string :=
  PyStr.dq "  File `" ++ co_filename f ++ PyStr.dq "`, line "
    ++ PyStr.of_Z (tb_lineno f) ++ ", in " ++ co_name f ++ PyStr.newline
    ++ (if PyStr.truthy (PyStr.strip (source_line f))
        then "    " ++ PyStr.strip (source_line f) ++ PyStr.newline
        else EmptyString).

Definition format_list (l : list frame) : list string := map format_frame l.

(** A traceback object is the list of the entries from it onwards, its
    [tb_next] chain; [traceback.extract_tb] walks that chain to its end. *)
Definition extract_tb (tb : list frame) : list frame := tb.

End Traceback.

(** ** Streams *)

(** A file object: a real stream of the process, or an interceptor.
    [sys.stdout] is bound to one of these. *)
Inductive sink : Type :=
| RealStream
| Interceptor (original_stdout : sink) (message_builder : string -> string).

Module OutputInterceptor.

(** [f.flush()] for the object [f] bound to [sys.stdout];
    [OutputInterceptor.flush] does nothing. *)
Definition flush (f : sink) (log : list io_event) : list io_event :=
  match f with
  | RealStream => log ++ [Flush]
  | Interceptor _ _ => log
  end.

(** [f.write(message)]; for an interceptor this is
    [OutputInterceptor.write]. *)
Fixpoint write (f : sink) (message : string) (log : list io_event)
  : list io_event :=
  match f with
  | RealStream => log ++ [Write message]
  | Interceptor original_stdout message_builder =>
      if PyStr.truthy (PyStr.strip message) then
        flush original_stdout
          (write original_stdout (message_builder (PyStr.strip message)) log)
      else log
  end.

End OutputInterceptor.

(** [print(text, file=f)]: the text, then the line end, as two writes. *)
Definition print_to (f : sink) (text : string) (log : list io_event)
  : list io_event :=
  OutputInterceptor.write f PyStr.newline (OutputInterceptor.write f text log).

(** [get_standard_output_message] *)
Definition get_standard_output_message (message : string) : string :=
  json_text (JDict [("Event", JStr "StandardOutput"); ("Status", JStr "ok");
                    ("Data", JStr message)]) ++ PyStr.newline.

(** ** The handler unit and the process *)

(** What the main thread gets from a call. *)
Inductive result (A : Type) : Type :=
| Ok (a : A)
| Raise (e : exn).
Arguments Ok {A} a.
Arguments Raise {A} e.

(** What [json.dumps] makes of an object: the text; a [TypeError] or a
    [ValueError], which the loop catches; or any other exception, such as
    the [RecursionError] for nesting that is too deep. *)
Inductive dumped : Type :=
| Dumped (text : string)
| Refused
| DumpRaised (e : exn).

(** An object that is not a [pyval] and not [None], as far as the loop looks
    at the result of a call: [type(o).__name__], [isinstance(o, dict)],
    [json.dumps(o)], and [str(o)], which is what an f-string field and
    [print] insert. *)
Record opaque : Type := {
  opaque_type_name : string;
  opaque_is_dict : bool;
  opaque_dumps : dumped;
  opaque_str : result string
}.

(** What [json.dumps] and [str] do on a [pyval] that is not [ordinary], in
    an interpreter that follows a nesting of 100 and no more: on an [int]
    of more than 4300 digits both raise [ValueError], and otherwise both
    raise [RecursionError]. *)
Definition default_beyond (v : pyval) : dumped * result string :=
  if holds_long_int v then
    (Refused,
     Raise (plain_exn "ValueError" false
              ("Exceeds the limit (4300 digits) for integer string conversion; "
                 ++ "use sys.set_int_max_str_digits() to increase the limit")
              []))
  else
    (DumpRaised
       (plain_exn "RecursionError" false
          "maximum recursion depth exceeded while encoding a JSON object" []),
     Raise (plain_exn "RecursionError" false
              "maximum recursion depth exceeded while getting the repr of an object"
              [])).

(** The object a call returned. *)
Inductive returned : Type :=
| Value (r : pyval)
| Other (o : opaque).

(** How far a thread got by the deadline: the code returned a [pyval], it
    returned another object (which top-level code does not), an exception
    left it, whether an instance of [Exception] or not, or it is still
    running. *)
Inductive outcome (A : Type) : Type :=
| Returned (a : A)
| ReturnedOther (o : opaque)
| Raised (e : exn)
| StillRunning.
Arguments Returned {A} a.
Arguments ReturnedOther {A} o.
Arguments Raised {A} e.
Arguments StillRunning {A}.

(** One run of handler code up to the deadline: the texts it passed to
    [sys.stdout.write], in order, the module's globals it leaves, and how far
    it got. *)
Record run (G A : Type) : Type := {
  run_writes : list string;
  run_globals : G;
  run_outcome : outcome A
}.
Arguments run_writes {G A} r.
Arguments run_globals {G A} r.
Arguments run_outcome {G A} r.

(** The source unit at [filename]: its top-level code, run on a fresh module,
    and the attributes of the module, as functions of the module's globals
    [G].  A raised exception carries the traceback entries from the handler
    code inwards. *)
Record handler_unit (G : Type) : Type := {
  exec_module : run G unit;
  has_attr : G -> string -> bool;
  call_attr : string -> G -> list pyval -> run G pyval
}.
Arguments exec_module {G} h.
Arguments has_attr {G} h g name.
Arguments call_attr {G} h name g args.

(** What the loader finds at [filename]: nothing, a file for which
    [spec_from_file_location] has no loader (then [module_from_spec(None)]
    raises the given exception), or a source file. *)
Inductive file_status : Type :=
| Missing
| NoLoader (e : exn)
| SourceFile.

(** The module object made by [module_from_spec]: its identity and its
    globals. *)
Record module_obj (G : Type) : Type := {
  mod_id : nat;
  mod_globals : G
}.
Arguments mod_id {G} m.
Arguments mod_globals {G} m.

(** The state of the process: the two real streams, the binding of
    [sys.stdout], the processor's [module] field, and a count of the
    executions of [exec_module]. *)
Record process (G : Type) : Type := {
  stdout_log : list io_event;
  stderr_log : list io_event;
  sys_stdout : sink;
  module : option (module_obj G);
  loads : nat
}.
Arguments stdout_log {G} p.
Arguments stderr_log {G} p.
Arguments sys_stdout {G} p.
Arguments module {G} p.
Arguments loads {G} p.

(** What [json.loads] makes of a text: the value; a [JSONDecodeError], which
    is a [ValueError]; or any other exception, such as the [RecursionError]
    for nesting that is too deep. *)
Inductive decoded : Type :=
| Decoded (j : json)
| Undecodable
| DecoderRaised (e : exn).

(** What is fixed for a run of the host: the processor's [filename] and
    [timeout], the path of the host's own source file, the file system's
    answer for [filename], the unit found there, the decoder [json.loads],
    and what [json.dumps] and [str] do on a [pyval] that is not
    [ordinary]. *)
Record host (G : Type) : Type := {
  filename : string;
  timeout : pyval;
  host_file : string;
  file_state : file_status;
  unit_at : handler_unit G;
  json_loads : string -> decoded;
  beyond : pyval -> dumped * result string
}.
Arguments beyond {G} h v.
Arguments filename {G} h.
Arguments timeout {G} h.
Arguments host_file {G} h.
Arguments file_state {G} h.
Arguments unit_at {G} h.
Arguments json_loads {G} h s.

Definition initial {G : Type} : process G :=
  {| stdout_log := []; stderr_log := []; sys_stdout := RealStream;
     module := None; loads := 0 |}.

Section Process.

Context {G : Type}.

Definition set_stdout_log (p : process G) (l : list io_event) : process G :=
  {| stdout_log := l; stderr_log := stderr_log p; sys_stdout := sys_stdout p;
     module := module p; loads := loads p |}.

Definition set_stderr_log (p : process G) (l : list io_event) : process G :=
  {| stdout_log := stdout_log p; stderr_log := l; sys_stdout := sys_stdout p;
     module := module p; loads := loads p |}.

Definition set_sys_stdout (p : process G) (f : sink) : process G :=
  {| stdout_log := stdout_log p; stderr_log := stderr_log p; sys_stdout := f;
     module := module p; loads := loads p |}.

Definition set_globals (p : process G) (g : G) : process G :=
  {| stdout_log := stdout_log p; stderr_log := stderr_log p;
     sys_stdout := sys_stdout p;
     module := match module p with
               | Some m => Some {| mod_id := mod_id m; mod_globals := g |}
               | None => None
               end;
     loads := loads p |}.

(** The handler's writes, each through the current [sys.stdout]. *)
Definition emit (writes : list string) (p : process G) : process G :=
  set_stdout_log p
    (fold_left (fun log m => OutputInterceptor.write (sys_stdout p) m log)
       writes (stdout_log p)).

(** [print_output] *)
Definition print_output (event : json) (status message : string)
           (p : process G) : process G :=
  let text := json_text (JDict [("Event", event); ("Status", JStr status);
                                ("Data", JStr message)]) in
  let p1 := set_stdout_log p (print_to (sys_stdout p) text (stdout_log p)) in
  set_stdout_log p1 (OutputInterceptor.flush (sys_stdout p1) (stdout_log p1)).

(** [print_error] *)
Definition print_error (event : json) (message : string) (p : process G)
  : process G :=
  let p1 := set_stderr_log p
              (print_to RealStream (message ++ PyStr.newline) (stderr_log p)
                 ++ [Flush]) in
  let result := JDict [("status", JStr "error");
                       ("message", JStr "see error log for details")] in
  print_output event "error" (json_text result) p1.

End Process.

(** ** The host *)

(** How the [with] block of [start_listening] is left: control falls out of
    it with [result] bound, by [continue], or by an exception. *)
Inductive block_exit : Type :=
| Fell (result : returned)
| Continued
| Threw (e : exn).

Inductive step : Type :=
| Continue
| Halt (e : exn).

Definition is_str (j : json) (s : string) : bool :=
  match j with
  | JStr t => String.eqb t s
  | _ => false
  end.

Section Host.

Context {G : Type} (H : host G).

Definition host_frame (line : Z) (name text : string) : frame :=
  {| co_filename := host_file H; tb_lineno := line; co_name := name;
     source_line := PyStr.dq text |}.

Definition new_exn (type : string) (is_timeout : bool) (message : string)
           (f : frame) : exn :=
  plain_exn type is_timeout message [f].

(** *** [DataProcessor] *)

(** [_load_module].  The test of the file and the making of the spec and
    of the module are taken to end within the deadline of the call, so
    [self.module] is set by then; the top-level code may still be running
    at the deadline. *)
Definition _load_module (p : process G) : process G * outcome unit :=
  match file_state H with
  | Missing =>
      (p, Raised (new_exn "FileNotFoundError" false
                    ("File " ++ filename H ++ " does not exist")
                    (host_frame 27 "_load_module"
                       "raise FileNotFoundError(f`File {self.filename} does not exist`)")))
  | NoLoader e =>
      (p, Raised (through
                    (host_frame 30 "_load_module"
                       "self.module = importlib.util.module_from_spec(spec)") e))
  | SourceFile =>
      let r := exec_module (unit_at H) in
      let p1 := {| stdout_log := stdout_log p; stderr_log := stderr_log p;
                   sys_stdout := sys_stdout p;
                   module := Some {| mod_id := loads p;
                                     mod_globals := run_globals r |};
                   loads := S (loads p) |} in
      (emit (run_writes r) p1,
       match run_outcome r with
       | Returned _ | ReturnedOther _ => Returned tt
       | Raised e =>
           Raised (through
                     (host_frame 31 "_load_module"
                        "spec.loader.exec_module(self.module)") e)
       | StillRunning => StillRunning
       end)
  end.

(** The common shape of the three [execute_on_...] methods: [attr] is the
    function looked up, [name] the method, and the three lines are those of
    the load, of the call and of the [raise]. *)
Definition execute_on (attr name : string) (l_load l_call l_raise : Z)
           (call_text : string) (args : list pyval) (p : process G)
  : process G * outcome pyval :=
  let '(p1, loaded) :=
    match module p with
    | None => _load_module p
    | Some _ => (p, Returned tt)
    end in
  match loaded with
  | Raised e =>
      (p1, Raised (through (host_frame l_load name "self._load_module()") e))
  | StillRunning => (p1, StillRunning)
  | Returned _ | ReturnedOther _ =>
      match module p1 with
      | Some m =>
          if has_attr (unit_at H) (mod_globals m) attr then
            let r := call_attr (unit_at H) attr (mod_globals m) args in
            (emit (run_writes r) (set_globals p1 (run_globals r)),
             match run_outcome r with
             | Raised e => Raised (through (host_frame l_call name call_text) e)
             | o => o
             end)
          else
            (p1, Raised (new_exn "AttributeError" false
                           ("The module does not have an '" ++ attr
                              ++ "' function.")
                           (host_frame l_raise name
                              ("raise AttributeError(`The module does not have an '"
                                 ++ attr ++ "' function.`)"))))
      | None =>
          (p1, Raised (new_exn "AttributeError" false
                         ("The module does not have an '" ++ attr
                            ++ "' function.")
                         (host_frame l_raise name
                            ("raise AttributeError(`The module does not have an '"
                               ++ attr ++ "' function.`)"))))
      end
  end.

Definition execute_on_create (data : pyval) :=
  execute_on "on_create" "execute_on_create" 36 39 41
    "return self.module.on_create(data)" [data].

Definition execute_on_receive (data : pyval) :=
  execute_on "on_receive" "execute_on_receive" 46 49 51
    "return self.module.on_receive(data)" [data].

Definition execute_on_destroy :=
  execute_on "on_destroy" "execute_on_destroy" 56 59 61
    "return self.module.on_destroy()" [].

Definition target_frame : frame :=
  host_frame 70 "target" ("result = func(" ++ "*args)").

Definition reraise_frame : frame :=
  host_frame 81 "execute_with_timeout" "raise exception".

Definition timeout_error : exn :=
  new_exn "TimeoutError" true
    ("Execution timed out after " ++ py_str (timeout H) ++ " seconds")
    (host_frame 79 "execute_with_timeout"
       "raise TimeoutError(f`Execution timed out after {self.timeout} seconds`)").

(** [execute_with_timeout]: [func] is the call the thread makes, the
    function applied to its arguments; the thread is joined for [timeout]
    seconds.  [target] keeps an instance of [Exception] in [exception]; any
    other exception ends the thread, and the hook of [threading] reports it
    on [sys.stderr].  After the join, [exception] is raised when it is
    true; otherwise [result] is returned, which is still [None] when the
    call raised. *)
Definition execute_with_timeout
           (func : process G -> process G * outcome pyval) (p : process G)
  : process G * result returned :=
  let '(p1, o) := func p in
  match o with
  | StillRunning =>
      (p1, Raise timeout_error)
  | Raised e =>
      if exc_is_exception e then
        if exc_bool e then
          (p1, Raise (through reraise_frame (through target_frame e)))
        else (p1, Ok (Value PNone))
      else
        (set_stderr_log p1
           (stderr_log p1 ++ exc_report (through target_frame e)),
         Ok (Value PNone))
  | Returned r => (p1, Ok (Value r))
  | ReturnedOther o => (p1, Ok (Other o))
  end.

(** *** [ProcessEvent] *)

(** The [with self.stdout_interceptor(...)] block around [body]. *)
Definition stdout_interceptor {A : Type} (message_builder : string -> string)
           (body : process G -> process G * A) (p : process G)
  : process G * A :=
  let old_stdout := sys_stdout p in
  let '(p1, a) :=
    body (set_sys_stdout p (Interceptor old_stdout message_builder)) in
  (set_sys_stdout p1 old_stdout, a).

(** The traceback objects kept by the loop of
    [filter_processor_traceback]. *)
Fixpoint filtered_tb (tb : list frame) : list (list frame) :=
  match tb with
  | [] => []
  | f :: tb_next =>
      if PyStr.contains (filename H) (co_filename f)
      then tb :: filtered_tb tb_next
      else filtered_tb tb_next
  end.

Definition no_relevant_trace : string :=
  "No relevant stack trace found from the processor script.".

Definition filter_processor_traceback (exc : exn) : string :=
  match filtered_tb (exc_tb exc) with
  | first :: _ =>
      String.concat EmptyString
        (Traceback.format_list (Traceback.extract_tb first))
  | [] => no_relevant_trace
  end.

Definition default_result : pyval :=
  PDict [(PStr "status", PStr "default");
         (PStr "message", PStr "No result generated")].

(** The body of the [with] block of [start_listening]. *)
Definition dispatch (event_type event_data : json) (p : process G)
  : process G * block_exit :=
  let call line text func :=
    let '(p1, r) := execute_with_timeout func p in
    (p1, match r with
         | Ok v => Fell v
         | Raise e => Threw (through (host_frame line "start_listening" text) e)
         end) in
  if is_str event_type "OnCreate" then
    call 132%Z
      ("result = self.processor.execute_with_timeout("
               ++ "self.processor.execute_on_create, event_data)")
      (execute_on_create (to_py event_data))
  else if is_str event_type "OnReceive" then
    call 134%Z
      ("result = self.processor.execute_with_timeout("
               ++ "self.processor.execute_on_receive, event_data)")
      (execute_on_receive (to_py event_data))
  else if is_str event_type "OnDestroy" then
    call 136%Z
      "result = self.processor.execute_with_timeout(self.processor.execute_on_destroy)"
      execute_on_destroy
  else
    (print_error event_type
       ("Unknown event type: " ++ py_str (to_py event_type)) p, Continued).

(** The message for a result of the type named [type] whose text is
    [text]. *)
Definition invalid_result_text (type text : string) : string :=
  "Invalid result format. Expecting a dictionary, got " ++ type ++ ": " ++ text.

Definition invalid_result_message (result : pyval) : string :=
  invalid_result_text (type_name result) (py_str result).

Definition timeout_message : string := "Error: Function timed out".

Definition exception_message (e : exn) : string :=
  "Error: " ++ exc_str e ++ PyStr.newline
    ++ "Processor traceback:" ++ PyStr.newline
    ++ filter_processor_traceback e.

(** The entries of [start_listening] for what leaves the loop from the
    handling of an exception or of a result. *)
Definition str_frame : frame :=
  host_frame 145 "start_listening"
    "print_error(event_type, f`Error: {str(e)}\nProcessor traceback:\n{processor_traceback}`)".

Definition dumps_frame : frame :=
  host_frame 155 "start_listening" "output = json.dumps(result)".

Definition result_frame : frame :=
  host_frame 160 "start_listening"
    "print_error(event_type, f`Invalid result format. Expecting a dictionary, got {type(result).__name__}: {result}`)".

(** The [except (TypeError, ValueError)] clause for a result: the message
    is formatted, which takes the text of the result, and reported. *)
Definition refuse_result (event_type : json) (type : string)
           (text : result string) (p1 : process G) : process G * step :=
  match text with
  | Ok s => (print_error event_type (invalid_result_text type s) p1, Continue)
  | Raise e => (p1, Halt (through result_frame e))
  end.

(** The code after the [try] statement for a result of the type named
    [type], given whether it is a [dict], what [json.dumps] makes of it and
    what [str] makes of it. *)
Definition respond_object (event_type : json) (type : string)
           (is_mapping : bool) (encoding : dumped) (text : result string)
           (p1 : process G) : process G * step :=
  if is_mapping then
    match encoding with
    | Dumped output => (print_output event_type "ok" output p1, Continue)
    | Refused => refuse_result event_type type text p1
    | DumpRaised e => (p1, Halt (through dumps_frame e))
    end
  else refuse_result event_type type text p1.

(** What [start_listening] does with the way the [with] block was left,
    once [sys.stdout] is restored: the [except] clauses and the code after
    the [try] statement.  An exception that is no instance of [Exception]
    passes both clauses.  Nothing catches what [str(e)], the formatting of
    the result or, [TypeError] and [ValueError] apart, [json.dumps] raise:
    it leaves the loop. *)
Definition respond (event_type : json) (exit : block_exit) (p1 : process G)
  : process G * step :=
  match exit with
  | Continued => (p1, Continue)
  | Threw e =>
      if exc_is_timeout e then
        (print_error event_type timeout_message p1, Continue)
      else if exc_is_exception e then
        match exc_str_raises e with
        | Some e' => (p1, Halt (through str_frame e'))
        | None => (print_error event_type (exception_message e) p1, Continue)
        end
      else (p1, Halt e)
  | Fell (Value result) =>
      let result :=
        match result with PNone => default_result | _ => result end in
      if ordinary result then
        respond_object event_type (type_name result) (is_dict result)
          (match Json.dumps result with
           | Some output => Dumped output
           | None => Refused
           end)
          (Ok (py_str result)) p1
      else
        respond_object event_type (type_name result) (is_dict result)
          (fst (beyond H result)) (snd (beyond H result)) p1
  | Fell (Other o) =>
      respond_object event_type (opaque_type_name o) (opaque_is_dict o)
        (opaque_dumps o) (opaque_str o) p1
  end.

(** The [ValueError] raised for a line that does not decode. *)
Definition invalid_input (line : string) : exn :=
  new_exn "ValueError" false ("Invalid input format: " ++ line)
    (host_frame 124 "start_listening"
       "raise(ValueError(f`Invalid input format: {line}`))").

(** The [AttributeError] of [event.get] on a decoded value that is not a
    [dict]. *)
Definition no_get (event : json) : exn :=
  new_exn "AttributeError" false
    ("'" ++ type_name (to_py event) ++ "' object has no attribute 'get'")
    (host_frame 126 "start_listening" "event_type = event.get(`Event`)").

(** The entry of [start_listening] for what [json.loads] raises and the
    loop does not catch. *)
Definition loads_frame : frame :=
  host_frame 121 "start_listening" "event = json.loads(line.strip())".

(** One turn of the loop of [start_listening]. *)
Definition process_line (line : string) (p : process G) : process G * step :=
  match json_loads H (PyStr.strip line) with
  | Undecodable => (p, Halt (invalid_input line))
  | DecoderRaised e => (p, Halt (through loads_frame e))
  | Decoded (JDict event) =>
      let event_type := json_get "Event" event in
      let event_data := json_get "Data" event in
      let '(p1, exit) :=
        stdout_interceptor get_standard_output_message
          (dispatch event_type event_data) p in
      respond event_type exit p1
  | Decoded event => (p, Halt (no_get event))
  end.

(** [start_listening]: the loop over the lines of [sys.stdin]; [Some e] when
    the exception [e] leaves the loop. *)
Fixpoint start_listening (lines : list string) (p : process G)
  : process G * option exn :=
  match lines with
  | [] => (p, None)
  | line :: rest =>
      match process_line line p with
      | (p1, Continue) => start_listening rest p1
      | (p1, Halt e) => (p1, Some e)
      end
  end.

End Host.

(** ** A decoder to run the host on concrete lines

    [Decoder.loads] follows [json.loads] on the texts made of objects, arrays,
    strings, integers, [true], [false] and [null], with escapes for code
    points below 256, as far as the values are [ordinary].  Texts with float
    literals are outside this fragment and are given no value here; the host
    is stated over any decoder. *)

Module Decoder.

Definition is_ws (c : ascii) : bool :=
  let n := PyStr.code c in ((n =? 32) || (n =? 9) || (n =? 10) || (n =? 13))%N.

Fixpoint skip_ws (s : string) : string :=
  match s with
  | String c r => if is_ws c then skip_ws r else s
  | EmptyString => EmptyString
  end.

Definition is_digit (c : ascii) : bool :=
  let n := PyStr.code c in ((48 <=? n) && (n <=? 57))%N.

Definition hex_val (c : ascii) : option N :=
  let n := PyStr.code c in
  if ((48 <=? n) && (n <=? 57))%N then Some (n - 48)%N
  else if ((97 <=? n) && (n <=? 102))%N then Some (n - 87)%N
  else if ((65 <=? n) && (n <=? 70))%N then Some (n - 55)%N
  else None.

Definition is_char (c : ascii) (n : N) : bool := (PyStr.code c =? n)%N.

(** The text after an opening quote: the decoded string and what follows
    the closing quote. *)
Fixpoint parse_string (s : string) : option (string * string) :=
  let cons c o :=
    match o with
    | Some (t, rest) => Some (String c t, rest)
    | None => None
    end in
  match s with
  | EmptyString => None
  | String c r =>
      if is_char c 34 then Some (EmptyString, r)
      else if is_char c 92 then
        match r with
        | String e r1 =>
            if is_char e 34 || is_char e 92 || is_char e 47
            then cons e (parse_string r1)
            else if is_char e 98 then cons (ascii_of_N 8) (parse_string r1)
            else if is_char e 102 then cons (ascii_of_N 12) (parse_string r1)
            else if is_char e 110 then cons (ascii_of_N 10) (parse_string r1)
            else if is_char e 114 then cons (ascii_of_N 13) (parse_string r1)
            else if is_char e 116 then cons (ascii_of_N 9) (parse_string r1)
            else if is_char e 117 then
              match r1 with
              | String h1 (String h2 (String h3 (String h4 r2))) =>
                  match hex_val h1, hex_val h2, hex_val h3, hex_val h4 with
                  | Some 0%N, Some 0%N, Some a, Some b =>
                      cons (ascii_of_N (16 * a + b)) (parse_string r2)
                  | _, _, _, _ => None
                  end
              | _ => None
              end
            else None
        | EmptyString => None
        end
      else if (PyStr.code c <? 32)%N then None
      else cons c (parse_string r)
  end.

Fixpoint parse_digits (acc : Z) (s : string) : Z * string :=
  match s with
  | String c r =>
      if is_digit c
      then parse_digits (10 * acc + Z.of_N (PyStr.code c - 48)) r
      else (acc, s)
  | EmptyString => (acc, s)
  end.

Definition starts_float_tail (s : string) : bool :=
  match s with
  | String c (String d r) =>
      (is_char c 46 && is_digit d)
      || ((is_char c 101 || is_char c 69)
          && (is_digit d
              || ((is_char d 43 || is_char d 45)
                  && match r with String x _ => is_digit x | _ => false end)))
  | _ => false
  end.

(** An integer literal without its sign. *)
Definition parse_nat (s : string) : option (Z * string) :=
  match s with
  | String c r =>
      if is_char c 48 then
        if starts_float_tail r then None else Some (0%Z, r)
      else if is_digit c then
        let '(z, rest) := parse_digits 0 s in
        if starts_float_tail rest then None else Some (z, rest)
      else None
  | EmptyString => None
  end.

(** Setting a key of a [dict]: a key already there keeps its place. *)
Fixpoint dict_set (k : string) (v : json) (d : list (string * json))
  : list (string * json) :=
  match d with
  | [] => [(k, v)]
  | (k', v') :: r =>
      if String.eqb k' k then (k, v) :: r else (k', v') :: dict_set k v r
  end.

Definition literal (word : string) (v : json) (s : string)
  : option (json * string) :=
  if String.prefix word s
  then Some (v, String.substring (String.length word)
                  (String.length s - String.length word) s)
  else None.

Fixpoint parse_value (fuel : nat) (s : string) : option (json * string) :=
  match fuel with
  | O => None
  | S n =>
      match s with
      | EmptyString => None
      | String c r =>
          if is_char c 34 then
            match parse_string r with
            | Some (t, rest) => Some (JStr t, rest)
            | None => None
            end
          else if is_char c 123 then
            match skip_ws r with
            | String c1 r1 =>
                if is_char c1 125 then Some (JDict [], r1)
                else parse_members n [] (String c1 r1)
            | EmptyString => None
            end
          else if is_char c 91 then
            match skip_ws r with
            | String c1 r1 =>
                if is_char c1 93 then Some (JList [], r1)
                else parse_elements n [] (String c1 r1)
            | EmptyString => None
            end
          else if is_char c 110 then literal "null" JNull s
          else if is_char c 116 then literal "true" (JBool true) s
          else if is_char c 102 then literal "false" (JBool false) s
          else if is_char c 45 then
            match parse_nat r with
            | Some (z, rest) => Some (JInt (- z), rest)
            | None => None
            end
          else
            match parse_nat s with
            | Some (z, rest) => Some (JInt z, rest)
            | None => None
            end
      end
  end

with parse_elements (fuel : nat) (acc : list json) (s : string)
     : option (json * string) :=
  match fuel with
  | O => None
  | S n =>
      match parse_value n s with
      | Some (v, rest) =>
          match skip_ws rest with
          | String c r =>
              if is_char c 44 then parse_elements n (acc ++ [v]) (skip_ws r)
              else if is_char c 93 then Some (JList (acc ++ [v]), r)
              else None
          | EmptyString => None
          end
      | None => None
      end
  end

with parse_members (fuel : nat) (acc : list (string * json)) (s : string)
     : option (json * string) :=
  match fuel with
  | O => None
  | S n =>
      match s with
      | String q r0 =>
          if is_char q 34 then
            match parse_string r0 with
            | Some (k, rest) =>
                match skip_ws rest with
                | String c r =>
                    if is_char c 58 then
                      match parse_value n (skip_ws r) with
                      | Some (v, rest1) =>
                          match skip_ws rest1 with
                          | String c1 r1 =>
                              if is_char c1 44
                              then parse_members n (dict_set k v acc) (skip_ws r1)
                              else if is_char c1 125
                                   then Some (JDict (dict_set k v acc), r1)
                                   else None
                          | EmptyString => None
                          end
                      | None => None
                      end
                    else None
                | EmptyString => None
                end
            | None => None
            end
          else None
      | EmptyString => None
      end
  end.

Definition loads (s : string) : option json :=
  match parse_value (2 * String.length s + 2) (skip_ws s) with
  | Some (v, rest) =>
      match skip_ws rest with
      | EmptyString => Some v
      | _ => None
      end
  | None => None
  end.

(** The decoder as the [json.loads] of a host, in an interpreter that
    follows a nesting of 100 and no more: an integer of more than 4300
    digits is refused with [ValueError], and deeper nesting raises
    [RecursionError]. *)
Definition decode (s : string) : decoded :=
  match loads s with
  | Some j =>
      if ordinary (to_py j) then Decoded j
      else if holds_long_int (to_py j) then Undecodable
      else DecoderRaised
             (plain_exn "RecursionError" false
                "maximum recursion depth exceeded while decoding a JSON array"
                [])
  | None => Undecodable
  end.

End Decoder.

(** ** Vocabulary of the statements *)

(** A line printed on a real stream: the text, the line end, the flush. *)
Definition line_events (text : string) : list io_event :=
  [Write text; Write PyStr.newline; Flush].

(** What [print_error] adds to the diagnostic stream for [message]. *)
Definition diagnostic_events (message : string) : list io_event :=
  [Write (message ++ PyStr.newline); Write PyStr.newline; Flush].

(** What one write adds to the real stream when [sys.stdout] is an
    interceptor over it. *)
Definition captured (message : string) : list io_event :=
  if PyStr.truthy (PyStr.strip message)
  then [Write (get_standard_output_message (PyStr.strip message)); Flush]
  else [].

(** The [Data] of an error response. *)
Definition error_data : string :=
  PyStr.dq "{`status`: `error`, `message`: `see error log for details`}".

Definition response (event : json) (status data : string) : string :=
  json_text (JDict [("Event", event); ("Status", JStr status);
                    ("Data", JStr data)]).

Definition error_response (event : json) : string :=
  response event "error" error_data.

Definition ok_response (event : json) (output : string) : string :=
  response event "ok" output.


(** The state in which the body of the [with] block starts. *)
Definition intercepted {G : Type} (p : process G) : process G :=
  set_sys_stdout p (Interceptor (sys_stdout p) get_standard_output_message).

Definition is_object (j : json) : bool :=
  match j with
  | JDict _ => true
  | _ => false
  end.

(** The lifecycle call an event type stands for, with the entry of
    [start_listening] in the traceback of what the call raises; [None] for
    any other event type. *)
Definition lifecycle_call {G : Type} (H : host G) (event_type event_data : json)
  : option (frame * (process G -> process G * outcome pyval)) :=
  if is_str event_type "OnCreate" then
    Some (host_frame H 132 "start_listening"
            ("result = self.processor.execute_with_timeout("
               ++ "self.processor.execute_on_create, event_data)"),
          execute_on_create H (to_py event_data))
  else if is_str event_type "OnReceive" then
    Some (host_frame H 134 "start_listening"
            ("result = self.processor.execute_with_timeout("
               ++ "self.processor.execute_on_receive, event_data)"),
          execute_on_receive H (to_py event_data))
  else if is_str event_type "OnDestroy" then
    Some (host_frame H 136 "start_listening"
            "result = self.processor.execute_with_timeout(self.processor.execute_on_destroy)",
          execute_on_destroy H)
  else None.

(** The payload of a response with status ok, for what the call returned:
    the encoding of the mapping, or of the default mapping for [None]. *)
Definition encoded_result (r : pyval) : option string :=
  match r with
  | PNone => Json.dumps default_result
  | PDict _ => if ordinary r then Json.dumps r else None
  | _ => None
  end.

(** The exception [e] of the thread as [start_listening] catches it: it has
    passed through [target], [execute_with_timeout] and the entry [fr] of
    [start_listening]. *)
Definition as_caught {G : Type} (H : host G) (fr : frame) (e : exn) : exn :=
  through fr (through (reraise_frame H) (through (target_frame H) e)).

(** The test of [filter_processor_traceback] on an entry: the name of its
    file contains the processor's [filename]. *)
Definition attributable {G : Type} (H : host G) (f : frame) : bool :=
  PyStr.contains (filename H) (co_filename f).

(** The exception is one that [execute_with_timeout] raises again: an
    instance of [Exception], which [target] keeps, that is true. *)
Definition reraised (e : exn) : bool := exc_is_exception e && exc_bool e.

(** How the [with] block is left for the outcome [o] of the thread. *)
Definition exit_of {G : Type} (H : host G) (fr : frame) (o : outcome pyval)
  : block_exit :=
  match o with
  | Returned r => Fell (Value r)
  | ReturnedOther o => Fell (Other o)
  | Raised e =>
      if reraised e then Threw (as_caught H fr e) else Fell (Value PNone)
  | StillRunning => Threw (through fr (timeout_error H))
  end.

(** What the end of the thread adds to the diagnostic stream: the report of
    an exception that [target] does not catch. *)
Definition thread_report {G : Type} (H : host G) (o : outcome pyval)
  : list io_event :=
  match o with
  | Raised e =>
      if exc_is_exception e then []
      else exc_report (through (target_frame H) e)
  | _ => []
  end.

(** The state after the join for the state [q] in which the thread left
    the process. *)
Definition joined {G : Type} (H : host G) (o : outcome pyval) (q : process G)
  : process G :=
  match o with
  | Raised e =>
      if exc_is_exception e then q
      else set_stderr_log q (stderr_log q ++ thread_report H o)
  | _ => q
  end.

(** The identity of the module the processor holds, if any. *)
Definition module_identity {G : Type} (p : process G) : option nat :=
  match module p with
  | Some m => Some (mod_id m)
  | None => None
  end.

(** From [p] to [q] the processor kept its module and ran no load, or it had
    no module and ran one load that gave it one. *)
Definition keeps_or_loads {G : Type} (p q : process G) : Prop :=
  (module_identity q = module_identity p /\ loads q = loads p)
  \/ (module_identity p = None /\ module_identity q = Some (loads p)
      /\ loads q = S (loads p)).

(** What a thread can do to the process: it leaves the binding of
    [sys.stdout] and the diagnostic stream alone, what it adds to the output
    log are writes through [sys.stdout], and it loads the module at most
    once, only when there is none. *)
Definition thread_effect {G : Type} (q q1 : process G) : Prop :=
  sys_stdout q1 = sys_stdout q
  /\ stderr_log q1 = stderr_log q
  /\ (exists W, stdout_log q1 = stdout_log (emit W q))
  /\ keeps_or_loads q q1.

(** The exception is one for which the loop formats a diagnostic: an
    instance of [TimeoutError], for which the text is fixed, or an instance
    of [Exception] whose [__str__] returns. *)
Definition reportable (e : exn) : bool :=
  exc_is_timeout e
  || (exc_is_exception e
      && match exc_str_raises e with
         | None => true
         | Some _ => false
         end).


(** ** Threads left running by a timeout

    [execute_with_timeout] does not stop the thread of a call that timed
    out.  The loop above runs each thread to its outcome at the deadline.
    The definitions below add what a thread left running can do to the
    loading of the module: a thread that had not started on the call, or
    that had found no module and was still in the loader, before the
    assignment to [self.module], when its deadline passed, carries on
    later. *)

(** What arrives at the loop: a line; a line for which the thread of the
    call has not started on the call at the deadline; a line for which the
    thread of the call, when it finds no module, is still in the loader at
    the deadline and has assigned nothing; or the moment, between two
    turns, at which the oldest of the threads so left carries on. *)
Inductive arrival : Type :=
| Line (line : string)
| SlowStart (line : string)
| SlowLoad (line : string)
| Resumes.

(** The process as a thread left in the loader sees it: the thread has
    tested [self.module] before, and found none. *)
Definition found_no_module {G : Type} (p : process G) : process G :=
  {| stdout_log := stdout_log p; stderr_log := stderr_log p;
     sys_stdout := sys_stdout p; module := None; loads := loads p |}.

Section Stragglers.

Context {G : Type} (H : host G).

(** What a thread left running still has to do. *)
Definition waiting : Type := process G -> process G * outcome pyval.

(** The turn for a line whose thread has changed nothing by the deadline:
    [execute_with_timeout] raises [TimeoutError], and the thread is left
    with its call, all of it, or the rest of it from the loader on when
    it is left in the loader.  When the line is not for a lifecycle call,
    or the thread is to be left in the loader and the processor holds a
    module, so that no thread enters the loader, the turn is the one of
    [process_line]. *)
Definition slow_turn (in_loader : bool) (line : string) (p : process G)
  : process G * step * option waiting :=
  match json_loads H (PyStr.strip line) with
  | Decoded (JDict event) =>
      let event_type := json_get "Event" event in
      let event_data := json_get "Data" event in
      match lifecycle_call H event_type event_data with
      | Some (fr, f) =>
          let timed_out :=
            let '(p1, exit) :=
              stdout_interceptor get_standard_output_message
                (fun q =>
                   let '(q1, r) :=
                     execute_with_timeout H (fun q0 => (q0, StillRunning)) q in
                   (q1, match r with
                        | Ok v => Fell v
                        | Raise e => Threw (through fr e)
                        end)) p in
            respond H event_type exit p1 in
          if in_loader then
            match module p with
            | None => (timed_out, Some (fun q => f (found_no_module q)))
            | Some _ => (process_line H line p, None)
            end
          else (timed_out, Some f)
      | None => (process_line H line p, None)
      end
  | _ => (process_line H line p, None)
  end.

(** A thread left running carries on, with [sys.stdout] as it is then: it
    makes its call, or, left in the loader, it assigns a new module, runs
    the top-level code and goes on with the call.  Nobody waits for it:
    what it returns or raises is dropped, but for the report of an
    exception that [target] does not catch. *)
Definition resume (k : waiting) (p : process G) : process G :=
  let '(q, o) := k p in joined H o q.

(** The loop over what arrives, with the threads left in the loader. *)
Fixpoint serve (arrivals : list arrival) (p : process G) (left : list waiting)
  : process G * list waiting * option exn :=
  match arrivals with
  | [] => (p, left, None)
  | Line line :: rest =>
      match process_line H line p with
      | (p1, Continue) => serve rest p1 left
      | (p1, Halt e) => (p1, left, Some e)
      end
  | SlowStart line :: rest =>
      let '(p1, st, k) := slow_turn false line p in
      let left1 := (left ++ match k with Some k => [k] | None => [] end)%list in
      match st with
      | Continue => serve rest p1 left1
      | Halt e => (p1, left1, Some e)
      end
  | SlowLoad line :: rest =>
      let '(p1, st, k) := slow_turn true line p in
      let left1 := (left ++ match k with Some k => [k] | None => [] end)%list in
      match st with
      | Continue => serve rest p1 left1
      | Halt e => (p1, left1, Some e)
      end
  | Resumes :: rest =>
      match left with
      | k :: others => serve rest (resume k p) others
      | [] => serve rest p []
      end
  end.

(** The process after what arrived. *)
Definition served (arrivals : list arrival) (p : process G)
           (left : list waiting) : process G :=
  fst (fst (serve arrivals p left)).

(** The threads still left running after what arrived. *)
Definition still_left (arrivals : list arrival) (p : process G)
           (left : list waiting) : list waiting :=
  snd (fst (serve arrivals p left)).

End Stragglers.

(** ** A handler unit to run the host on

    A unit with [on_create] and [on_receive] and without [on_destroy].  Its
    globals count the calls made.  [on_receive] acts on the key [do] of its
    argument. *)

Module Probe.

Definition handler_frame : frame :=
  {| co_filename := "/srv/plugins/probe.py"; tb_lineno := 12;
     co_name := "on_receive";
     source_line := PyStr.dq "    return json.loads(data[`text`])" |}.

Definition library_frame : frame :=
  {| co_filename := "/usr/lib/python3.12/json/decoder.py"; tb_lineno := 355;
     co_name := "raw_decode";
     source_line :=
       PyStr.dq "            raise JSONDecodeError(`Expecting value`, s, err.value) from None" |}.

Definition decode_error : exn :=
  (plain_exn "JSONDecodeError" false
            "Expecting value: line 1 column 1 (char 0)"
            [handler_frame; library_frame]).

(** An instance of a class derived from [Exception] that defines
    [__len__], with nothing in it: it is false. *)
Definition empty_batch : exn :=
  {| exc_type := "EmptyBatch"; exc_is_exception := true;
     exc_is_timeout := false; exc_bool := false; exc_str := EmptyString;
     exc_str_raises := None; exc_report := []; exc_tb := [handler_frame] |}.

(** [SystemExit], which is no instance of [Exception]; the hook of
    [threading] reports nothing for it. *)
Definition system_exit : exn :=
  {| exc_type := "SystemExit"; exc_is_exception := false;
     exc_is_timeout := false; exc_bool := true; exc_str := "1";
     exc_str_raises := None; exc_report := []; exc_tb := [handler_frame] |}.

(** An instance of a class derived from [Exception] whose [__str__] returns
    an [int]: [str] raises [TypeError]. *)
Definition unprintable : exn :=
  {| exc_type := "Unprintable"; exc_is_exception := true;
     exc_is_timeout := false; exc_bool := true; exc_str := EmptyString;
     exc_str_raises :=
       Some (plain_exn "TypeError" false
               "__str__ returned non-string (type int)" []);
     exc_report := []; exc_tb := [handler_frame] |}.

(** A [dict] nested deeper than the encoder and [repr] follow. *)
Definition too_deep : opaque :=
  let e := plain_exn "RecursionError" false
             "maximum recursion depth exceeded while encoding a JSON object"
             [] in
  {| opaque_type_name := "dict"; opaque_is_dict := true;
     opaque_dumps := DumpRaised e;
     opaque_str :=
       Raise (plain_exn "RecursionError" false
                "maximum recursion depth exceeded while getting the repr of an object"
                []) |}.

(** A [dict] holding an [int] of 4301 digits. *)
Definition too_long : pyval := PDict [(PStr "n", PInt (10 ^ 4300))].

Definition said (text : string) : list string := [text; PyStr.newline].

Definition on_receive (g : nat) (data : pyval) : run nat pyval :=
  let act := match data with PDict d => dict_get "do" d | _ => PNone end in
  match act with
  | PStr "x" =>
      {| run_writes := said "working" ++ said "  indented";
         run_globals := S g;
         run_outcome := Returned (PDict [(PStr "x", PInt 1)]) |}
  | PStr "raise" =>
      {| run_writes := []; run_globals := S g;
         run_outcome := Raised decode_error |}
  | PStr "hang" =>
      {| run_writes := said "started"; run_globals := S g;
         run_outcome := StillRunning |}
  | PStr "list" =>
      {| run_writes := []; run_globals := S g;
         run_outcome := Returned (PList [PInt 1]) |}
  | PStr "set" =>
      {| run_writes := []; run_globals := S g;
         run_outcome :=
           Returned (PDict [(PStr "s", PObj "set" "{1}" "{1}")]) |}
  | PStr "empty" =>
      {| run_writes := []; run_globals := S g;
         run_outcome := Raised empty_batch |}
  | PStr "exit" =>
      {| run_writes := []; run_globals := S g;
         run_outcome := Raised system_exit |}
  | PStr "unprintable" =>
      {| run_writes := []; run_globals := S g;
         run_outcome := Raised unprintable |}
  | PStr "deep" =>
      {| run_writes := []; run_globals := S g;
         run_outcome := ReturnedOther too_deep |}
  | PStr "long" =>
      {| run_writes := []; run_globals := S g;
         run_outcome := Returned too_long |}
  | _ =>
      {| run_writes := []; run_globals := S g; run_outcome := Returned PNone |}
  end.

Definition probe_unit : handler_unit nat :=
  {| exec_module :=
       {| run_writes := said "loading"; run_globals := 0;
          run_outcome := Returned tt |};
     has_attr := fun _ name =>
                   String.eqb name "on_create" || String.eqb name "on_receive";
     call_attr := fun name g args =>
                    if String.eqb name "on_receive"
                    then on_receive g (hd PNone args)
                    else {| run_writes := []; run_globals := S g;
                            run_outcome :=
                              Returned (PDict [(PStr "created", PBool true)]) |}
  |}.

Definition probe_host : host nat :=
  {| filename := "probe.py"; timeout := PInt 60;
     host_file := "/srv/host/test.py"; file_state := SourceFile;
     unit_at := probe_unit; json_loads := Decoder.decode;
     beyond := default_beyond |}.

(** A request line for [event], its [Data] holding [do]. *)
Definition request (event act : string) : string :=
  PyStr.dq ("{`Event`: `" ++ event ++ "`, `Data`: {`do`: `" ++ act ++ "`}}")
    ++ PyStr.newline.

End Probe.

(** ** Vocabulary of the further statements *)

(** The function of the unit a lifecycle event stands for. *)
Definition attr_of_event (event_type : json) : option string :=
  if is_str event_type "OnCreate" then Some "on_create"
  else if is_str event_type "OnReceive" then Some "on_receive"
  else if is_str event_type "OnDestroy" then Some "on_destroy"
  else None.

(** The arguments the function of a lifecycle event is called with: the
    [Data] of the request, but nothing for [OnDestroy]. *)
Definition args_of_event (event_type event_data : json) : list pyval :=
  if is_str event_type "OnCreate" then [to_py event_data]
  else if is_str event_type "OnReceive" then [to_py event_data]
  else [].

(** The text of the [AttributeError] for a missing function. *)
Definition missing_function (attr : string) : string :=
  "The module does not have an '" ++ attr ++ "' function.".

(** Every character is a printable ASCII character, from the space to the
    tilde. *)
Fixpoint all_printable (s : string) : bool :=
  match s with
  | EmptyString => true
  | String c r => PyStr.printable_ascii c && all_printable r
  end.

(** The host [H] with another answer of the file system for [filename]. *)
Definition with_file_state {G : Type} (H : host G) (st : file_status) : host G :=
  {| filename := filename H; timeout := timeout H; host_file := host_file H;
     file_state := st; unit_at := unit_at H; json_loads := json_loads H;
     beyond := beyond H |}.

(** The host [H] with another unit at [filename]. *)
Definition with_unit {G : Type} (H : host G) (u : handler_unit G) : host G :=
  {| filename := filename H; timeout := timeout H; host_file := host_file H;
     file_state := file_state H; unit_at := u; json_loads := json_loads H;
     beyond := beyond H |}.

(** The probe unit with top-level code that prints and then raises before
    any function is defined. *)
Definition broken_probe_unit : handler_unit nat :=
  {| exec_module :=
       {| run_writes := Probe.said "loading"; run_globals := 0;
          run_outcome :=
            Raised (plain_exn "ModuleNotFoundError" false
            "No module named 'calculator'"
            [{| co_filename := "/srv/plugins/probe.py";
            tb_lineno := 1; co_name := "<module>";
            source_line :=
            "from calculator.helper import Calculator" |}]) |};
     has_attr := fun _ _ => false;
     call_attr := call_attr Probe.probe_unit |}.

(** The probe unit with an [on_receive] that raises a [TimeoutError] of its
    own, as a read on a socket does. *)
Definition impatient_probe_unit : handler_unit nat :=
  {| exec_module := exec_module Probe.probe_unit;
     has_attr := has_attr Probe.probe_unit;
     call_attr := fun name g args =>
                    {| run_writes := []; run_globals := g;
                       run_outcome :=
                         Raised (plain_exn "TimeoutError" true
            "timed out"
            [Probe.handler_frame]) |} |}.

(** Every character is white space for [str.strip]. *)
Fixpoint whitespace_only (s : string) : bool :=
  match s with
  | EmptyString => true
  | String c r => PyStr.isspace c && whitespace_only r
  end.

(** [print] to the file [f] of arguments that are strings: the arguments
    with a space written between them, then the line end, each as a write of
    its own. *)
Fixpoint print_items (f : sink) (args : list string) (log : list io_event)
  : list io_event :=
  match args with
  | [] => log
  | [x] => OutputInterceptor.write f x log
  | x :: r =>
      print_items f r
        (OutputInterceptor.write f " " (OutputInterceptor.write f x log))
  end.

Definition print_args (f : sink) (args : list string) (log : list io_event)
  : list io_event :=
  OutputInterceptor.write f PyStr.newline (print_items f args log).

(** The key is absent from a decoded object. *)
Definition absent (key : string) (d : list (string * json)) : Prop :=
  Forall (fun kv => fst kv <> key) d.

(** The outcome of a call of the handler as the method of the processor
    passes it on: an exception gets the entry of the method. *)
Definition passed_on (fr : frame) (o : outcome pyval) : outcome pyval :=
  match o with
  | Raised e => Raised (through fr e)
  | _ => o
  end.

(** The texts the thread of a call of [attr] passes to [sys.stdout.write],
    in order: those of the top-level code, when the call loads the module,
    then those of the function, when it is called. *)
Definition thread_writes {G : Type} (H : host G) (attr : string)
           (args : list pyval) (p : process G) : list string :=
  match module p with
  | Some m =>
      if has_attr (unit_at H) (mod_globals m) attr
      then run_writes (call_attr (unit_at H) attr (mod_globals m) args)
      else []
  | None =>
      match file_state H with
      | SourceFile =>
          let r := exec_module (unit_at H) in
          (run_writes r
             ++ match run_outcome r with
                | Returned _ | ReturnedOther _ =>
                    if has_attr (unit_at H) (run_globals r) attr
                    then run_writes
                           (call_attr (unit_at H) attr (run_globals r) args)
                    else []
                | _ => []
                end)%list
      | _ => []
      end
  end.

(** ** The usage example, [main] *)

(** How [main] ends: it returns, an exception leaves it, or a call of the
    handler does not come back. *)
Inductive main_exit : Type :=
| MainReturns
| MainRaises (e : exn)
| MainBlocked.

(** [DataProcessor("another_main.py", 60)] in the surroundings of [H]: the
    file system, the unit found there and the path of the host's file are
    those of [H]. *)
Definition main_processor {G : Type} (H : host G) : host G :=
  {| filename := "another_main.py"; timeout := PInt 60;
     host_file := host_file H; file_state := file_state H;
     unit_at := unit_at H; json_loads := json_loads H;
     beyond := beyond H |}.

(** The state of a process whose processor is a new one: no module yet. *)
Definition new_processor {G : Type} (p : process G) : process G :=
  {| stdout_log := stdout_log p; stderr_log := stderr_log p;
     sys_stdout := sys_stdout p; module := None; loads := loads p |}.

(** [print(label, value)] through [sys.stdout]. *)
Definition print_result {G : Type} (label : string) (value : pyval)
           (p : process G) : process G :=
  set_stdout_log p
    (print_args (sys_stdout p) [label; py_str value] (stdout_log p)).

(** [print(label, o)] for an object that is not a [pyval]: [print] writes
    its arguments one after the other and takes the text of each when it
    comes to it, so the label and the space are written even when [str(o)]
    raises. *)
Definition print_other {G : Type} (label : string) (o : opaque) (fr : frame)
           (p : process G) : process G * option exn :=
  match opaque_str o with
  | Ok text =>
      (set_stdout_log p
         (print_args (sys_stdout p) [label; text] (stdout_log p)), None)
  | Raise e =>
      (set_stdout_log p
         (OutputInterceptor.write (sys_stdout p) " "
            (OutputInterceptor.write (sys_stdout p) label (stdout_log p))),
       Some (through fr e))
  end.

(** The second half of [main], from [receive_data] on. *)
Definition main_receive {G : Type} (processor : host G) (p2 : process G)
  : process G * main_exit :=
  let receive_data := PDict [(PStr "bar", PStr "10")] in
  let '(p3, o2) := execute_on_receive processor receive_data p2 in
  match o2 with
  | Raised e =>
      (p3, MainRaises
             (through (host_frame processor 213 "main"
                         "on_receive_result = processor.execute_on_receive(receive_data)")
                e))
  | StillRunning => (p3, MainBlocked)
  | Returned on_receive_result =>
      (print_result "on_receive result:" on_receive_result p3, MainReturns)
  | ReturnedOther o =>
      match print_other "on_receive result:" o
              (host_frame processor 215 "main"
                 "print(`on_receive result:`, on_receive_result)") p3 with
      | (p4, None) => (p4, MainReturns)
      | (p4, Some e) => (p4, MainRaises e)
      end
  end.

(** [main]: the two calls are made directly, without [execute_with_timeout]
    and outside any interceptor. *)
Definition main {G : Type} (H : host G) (p : process G)
  : process G * main_exit :=
  let processor := main_processor H in
  let create_data := PDict [(PStr "foo", PStr "20")] in
  let '(p1, o1) := execute_on_create processor create_data (new_processor p) in
  match o1 with
  | Raised e =>
      (p1, MainRaises
             (through (host_frame processor 206 "main"
                         "on_create_result = processor.execute_on_create(create_data)")
                e))
  | StillRunning => (p1, MainBlocked)
  | Returned on_create_result =>
      main_receive processor
        (print_result "on_create result:" on_create_result p1)
  | ReturnedOther o =>
      match print_other "on_create result:" o
              (host_frame processor 208 "main"
                 "print(`on_create result:`, on_create_result)") p1 with
      | (p2, None) => main_receive processor p2
      | (p2, Some e) => (p2, MainRaises e)
      end
  end.

(** ** The handler of [another_main.py]

    The unit uses two things that are not its own: the built-in [float] and
    the class [Calculator] of [calculator.helper].  [py_float] is [float] on
    the objects a request can hold, giving the [repr] of the float or the
    exception raised; [helper] is what the import of [Calculator] and the
    call [Calculator()] at the top of the unit give, the object with its
    three methods or the exception raised, with its traceback from the
    unit's top-level code inwards. *)

Module AnotherMain.

Record calculator : Type := {
  add : pyval -> pyval -> result pyval;
  subtract : pyval -> pyval -> result pyval;
  multiply : pyval -> pyval -> result pyval
}.

(** The globals of the unit once its top-level code has run. *)
Record globals : Type := {
  my_calculator : calculator;
  foo_value : pyval;
  bar_value : pyval
}.

(** [d.get(key)] with [None] told from a missing key. *)
Fixpoint dict_find (key : string) (d : list (pyval * pyval)) : option pyval :=
  match d with
  | [] => None
  | (PStr k, v) :: r => if String.eqb k key then Some v else dict_find key r
  | _ :: r => dict_find key r
  end.

(** [data.get(key, default)]; only a [dict] has [get]. *)
Definition py_get (data : pyval) (key : string) (default : pyval)
  : result pyval :=
  match data with
  | PDict d =>
      Ok (match dict_find key d with Some v => v | None => default end)
  | _ =>
      Raise (plain_exn "AttributeError" false
            ("'" ++ type_name data
            ++ "' object has no attribute 'get'")
            [])
  end.

Section Unit.

Variable unit_path : string.
Variable py_float : pyval -> result string.
Variable helper : result calculator.

Definition unit_frame (line : Z) (name text : string) : frame :=
  {| co_filename := unit_path; tb_lineno := line; co_name := name;
     source_line := PyStr.dq text |}.

(** A run that leaves the globals as they are. *)
Definition stay {A : Type} (g : globals) (writes : list string)
           (o : outcome A) : run (option globals) A :=
  {| run_writes := writes; run_globals := Some g; run_outcome := o |}.

Definition on_create (g : globals) (data : pyval) : run (option globals) pyval :=
  let fr := unit_frame 19 "on_create"
              "    foo_value = float(data.get(`foo`, 0))" in
  match py_get data "foo" (PInt 0) with
  | Raise e => stay g [] (Raised (through fr e))
  | Ok v =>
      match py_float v with
      | Raise e => stay g [] (Raised (through fr e))
      | Ok r =>
          {| run_writes := [];
             run_globals :=
               Some {| my_calculator := my_calculator g;
                       foo_value := PFloat r; bar_value := bar_value g |};
             run_outcome :=
               Returned (PDict [(PStr "initialized_foo", PFloat r)]) |}
      end
  end.

Definition on_receive_notice : string :=
  "executing on_receive of another_main.py from a public repo".

(** The text of one entry of the result of [on_receive]. *)
Definition operation_text (sign : string) (foo bar value : pyval) : string :=
  py_str foo ++ " " ++ sign ++ " " ++ py_str bar ++ " = " ++ py_str value.

(** The mapping [on_receive] returns. *)
Definition receive_result (foo_bar : string) (foo bar s d m : pyval) : pyval :=
  PDict [(PStr "foobar", PStr foo_bar);
         (PStr "sum", PStr (operation_text "+" foo bar s));
         (PStr "diff", PStr (operation_text "-" foo bar d));
         (PStr "product", PStr (operation_text "*" foo bar m))].

Definition on_receive (g : globals) (data : pyval)
  : run (option globals) pyval :=
  let fr := unit_frame 35 "on_receive"
              "    bar_value = float(data.get(`bar`, bar_value))" in
  match py_get data "bar" (bar_value g) with
  | Raise e => stay g [] (Raised (through fr e))
  | Ok v =>
      match py_float v with
      | Raise e => stay g [] (Raised (through fr e))
      | Ok r =>
          let foo := foo_value g in
          let bar := PFloat r in
          let g1 := {| my_calculator := my_calculator g; foo_value := foo;
                       bar_value := bar |} in
          let foo_bar := py_str foo ++ "_" ++ py_str bar in
          let writes := [on_receive_notice; PyStr.newline] in
          match add (my_calculator g) foo bar with
          | Raise e =>
              stay g1 writes
                (Raised (through
                           (unit_frame 44 "on_receive"
                              ("        `sum`: f`{foo_value} + {bar_value} = "
                                 ++ "{my_calculator.add(foo_value, bar_value)}`,"))
                           e))
          | Ok s =>
              match subtract (my_calculator g) foo bar with
              | Raise e =>
                  stay g1 writes
                    (Raised (through
                               (unit_frame 45 "on_receive"
                                  ("        `diff`: f`{foo_value} - {bar_value} = "
                                     ++ "{my_calculator.subtract(foo_value, bar_value)}`,"))
                               e))
              | Ok d =>
                  match multiply (my_calculator g) foo bar with
                  | Raise e =>
                      stay g1 writes
                        (Raised (through
                                   (unit_frame 46 "on_receive"
                                      ("        `product`: f`{foo_value} * {bar_value} = "
                                         ++ "{my_calculator.multiply(foo_value, bar_value)}`"))
                                   e))
                  | Ok m =>
                      stay g1 writes
                        (Returned (receive_result foo_bar foo bar s d m))
                  end
              end
          end
      end
  end.

Definition on_destroy (g : globals) : run (option globals) pyval :=
  stay g []
    (Returned (PDict [(PStr "final_foo", foo_value g);
                      (PStr "final_bar", bar_value g)])).

(** A call the host never makes: of a function that is not bound, or with
    another number of arguments than the host passes.  Python raises before
    any code of the unit runs. *)
Definition no_such_call (g : option globals) (name : string)
  : run (option globals) pyval :=
  {| run_writes := []; run_globals := g;
     run_outcome :=
       Raised (plain_exn (match g with
            | Some _ => "TypeError"
            | None => "AttributeError"
            end) false
            ("no call of " ++ name ++ " of this shape")
            []) |}.

(** The unit: its top-level code binds [my_calculator], [foo_value] and
    [bar_value] and defines the three functions; when the import or the
    construction of the calculator fails, nothing is bound. *)
Definition another_main : handler_unit (option globals) :=
  {| exec_module :=
       match helper with
       | Ok c =>
           {| run_writes := [];
              run_globals := Some {| my_calculator := c; foo_value := PNone;
                                     bar_value := PNone |};
              run_outcome := Returned tt |}
       | Raise e =>
           {| run_writes := []; run_globals := None; run_outcome := Raised e |}
       end;
     has_attr := fun g name =>
                   match g with
                   | Some _ =>
                       String.eqb name "on_create"
                       || String.eqb name "on_receive"
                       || String.eqb name "on_destroy"
                   | None => false
                   end;
     call_attr := fun name g args =>
                    match g with
                    | None => no_such_call g name
                    | Some gl =>
                        if String.eqb name "on_create" then
                          match args with
                          | [data] => on_create gl data
                          | _ => no_such_call g name
                          end
                        else if String.eqb name "on_receive" then
                          match args with
                          | [data] => on_receive gl data
                          | _ => no_such_call g name
                          end
                        else
                          match args with
                          | [] => on_destroy gl
                          | _ => no_such_call g name
                          end
                    end |}.

End Unit.

(** The object is [None] or a float. *)
Definition none_or_float (v : pyval) : bool :=
  match v with
  | PNone | PFloat _ => true
  | _ => false
  end.

(** Both [foo_value] and [bar_value] are [None] or a float. *)
Definition well_formed (g : globals) : bool :=
  none_or_float (foo_value g) && none_or_float (bar_value g).

(** A [float] and a calculator to run the unit on: [float] on the strings
    and numbers of the examples, and a calculator that knows the outcome for
    20.0 and 10.0 and raises [TypeError] on anything else, as arithmetic on
    [None] does. *)
Definition sample_float (v : pyval) : result string :=
  match v with
  | PStr "20" => Ok "20.0"
  | PStr "10" => Ok "10.0"
  | PInt 0 => Ok "0.0"
  | PFloat r => Ok r
  | PStr s =>
      Raise (plain_exn "ValueError" false
            ("could not convert string to float: " ++ PyStr.repr s)
            [])
  | _ =>
      Raise (plain_exn "TypeError" false
            ("float() argument must be a string or a real number, not '"
            ++ type_name v ++ "'")
            [])
  end.

Definition helper_frame (line : Z) (name text : string) : frame :=
  {| co_filename := "/srv/plugins/calculator/helper.py"; tb_lineno := line;
     co_name := name; source_line := text |}.

Definition sample_operation (line : Z) (name text value : string)
           (a b : pyval) : result pyval :=
  match a, b with
  | PFloat "20.0", PFloat "10.0" => Ok (PFloat value)
  | _, _ =>
      Raise (plain_exn "TypeError" false
            "unsupported operand type(s)"
            [helper_frame line name text])
  end.

Definition sample_calculator : calculator :=
  {| add := sample_operation 3 "add" "        return a + b" "30.0";
     subtract := sample_operation 6 "subtract" "        return a - b" "10.0";
     multiply := sample_operation 9 "multiply" "        return a * b" "200.0" |}.

Definition sample_host : host (option globals) :=
  {| filename := "another_main.py"; timeout := PInt 60;
     host_file := "/srv/host/test.py"; file_state := SourceFile;
     unit_at := another_main "/srv/plugins/another_main.py" sample_float
                  (Ok sample_calculator);
     json_loads := Decoder.decode;
     beyond := default_beyond |}.

End AnotherMain.

(** * Properties *)

(** ** Strings and the encoder *)

Lemma append_assoc (a b c : string) : (a ++ b) ++ c = a ++ (b ++ c).
Proof.
  induction a as [|x a IH]; simpl; [reflexivity | now rewrite IH].
Qed.

Lemma rstrip_last (s : string) (c : ascii) :
  PyStr.isspace c = false ->
  PyStr.rstrip (s ++ String c EmptyString) = s ++ String c EmptyString.
Proof.
  intros Hc. induction s as [|x s IH]; simpl.
  - now rewrite Hc.
  - rewrite IH. destruct s; reflexivity.
Qed.

(** A text in braces has no white space to strip and is not empty. *)
Lemma strip_braced (body : string) :
  PyStr.strip ("{" ++ body ++ "}") = "{" ++ body ++ "}"
  /\ PyStr.truthy ("{" ++ body ++ "}") = true.
Proof.
  split; [| reflexivity].
  unfold PyStr.strip.
  change (PyStr.lstrip ("{" ++ body ++ "}")) with (("{" ++ body) ++ "}").
  apply rstrip_last. reflexivity.
Qed.

Section JsonInduction.

Variable P : json -> Prop.
Hypothesis HNull : P JNull.
Hypothesis HBool : forall b, P (JBool b).
Hypothesis HInt : forall z, P (JInt z).
Hypothesis HFloat : forall r, P (JFloat r).
Hypothesis HStr : forall s, P (JStr s).
Hypothesis HList : forall l, Forall P l -> P (JList l).
Hypothesis HDict : forall d, Forall (fun kv => P (snd kv)) d -> P (JDict d).

Lemma json_nested_ind : forall j, P j.
Proof.
  fix IH 1. intros [ | b | z | r | s | l | d].
  - exact HNull.
  - apply HBool.
  - apply HInt.
  - apply HFloat.
  - apply HStr.
  - apply HList. induction l as [|x l IHl]; constructor; [apply IH | exact IHl].
  - apply HDict. induction d as [|[k v] d IHd]; constructor; [apply IH | exact IHd].
Qed.

End JsonInduction.

Lemma all_some_map {A B : Type} (f : A -> option B) (l : list A) :
  Forall (fun x => exists y, f x = Some y) l ->
  exists ys, Json.all_some (map f l) = Some ys.
Proof.
  unfold Json.all_some.
  induction 1 as [|x l [y Hy] _ [ys IH]]; simpl.
  - now exists [].
  - rewrite Hy, IH. now eexists.
Qed.

(** The encoder does not fail on a decoded value. *)
Lemma dumps_to_py (j : json) : exists s, Json.dumps (to_py j) = Some s.
Proof.
  induction j as [ | b | z | r | s | l IH | d IH] using json_nested_ind;
    simpl; try (now eexists).
  - rewrite map_map.
    destruct (all_some_map (fun x => Json.dumps (to_py x)) l IH) as [ys ->].
    now eexists.
  - rewrite map_map.
    match goal with
    | |- context [Json.all_some (map ?f d)] =>
        destruct (all_some_map f d) as [ys ->]; [| now eexists]
    end.
    eapply Forall_impl; [| exact IH]. intros [k v] [s Hs]. simpl in *.
    rewrite Hs. now eexists.
Qed.

Lemma json_text_dumps (j : json) : Json.dumps (to_py j) = Some (json_text j).
Proof.
  unfold json_text. destruct (dumps_to_py j) as [s ->]. reflexivity.
Qed.

(** The text of a response: the three fields in order, [Data] as a string
    literal. *)
Lemma response_text (event : json) (status data : string) :
  response event status data
  = PyStr.dq "{`Event`: " ++ json_text event
      ++ PyStr.dq ", `Status`: " ++ Json.encode_str status
      ++ PyStr.dq ", `Data`: " ++ Json.encode_str data ++ "}".
Proof.
  unfold response. unfold json_text at 1. simpl.
  rewrite (json_text_dumps event). unfold Json.encode_str. simpl.
  repeat (rewrite append_assoc; simpl). reflexivity.
Qed.

Lemma response_braced (event : json) (status data : string) :
  exists body, response event status data = "{" ++ body ++ "}".
Proof.
  rewrite response_text.
  exists (PyStr.dq "`Event`: " ++ json_text event
            ++ PyStr.dq ", `Status`: " ++ Json.encode_str status
            ++ PyStr.dq ", `Data`: " ++ Json.encode_str data).
  rewrite !append_assoc. reflexivity.
Qed.

(** A response printed through an interceptor: the text goes out wrapped,
    the line end is dropped. *)
Lemma captured_response (event : json) (status data : string) :
  captured (response event status data)
  = [Write (get_standard_output_message (response event status data)); Flush].
Proof.
  destruct (response_braced event status data) as [body ->].
  unfold captured. destruct (strip_braced body) as [-> ->]. reflexivity.
Qed.

Lemma captured_newline : captured PyStr.newline = [].
Proof. reflexivity. Qed.

(** ** Streams and printing *)

Lemma truthy_strip (s : string) :
  PyStr.truthy (PyStr.strip s) = negb (whitespace_only s).
Proof.
  unfold PyStr.strip. induction s as [|c s IH]; [reflexivity |].
  cbn [PyStr.lstrip whitespace_only].
  destruct (PyStr.isspace c) eqn:Hc; [exact IH |].
  cbn [PyStr.rstrip andb negb]. rewrite Hc.
  now destruct (PyStr.rstrip s).
Qed.

Lemma write_intercepted (message : string) (log : list io_event) :
  OutputInterceptor.write (Interceptor RealStream get_standard_output_message)
    message log
  = (log ++ captured message)%list.
Proof.
  unfold captured. simpl.
  destruct (PyStr.truthy (PyStr.strip message)).
  - now rewrite <- app_assoc.
  - now rewrite app_nil_r.
Qed.

Section Printing.

Context {G : Type}.
Implicit Types p q : process G.

Lemma emit_intercepted (W : list string) q :
  sys_stdout q = Interceptor RealStream get_standard_output_message ->
  stdout_log (emit W q) = (stdout_log q ++ flat_map captured W)%list.
Proof.
  intros Hq. unfold emit. simpl. rewrite Hq.
  generalize (stdout_log q). induction W as [|w W IH]; intros log.
  - simpl. now rewrite app_nil_r.
  - cbn [fold_left flat_map]. rewrite IH, write_intercepted.
    now rewrite app_assoc.
Qed.

Lemma print_output_real (event : json) (status data : string) q :
  sys_stdout q = RealStream ->
  print_output event status data q
  = set_stdout_log q
      (stdout_log q ++ line_events (response event status data))%list.
Proof.
  intros Hq. unfold print_output, print_to, set_stdout_log. simpl.
  rewrite Hq. simpl. fold (response event status data).
  now rewrite <- !app_assoc.
Qed.

Lemma print_output_intercepted (event : json) (status data : string) q :
  sys_stdout q = Interceptor RealStream get_standard_output_message ->
  print_output event status data q
  = set_stdout_log q
      (stdout_log q
         ++ [Write (get_standard_output_message (response event status data));
             Flush])%list.
Proof.
  intros Hq. unfold print_output, print_to, set_stdout_log.
  cbn [stdout_log stderr_log sys_stdout module loads].
  rewrite Hq. fold (response event status data).
  rewrite !write_intercepted, captured_response, captured_newline.
  now rewrite app_nil_r.
Qed.

Lemma print_error_unfold (event : json) (message : string) q :
  print_error event message q
  = print_output event "error" error_data
      (set_stderr_log q (stderr_log q ++ diagnostic_events message)%list).
Proof.
  unfold print_error, print_to, diagnostic_events. simpl.
  now rewrite <- !app_assoc.
Qed.

Lemma print_error_real (event : json) (message : string) q :
  sys_stdout q = RealStream ->
  print_error event message q
  = {| stdout_log := (stdout_log q ++ line_events (error_response event))%list;
       stderr_log := (stderr_log q ++ diagnostic_events message)%list;
       sys_stdout := sys_stdout q; module := module q; loads := loads q |}.
Proof.
  intros Hq. rewrite print_error_unfold, print_output_real by exact Hq.
  reflexivity.
Qed.

Lemma print_error_intercepted (event : json) (message : string) q :
  sys_stdout q = Interceptor RealStream get_standard_output_message ->
  print_error event message q
  = {| stdout_log :=
         (stdout_log q
            ++ [Write (get_standard_output_message (error_response event));
                Flush])%list;
       stderr_log := (stderr_log q ++ diagnostic_events message)%list;
       sys_stdout := sys_stdout q; module := module q; loads := loads q |}.
Proof.
  intros Hq. rewrite print_error_unfold, print_output_intercepted by exact Hq.
  reflexivity.
Qed.

End Printing.

(** ** The thread of a lifecycle call *)

Section Thread.

Context {G : Type} (H : host G).
Implicit Types p q : process G.

Lemma keeps_or_loads_refl q : keeps_or_loads q q.
Proof. left. split; reflexivity. Qed.

Lemma keeps_or_loads_trans p q r :
  keeps_or_loads p q -> keeps_or_loads q r -> keeps_or_loads p r.
Proof.
  unfold keeps_or_loads.
  intros [[I1 L1] | [N1 [I1 L1]]] [[I2 L2] | [N2 [I2 L2]]].
  - left. split; congruence.
  - right. repeat split; congruence.
  - right. repeat split; congruence.
  - congruence.
Qed.

Ltac writes_witness :=
  first [ exists []; reflexivity
        | eexists; reflexivity
        | eexists; unfold emit; simpl; symmetry; apply fold_left_app ].

Lemma execute_on_effect attr name l1 l2 l3 text args q q1 o :
  execute_on H attr name l1 l2 l3 text args q = (q1, o) ->
  thread_effect q q1.
Proof.
  unfold execute_on, _load_module, thread_effect, keeps_or_loads,
    module_identity.
  destruct (module q) as [m|] eqn:Hm.
  - rewrite Hm.
    destruct (has_attr (unit_at H) (mod_globals m) attr); intros E;
      inversion E; subst; clear E; simpl; rewrite ?Hm; simpl;
      (repeat split; [writes_witness | left; split; reflexivity]).
  - destruct (file_state H); simpl.
    + intros E; inversion E; subst; clear E. rewrite Hm.
      repeat split; [writes_witness | left; split; reflexivity].
    + intros E; inversion E; subst; clear E. rewrite Hm.
      repeat split; [writes_witness | left; split; reflexivity].
    + destruct (run_outcome (exec_module (unit_at H))); simpl;
        try destruct (has_attr (unit_at H) _ attr); intros E;
        inversion E; subst; clear E; simpl;
        (repeat split; [writes_witness | right; repeat split; reflexivity]).
Qed.

(** What the thread adds to the output log is the writes of the call, each
    through [sys.stdout]. *)
Lemma execute_on_writes attr name l1 l2 l3 text args q q1 o :
  execute_on H attr name l1 l2 l3 text args q = (q1, o) ->
  stdout_log q1
  = fold_left (fun log m => OutputInterceptor.write (sys_stdout q) m log)
      (thread_writes H attr args q) (stdout_log q).
Proof.
  unfold execute_on, _load_module, thread_writes.
  destruct (module q) as [m|] eqn:Hm.
  - rewrite Hm.
    destruct (has_attr (unit_at H) (mod_globals m) attr); intros E;
      inversion E; subst; clear E; reflexivity.
  - destruct (file_state H); simpl;
      try (intros E; inversion E; subst; clear E; reflexivity).
    rewrite fold_left_app.
    destruct (run_outcome (exec_module (unit_at H))); simpl;
      try destruct (has_attr (unit_at H) _ attr); intros E;
      inversion E; subst; clear E; reflexivity.
Qed.

Lemma lifecycle_call_shape event_type event_data fr f :
  lifecycle_call H event_type event_data = Some (fr, f) ->
  exists attr name l1 l2 l3 text,
    attr_of_event event_type = Some attr
    /\ f = execute_on H attr name l1 l2 l3 text
             (args_of_event event_type event_data).
Proof.
  unfold lifecycle_call, attr_of_event, args_of_event.
  destruct (is_str event_type "OnCreate");
    [| destruct (is_str event_type "OnReceive");
       [| destruct (is_str event_type "OnDestroy")]];
    intros E; inversion E; subst; clear E;
    unfold execute_on_create, execute_on_receive, execute_on_destroy;
    repeat eexists.
Qed.

Lemma lifecycle_call_execute_on event_type event_data fr f :
  lifecycle_call H event_type event_data = Some (fr, f) ->
  exists attr name l1 l2 l3 text args,
    f = execute_on H attr name l1 l2 l3 text args.
Proof.
  unfold lifecycle_call.
  destruct (is_str event_type "OnCreate");
    [| destruct (is_str event_type "OnReceive");
       [| destruct (is_str event_type "OnDestroy")]];
    intros E; inversion E; subst; clear E;
    unfold execute_on_create, execute_on_receive, execute_on_destroy;
    repeat eexists.
Qed.

Lemma lifecycle_call_effect event_type event_data fr f q q1 o :
  lifecycle_call H event_type event_data = Some (fr, f) ->
  f q = (q1, o) ->
  thread_effect q q1.
Proof.
  intros Hc Hf.
  destruct (lifecycle_call_execute_on _ _ _ _ Hc)
    as (attr & name & l1 & l2 & l3 & text & args & ->).
  eapply execute_on_effect; eassumption.
Qed.

(** Under the interceptor, what the thread adds to the real stream is the
    capture of each of its writes. *)
Lemma thread_captured q q1 :
  sys_stdout q = Interceptor RealStream get_standard_output_message ->
  thread_effect q q1 ->
  exists W, stdout_log q1 = (stdout_log q ++ flat_map captured W)%list.
Proof.
  intros Hq (_ & _ & [W HW] & _). exists W.
  rewrite HW. now apply emit_intercepted.
Qed.

End Thread.

(** ** One turn of the loop *)

Section Turn.

Context {G : Type} (H : host G).
Implicit Types p q : process G.

Lemma dispatch_known event_type event_data fr f q q1 o :
  lifecycle_call H event_type event_data = Some (fr, f) ->
  f q = (q1, o) ->
  dispatch H event_type event_data q = (joined H o q1, exit_of H fr o).
Proof.
  unfold lifecycle_call, dispatch.
  destruct (is_str event_type "OnCreate");
    [| destruct (is_str event_type "OnReceive");
       [| destruct (is_str event_type "OnDestroy")]];
    intros E Hf; inversion E; subst; clear E;
    unfold execute_with_timeout; rewrite Hf;
    destruct o as [r | o | e |]; try reflexivity;
    unfold exit_of, joined, reraised, thread_report;
    destruct (exc_is_exception e), (exc_bool e); reflexivity.
Qed.

Lemma dispatch_unknown event_type event_data q :
  lifecycle_call H event_type event_data = None ->
  dispatch H event_type event_data q
  = (print_error event_type
       ("Unknown event type: " ++ py_str (to_py event_type)) q, Continued).
Proof.
  unfold lifecycle_call, dispatch.
  destruct (is_str event_type "OnCreate");
    [| destruct (is_str event_type "OnReceive");
       [| destruct (is_str event_type "OnDestroy")]];
    intros E; inversion E; reflexivity.
Qed.

Lemma turn_known line event fr f p p1 o :
  json_loads H (PyStr.strip line) = Decoded (JDict event) ->
  lifecycle_call H (json_get "Event" event) (json_get "Data" event)
  = Some (fr, f) ->
  f (intercepted p) = (p1, o) ->
  process_line H line p
  = respond H (json_get "Event" event) (exit_of H fr o)
      (set_sys_stdout (joined H o p1) (sys_stdout p)).
Proof.
  intros Hd Hc Hf. unfold process_line, stdout_interceptor. rewrite Hd.
  fold (intercepted p). now rewrite (dispatch_known _ _ _ _ _ _ _ Hc Hf).
Qed.

Lemma turn_unknown line event p :
  json_loads H (PyStr.strip line) = Decoded (JDict event) ->
  lifecycle_call H (json_get "Event" event) (json_get "Data" event) = None ->
  process_line H line p
  = (set_sys_stdout
       (print_error (json_get "Event" event)
          ("Unknown event type: " ++ py_str (to_py (json_get "Event" event)))
          (intercepted p))
       (sys_stdout p), Continue).
Proof.
  intros Hd Hc. unfold process_line, stdout_interceptor. rewrite Hd.
  fold (intercepted p). now rewrite (dispatch_unknown _ _ _ Hc).
Qed.

End Turn.

Section Respond.

Context {G : Type} (H : host G).
Implicit Types p q : process G.

Lemma respond_fell_ok (event_type : json) (r : pyval) (s : string) q :
  encoded_result r = Some s ->
  respond H event_type (Fell (Value r)) q
  = (print_output event_type "ok" s q, Continue).
Proof.
  destruct r; cbv beta iota delta [encoded_result]; intros E;
    try discriminate.
  - vm_compute in E. inversion E. reflexivity.
  - destruct (ordinary (PDict d)) eqn:Ho; [| discriminate].
    cbv beta iota zeta delta [respond]. rewrite Ho, E. reflexivity.
Qed.

Lemma respond_fell_bad (event_type : json) (r : pyval) q :
  ordinary r = true ->
  encoded_result r = None ->
  respond H event_type (Fell (Value r)) q
  = (print_error event_type (invalid_result_message r) q, Continue).
Proof.
  intros Ho. destruct r; cbv beta iota delta [encoded_result]; intros E;
    try discriminate;
    cbv beta iota zeta delta [respond]; rewrite Ho; try reflexivity.
  rewrite Ho in E. rewrite E. reflexivity.
Qed.


(** What the code after the [try] statement does for an object: one
    response line, or nothing and an exception leaves the loop. *)
Lemma respond_object_shape (event_type : json) (type : string)
      (is_mapping : bool) (encoding : dumped) (text : result string) q :
  sys_stdout q = RealStream ->
  (exists line err,
      snd (respond_object H event_type type is_mapping encoding text q)
      = Continue
      /\ stdout_log
           (fst (respond_object H event_type type is_mapping encoding text q))
         = (stdout_log q ++ line_events line)%list
      /\ stderr_log
           (fst (respond_object H event_type type is_mapping encoding text q))
         = (stderr_log q ++ err)%list
      /\ ((exists s, line = ok_response event_type s /\ err = [])
          \/ (exists diag, line = error_response event_type
                           /\ err = diagnostic_events diag)))
  \/ (exists e,
         respond_object H event_type type is_mapping encoding text q
         = (q, Halt e)
         /\ exists e0,
             e = through (dumps_frame H) e0 \/ e = through (result_frame H) e0).
Proof.
  intros Hq. unfold respond_object, refuse_result.
  destruct is_mapping, encoding, text;
    try (right; eexists; split; [reflexivity | eexists; eauto]); left;
    rewrite ?print_output_real, ?print_error_real by exact Hq;
    do 2 eexists; simpl;
    (split; [reflexivity |]); (split; [reflexivity |]);
    try (split; [reflexivity |]; right; eexists; split; reflexivity).
  all: split; [symmetry; apply app_nil_r |]; left; eexists;
    split; reflexivity.
Qed.

Lemma respond_object_fields (event_type : json) (type : string)
      (is_mapping : bool) (encoding : dumped) (text : result string) q :
  sys_stdout
    (fst (respond_object H event_type type is_mapping encoding text q))
  = sys_stdout q
  /\ module
       (fst (respond_object H event_type type is_mapping encoding text q))
     = module q
  /\ loads
       (fst (respond_object H event_type type is_mapping encoding text q))
     = loads q.
Proof.
  unfold respond_object, refuse_result.
  destruct is_mapping, encoding, text; repeat split; reflexivity.
Qed.

Lemma reportable_through (f : frame) (e : exn) :
  reportable (through f e) = reportable e.
Proof. reflexivity. Qed.

Lemma respond_threw (event_type : json) (e : exn) q :
  reportable e = true ->
  respond H event_type (Threw e) q
  = (print_error event_type
       (if exc_is_timeout e then timeout_message
        else exception_message H e) q, Continue).
Proof.
  unfold reportable. simpl. destruct (exc_is_timeout e); [reflexivity |].
  simpl. destruct (exc_is_exception e); [| discriminate].
  now destruct (exc_str_raises e).
Qed.

Lemma reportable_new_exn (type : string) (is_timeout : bool)
      (message : string) (f : frame) :
  reportable (new_exn type is_timeout message f) = true.
Proof. unfold reportable. simpl. apply orb_true_r. Qed.

Lemma exit_of_raised (fr : frame) (e : exn) :
  reraised e = true ->
  exit_of H fr (Raised e) = Threw (as_caught H fr e).
Proof. intros E. unfold exit_of. now rewrite E. Qed.

Lemma joined_fields (o : outcome pyval) q :
  sys_stdout (joined H o q) = sys_stdout q
  /\ module (joined H o q) = module q
  /\ loads (joined H o q) = loads q
  /\ stdout_log (joined H o q) = stdout_log q.
Proof.
  unfold joined. destruct o as [r | o | e |]; try (repeat split; reflexivity).
  destruct (exc_is_exception e); repeat split; reflexivity.
Qed.

Lemma joined_set_sys_stdout (o : outcome pyval) q (f : sink) :
  set_sys_stdout (joined H o q) f = joined H o (set_sys_stdout q f).
Proof.
  unfold joined. destruct o as [r | o | e |]; try reflexivity.
  destruct (exc_is_exception e); reflexivity.
Qed.

Lemma joined_raised (e : exn) q :
  reraised e = true ->
  joined H (Raised e) q = q.
Proof.
  unfold reraised, joined. intros E.
  apply andb_true_iff in E as [-> _]. reflexivity.
Qed.

End Respond.

(** ** The response of an error *)




(** ** The response of a successful call *)

(** C2, as amended.  When the call of a dispatched event returns an
    ordinary mapping that [json.dumps] encodes to [s], or returns nothing
    and [s] encodes the default mapping, the turn prints one line, the response with the event,
    the status ok and [Data] the string [s], so the mapping is encoded
    twice; nothing goes to the diagnostic stream.  The mapping with [x] set
    to 1 gives the [Data] [{"x": 1}]. *)
Theorem ok_response_double_encodes_result {G : Type} (H : host G)
        (line : string) (event : list (string * json)) (p p1 : process G)
        (fr : frame) (f : process G -> process G * outcome pyval)
        (r : pyval) (s : string) :
  sys_stdout p = RealStream ->
  json_loads H (PyStr.strip line) = Decoded (JDict event) ->
  lifecycle_call H (json_get "Event" event) (json_get "Data" event)
  = Some (fr, f) ->
  f (intercepted p) = (p1, Returned r) ->
  encoded_result r = Some s ->
  exists p',
    process_line H line p = (p', Continue)
    /\ stdout_log p'
       = (stdout_log p1
            ++ line_events (ok_response (json_get "Event" event) s))%list
    /\ stderr_log p' = stderr_log p
    /\ ok_response (json_get "Event" event) s
       = PyStr.dq "{`Event`: " ++ json_text (json_get "Event" event)
           ++ PyStr.dq ", `Status`: `ok`, `Data`: " ++ Json.encode_str s ++ "}"
    /\ (forall d, r = PDict d ->
        ordinary r = true /\ Json.dumps (PDict d) = Some s)
    /\ (r = PNone ->
        s = PyStr.dq "{`status`: `default`, `message`: `No result generated`}")
    /\ (r = PDict [(PStr "x", PInt 1)] ->
        s = PyStr.dq "{`x`: 1}"
        /\ Json.encode_str s = PyStr.dq "`{\`x\`: 1}`").
Proof.
  intros Hp Hd Hc Hf Hs.
  destruct (lifecycle_call_effect H _ _ _ _ _ _ _ Hc Hf) as (_ & He & _).
  rewrite (turn_known H line event fr f p p1 _ Hd Hc Hf).
  cbn [exit_of joined].
  rewrite (respond_fell_ok H _ _ _ _ Hs), print_output_real by (simpl; exact Hp).
  eexists. split; [reflexivity |]. simpl.
  split; [reflexivity |]. split; [exact He |].
  split; [unfold ok_response; rewrite response_text; reflexivity |].
  split; [| split].
  - intros d ->. cbv beta iota delta [encoded_result] in Hs.
    destruct (ordinary (PDict d)); [split; [reflexivity | exact Hs]
                                   | discriminate].
  - intros ->. vm_compute in Hs. inversion Hs. reflexivity.
  - intros ->. vm_compute in Hs. inversion Hs. split; reflexivity.
Qed.

(** C2 at a mapping that [json.dumps] refuses.  The call of the probe unit
    for [set] returns a mapping, the one with a set under [s]; the turn
    writes no response with status ok for it, but the diagnostic of an
    ill-shaped result and the error response. *)
Lemma refused_mapping_gets_error_response :
  let r := PDict [(PStr "s", PObj "set" "{1}" "{1}")] in
  let p' :=
    fst (process_line Probe.probe_host (Probe.request "OnReceive" "set")
           initial) in
  run_outcome (Probe.on_receive 0 (PDict [(PStr "do", PStr "set")]))
  = Returned r
  /\ is_dict r = true
  /\ Json.dumps r = None
  /\ stdout_log p'
     = [Write (get_standard_output_message "loading"); Flush;
        Write (error_response (JStr "OnReceive")); Write PyStr.newline; Flush]
  /\ stderr_log p'
     = diagnostic_events
         "Invalid result format. Expecting a dictionary, got dict: {'s': {1}}".
Proof. vm_compute. repeat split. Qed.

(** The statement for C2 at a call of the probe unit that returns the mapping
    with [x] set to 1: the line written is the one of the specification. *)
Lemma ok_response_double_encodes_result_witness :
  exists p',
    process_line Probe.probe_host (Probe.request "OnReceive" "x") initial
    = (p', Continue)
    /\ In (Write (PyStr.dq "{`Event`: `OnReceive`, `Status`: `ok`, `Data`: `{\`x\`: 1}`}"))
          (stdout_log p')
    /\ stderr_log p' = [].
Proof.
  destruct (ok_response_double_encodes_result Probe.probe_host
              (Probe.request "OnReceive" "x")
              [("Event", JStr "OnReceive"); ("Data", JDict [("do", JStr "x")])]
              initial _ _ _ (PDict [(PStr "x", PInt 1)]) (PyStr.dq "{`x`: 1}")
              eq_refl eq_refl eq_refl eq_refl eq_refl)
    as (p' & E & Hout & Herr & _).
  exists p'. split; [exact E |]. split; [| exact Herr].
  rewrite Hout. apply in_or_app. right. now left.
Defined.

(** ** Timeouts and failures *)

Lemma respond_fields {G : Type} (H : host G) (event_type : json)
      (exit : block_exit) (q : process G) :
  sys_stdout (fst (respond H event_type exit q)) = sys_stdout q
  /\ module (fst (respond H event_type exit q)) = module q
  /\ loads (fst (respond H event_type exit q)) = loads q.
Proof.
  destruct exit as [[r | o] | | e]; cbv beta iota zeta delta [respond].
  - destruct (ordinary _); apply respond_object_fields.
  - apply respond_object_fields.
  - repeat split; reflexivity.
  - destruct (exc_is_timeout e), (exc_is_exception e), (exc_str_raises e);
      repeat split; reflexivity.
Qed.

(** C5, as amended.  When the call of a dispatched event does not complete
    within the deadline, [execute_with_timeout] raises [TimeoutError].  When
    the call raises an instance of [Exception] that is true, it raises that
    exception again, with its class, its text and being or not a
    [TimeoutError] unchanged.  In both cases, for an exception that has a
    diagnostic, the turn prints the error response of the event as a line
    and the loop goes on with the next lines.  When the call raises what is
    no instance of [Exception], nothing is raised again: the thread ends
    with the report of its hook and [execute_with_timeout] returns
    [None]. *)
Theorem timeout_and_failure_both_recover {G : Type} (H : host G)
        (line : string) (rest : list string) (event : list (string * json))
        (p p1 : process G) (fr : frame)
        (f : process G -> process G * outcome pyval) (o : outcome pyval) :
  sys_stdout p = RealStream ->
  json_loads H (PyStr.strip line) = Decoded (JDict event) ->
  lifecycle_call H (json_get "Event" event) (json_get "Data" event)
  = Some (fr, f) ->
  f (intercepted p) = (p1, o) ->
  (o = StillRunning ->
   execute_with_timeout H f (intercepted p) = (p1, Raise (timeout_error H))
   /\ exc_type (timeout_error H) = "TimeoutError"
   /\ exc_is_timeout (timeout_error H) = true
   /\ exists p',
       process_line H line p = (p', Continue)
       /\ stdout_log p'
          = (stdout_log p1
               ++ line_events (error_response (json_get "Event" event)))%list
       /\ sys_stdout p' = RealStream
       /\ start_listening H (line :: rest) p = start_listening H rest p')
  /\ (forall e e',
      o = Raised e ->
      reraised e = true ->
      e' = through (reraise_frame H) (through (target_frame H) e) ->
      execute_with_timeout H f (intercepted p) = (p1, Raise e')
      /\ exc_type e' = exc_type e /\ exc_str e' = exc_str e
      /\ exc_is_timeout e' = exc_is_timeout e
      /\ (reportable e = true ->
          exists p',
            process_line H line p = (p', Continue)
            /\ stdout_log p'
               = (stdout_log p1
                    ++ line_events
                         (error_response (json_get "Event" event)))%list
            /\ sys_stdout p' = RealStream
            /\ start_listening H (line :: rest) p
               = start_listening H rest p'))
  /\ (forall e,
      o = Raised e ->
      exc_is_exception e = false ->
      execute_with_timeout H f (intercepted p)
      = (set_stderr_log p1 (stderr_log p1 ++ exc_report e), Ok (Value PNone))).
Proof.
  intros Hp Hd Hc Hf.
  assert (Hturn := turn_known H line event fr f p p1 o Hd Hc Hf).
  unfold execute_with_timeout. rewrite Hf.
  split; [| split].
  - intros ->. cbn [exit_of joined] in Hturn.
    rewrite respond_threw, print_error_real in Hturn by (simpl; easy).
    split; [reflexivity |]. split; [reflexivity |]. split; [reflexivity |].
    eexists. split; [exact Hturn |]. simpl. rewrite Hturn, Hp. repeat split.
  - intros e e' -> Hre ->.
    rewrite (exit_of_raised H fr e Hre), (joined_raised H e _ Hre) in Hturn.
    pose proof Hre as Hre'. unfold reraised in Hre'.
    apply andb_true_iff in Hre' as [-> ->].
    split; [reflexivity |]. split; [reflexivity |]. split; [reflexivity |].
    split; [reflexivity |]. intros Hrep.
    rewrite (respond_threw H _ (as_caught H fr e) _ Hrep) in Hturn.
    rewrite print_error_real in Hturn by (simpl; exact Hp).
    eexists. split; [exact Hturn |]. simpl. rewrite Hturn, Hp. repeat split.
  - intros e -> ->. reflexivity.
Qed.

(** C5 at calls that raise and are not raised again.  The call of the probe
    unit for [exit] raises [SystemExit], which is no instance of
    [Exception], and the one for [empty] raises an instance of [Exception]
    that is false: [execute_with_timeout] raises nothing, it returns
    [None], and the turn writes no error response but the response with
    status ok for the default mapping. *)
Lemma unraised_exception_gets_ok_response :
  let default_text :=
    PyStr.dq "{`status`: `default`, `message`: `No result generated`}" in
  let call act :=
    execute_on_receive Probe.probe_host (PDict [(PStr "do", PStr act)]) in
  let turn act :=
    fst (process_line Probe.probe_host (Probe.request "OnReceive" act)
           initial) in
  snd (call "exit" (intercepted initial)) = Raised
        (through (host_frame Probe.probe_host 49 "execute_on_receive"
                    "return self.module.on_receive(data)") Probe.system_exit)
  /\ snd (execute_with_timeout Probe.probe_host (call "exit")
            (intercepted initial)) = Ok (Value PNone)
  /\ stdout_log (turn "exit")
     = [Write (get_standard_output_message "loading"); Flush;
        Write (ok_response (JStr "OnReceive") default_text);
        Write PyStr.newline; Flush]
  /\ stderr_log (turn "exit") = []
  /\ snd (call "empty" (intercepted initial)) = Raised
        (through (host_frame Probe.probe_host 49 "execute_on_receive"
                    "return self.module.on_receive(data)") Probe.empty_batch)
  /\ snd (execute_with_timeout Probe.probe_host (call "empty")
            (intercepted initial)) = Ok (Value PNone)
  /\ stdout_log (turn "empty") = stdout_log (turn "exit")
  /\ stderr_log (turn "empty") = [].
Proof. vm_compute. repeat split. Qed.

(** The statement for C5 at a call that times out, followed by a call that
    raises. *)
Lemma timeout_and_failure_both_recover_witness :
  exists p',
    start_listening Probe.probe_host
      [Probe.request "OnReceive" "hang"; Probe.request "OnReceive" "raise"]
      initial
    = start_listening Probe.probe_host [Probe.request "OnReceive" "raise"] p'
    /\ In (Write (error_response (JStr "OnReceive"))) (stdout_log p').
Proof.
  destruct (timeout_and_failure_both_recover Probe.probe_host
              (Probe.request "OnReceive" "hang")
              [Probe.request "OnReceive" "raise"]
              [("Event", JStr "OnReceive"); ("Data", JDict [("do", JStr "hang")])]
              initial _ _ _ StillRunning
              eq_refl eq_refl eq_refl eq_refl)
    as (Htimeout & _ & _).
  destruct (Htimeout eq_refl) as (_ & _ & _ & p' & _ & Hout & _ & Hloop).
  exists p'. split; [exact Hloop |].
  rewrite Hout. apply in_or_app. right. now left.
Defined.

(** ** Unknown events *)








(** ** The interceptor *)

(** C8 at a write with leading white space: the [Data] of the wrapped line
    is the stripped text, not the text written. *)
Lemma interceptor_strips_the_written_text :
  OutputInterceptor.write (Interceptor RealStream get_standard_output_message)
    "  indented" []
  = [Write (get_standard_output_message "indented"); Flush]
  /\ OutputInterceptor.write
       (Interceptor RealStream get_standard_output_message) "  indented" []
     <> [Write (get_standard_output_message "  indented"); Flush].
Proof.
  split; [reflexivity |]. vm_compute. discriminate.
Qed.

(** C8, as amended.  For a lifecycle call, the call runs with [sys.stdout]
    bound to an interceptor over the sink found, the binding is still that
    interceptor when the call is over, and after the turn [sys.stdout] is
    the sink found again, however the call and the turn end.  What the call
    adds to the output log is [OutputInterceptor.write] of each of the
    texts it writes, in order; and over the real stream that write adds
    nothing when the text is white space only, and otherwise one line with
    the event [StandardOutput], the status ok and as [Data] the text
    without its leading and trailing white space, followed by a flush. *)
Theorem interceptor_scopes_the_call {G : Type} (H : host G)
        (line : string) (event : list (string * json)) (p p1 : process G)
        (fr : frame) (f : process G -> process G * outcome pyval)
        (o : outcome pyval) :
  json_loads H (PyStr.strip line) = Decoded (JDict event) ->
  lifecycle_call H (json_get "Event" event) (json_get "Data" event)
  = Some (fr, f) ->
  f (intercepted p) = (p1, o) ->
  process_line H line p
  = respond H (json_get "Event" event) (exit_of H fr o)
      (set_sys_stdout (joined H o p1) (sys_stdout p))
  /\ sys_stdout (intercepted p)
     = Interceptor (sys_stdout p) get_standard_output_message
  /\ sys_stdout p1 = Interceptor (sys_stdout p) get_standard_output_message
  /\ sys_stdout (fst (process_line H line p)) = sys_stdout p
  /\ (exists attr,
      attr_of_event (json_get "Event" event) = Some attr
      /\ stdout_log p1
         = fold_left
             (fun log message =>
                OutputInterceptor.write
                  (Interceptor (sys_stdout p) get_standard_output_message)
                  message log)
             (thread_writes H attr
                (args_of_event (json_get "Event" event)
                   (json_get "Data" event)) p)
             (stdout_log p))
  /\ (forall message log,
      OutputInterceptor.write
        (Interceptor RealStream get_standard_output_message) message log
      = if whitespace_only message then log
        else (log
                ++ [Write (PyStr.dq "{`Event`: `StandardOutput`, `Status`: `ok`, `Data`: "
                             ++ Json.encode_str (PyStr.strip message) ++ "}"
                             ++ PyStr.newline);
                    Flush])%list).
Proof.
  intros Hd Hc Hf.
  assert (Hturn := turn_known H line event fr f p p1 o Hd Hc Hf).
  assert (Heff := lifecycle_call_effect H _ _ _ _ _ _ _ Hc Hf).
  split; [exact Hturn |]. split; [reflexivity |].
  split; [exact (proj1 Heff) |].
  split.
  { rewrite Hturn.
    destruct (respond_fields H (json_get "Event" event) (exit_of H fr o)
                (set_sys_stdout (joined H o p1) (sys_stdout p))) as (-> & _).
    reflexivity. }
  split.
  { destruct (lifecycle_call_shape H _ _ _ _ Hc)
      as (attr & name & l1 & l2 & l3 & text & Ha & ->).
    exists attr. split; [exact Ha |].
    exact (execute_on_writes H _ _ _ _ _ _ _ _ _ _ Hf). }
  intros message log. rewrite write_intercepted. unfold captured.
  rewrite truthy_strip. destruct (whitespace_only message); simpl.
  - apply app_nil_r.
  - change (get_standard_output_message (PyStr.strip message))
      with (response (JStr "StandardOutput") "ok" (PyStr.strip message)
              ++ PyStr.newline).
    rewrite response_text. vm_compute (json_text _).
    vm_compute (Json.encode_str "ok"). vm_compute (PyStr.dq _).
    repeat (rewrite append_assoc; simpl). reflexivity.
Qed.

(** The statement for C8 at a call that times out: [sys.stdout] is the real
    stream again. *)
Lemma interceptor_scopes_the_call_witness :
  sys_stdout
    (fst (process_line Probe.probe_host (Probe.request "OnReceive" "hang")
            initial))
  = RealStream.
Proof.
  exact (proj1 (proj2 (proj2 (proj2
           (interceptor_scopes_the_call Probe.probe_host
              (Probe.request "OnReceive" "hang")
              [("Event", JStr "OnReceive"); ("Data", JDict [("do", JStr "hang")])]
              initial _ _ _ StillRunning eq_refl eq_refl eq_refl))))).
Defined.

(** ** Lines that stop the loop *)

Section Halting.

Context {G : Type} (H : host G).
Implicit Types p q : process G.

(** What leaves the loop from the handling of an exception or of a result
    has passed through one of three lines of [start_listening], and nothing
    was written for it. *)
Lemma respond_halts event_type exit q q' e :
  respond H event_type exit q = (q', Halt e) ->
  q' = q
  /\ (exc_is_exception e = false
      \/ exists e0,
          e = through (str_frame H) e0 \/ e = through (dumps_frame H) e0
          \/ e = through (result_frame H) e0).
Proof.
  assert (Hobject : forall type is_mapping encoding text,
             respond_object H event_type type is_mapping encoding text q
             = (q', Halt e) ->
             q' = q
             /\ (exc_is_exception e = false
                 \/ exists e0,
                     e = through (str_frame H) e0
                     \/ e = through (dumps_frame H) e0
                     \/ e = through (result_frame H) e0)).
  { intros type is_mapping encoding text.
    unfold respond_object, refuse_result.
    destruct is_mapping, encoding, text; try discriminate;
      intros E; inversion E; subst;
      (split; [reflexivity |]); right; eexists; eauto. }
  destruct exit as [[r | o] | | e1]; cbv beta iota zeta delta [respond].
  - destruct (ordinary _); apply Hobject.
  - apply Hobject.
  - discriminate.
  - destruct (exc_is_timeout e1); [discriminate |].
    destruct (exc_is_exception e1) eqn:Hex.
    + destruct (exc_str_raises e1); [| discriminate].
      intros E; inversion E; subst. split; [reflexivity |].
      right. eexists; eauto.
    + intros E; inversion E; subst. split; [reflexivity |]. now left.
Qed.


End Halting.




(** C10.  A line that decodes to a value that is not an object stops the
    loop with the [AttributeError] of [event.get], not with the [ValueError]
    of the protocol error: nothing is written, the state is untouched and
    the lines after it are not read.  A turn ends with the [ValueError] of
    the protocol error only when the line fails to decode. *)
Theorem non_object_line_raises_attribute_error {G : Type} (H : host G)
        (line : string) (rest : list string) (p : process G) (v : json) :
  json_loads H (PyStr.strip line) = Decoded v ->
  is_object v = false ->
  start_listening H (line :: rest) p = (p, Some (no_get H v))
  /\ exc_type (no_get H v) = "AttributeError"
  /\ exc_str (no_get H v)
     = "'" ++ type_name (to_py v) ++ "' object has no attribute 'get'"
  /\ no_get H v <> invalid_input H line
  /\ (forall line' q q',
         process_line H line' q = (q', Halt (invalid_input H line')) ->
         json_loads H (PyStr.strip line') = Undecodable).
Proof.
  intros Hd Hv. split.
  { simpl. unfold process_line. rewrite Hd.
    destruct v; try reflexivity. discriminate. }
  split; [reflexivity |]. split; [reflexivity |].
  split; [discriminate |].
  intros line' q q' Hturn.
  destruct (json_loads H (PyStr.strip line')) as [v' | | e0] eqn:Hd';
    [| reflexivity |].
  - exfalso. destruct v';
      try (unfold process_line in Hturn; rewrite Hd' in Hturn;
           inversion Hturn; subst; discriminate).
    unfold process_line in Hturn. rewrite Hd' in Hturn.
    destruct (stdout_interceptor _ _ _) as [q1 exit].
    destruct (respond_halts H _ _ _ _ _ Hturn)
      as (_ & [E | (e0 & [E | [E | E]])]);
      [discriminate E | | |];
      apply (f_equal exc_tb) in E; simpl in E; inversion E.
  - exfalso. unfold process_line in Hturn. rewrite Hd' in Hturn.
    inversion Hturn.
Qed.

(** The statement for C10 at the line [[1]]. *)
Lemma non_object_line_raises_attribute_error_witness :
  start_listening Probe.probe_host ["[1]"; Probe.request "OnReceive" "x"]
    initial
  = (initial, Some (no_get Probe.probe_host (JList [JInt 1])))
  /\ exc_str (no_get Probe.probe_host (JList [JInt 1]))
     = "'list' object has no attribute 'get'".
Proof.
  destruct (non_object_line_raises_attribute_error Probe.probe_host "[1]"
              [Probe.request "OnReceive" "x"] initial (JList [JInt 1])
              eq_refl eq_refl) as (Hl & _ & Hs & _).
  split; [exact Hl | exact Hs].
Defined.

(** ** Loading the module *)

Section Loading.

Context {G : Type} (H : host G).
Implicit Types p q : process G.

Lemma keeps_or_loads_ext p p' q q' :
  module p' = module p -> loads p' = loads p ->
  module q' = module q -> loads q' = loads q ->
  keeps_or_loads p q -> keeps_or_loads p' q'.
Proof.
  unfold keeps_or_loads, module_identity.
  intros -> -> -> ->. exact (fun x => x).
Qed.

Lemma process_line_keeps_or_loads line p :
  keeps_or_loads p (fst (process_line H line p)).
Proof.
  destruct (json_loads H (PyStr.strip line)) as [v | | e0] eqn:Hd.
  - destruct v;
      try (unfold process_line; rewrite Hd; apply keeps_or_loads_refl).
    destruct (lifecycle_call H (json_get "Event" d) (json_get "Data" d))
      as [[fr f] |] eqn:Hc.
    + destruct (f (intercepted p)) as [p1 o] eqn:Hf.
      rewrite (turn_known H line d fr f p p1 o Hd Hc Hf).
      destruct (respond_fields H (json_get "Event" d) (exit_of H fr o)
                  (set_sys_stdout (joined H o p1) (sys_stdout p)))
        as (_ & Hm & Hl).
      destruct (joined_fields H o p1) as (_ & Hjm & Hjl & _).
      destruct (lifecycle_call_effect H _ _ _ _ _ _ _ Hc Hf)
        as (_ & _ & _ & Hk).
      eapply keeps_or_loads_ext; [| | exact Hm | exact Hl | ];
        [reflexivity | reflexivity |].
      eapply keeps_or_loads_ext; [| | | | exact Hk];
        [reflexivity | reflexivity | exact Hjm | exact Hjl].
    + rewrite (turn_unknown H line d p Hd Hc).
      eapply keeps_or_loads_ext; [| | | | apply (keeps_or_loads_refl p)];
        reflexivity.
  - unfold process_line. rewrite Hd. apply keeps_or_loads_refl.
  - unfold process_line. rewrite Hd. apply keeps_or_loads_refl.
Qed.

Lemma start_listening_keeps_or_loads lines p :
  keeps_or_loads p (fst (start_listening H lines p)).
Proof.
  revert p. induction lines as [|l lines IH]; intros p; simpl.
  - apply keeps_or_loads_refl.
  - pose proof (process_line_keeps_or_loads l p) as Hk.
    destruct (process_line H l p) as [p1 [|e]]; simpl in *.
    + eapply keeps_or_loads_trans; [exact Hk | apply IH].
    + exact Hk.
Qed.

Lemma execute_on_loads_source attr name l1 l2 l3 text args q :
  module q = None ->
  file_state H = SourceFile ->
  loads (fst (execute_on H attr name l1 l2 l3 text args q)) = S (loads q)
  /\ module_identity (fst (execute_on H attr name l1 l2 l3 text args q))
     = Some (loads q).
Proof.
  intros Hm Hf. unfold execute_on, _load_module, module_identity.
  rewrite Hm, Hf.
  destruct (run_outcome (exec_module (unit_at H))); simpl;
    try destruct (has_attr (unit_at H) _ attr); simpl; split; reflexivity.
Qed.

(** A turn whose thread is left running before the assignment loads at
    most once, and only when the processor holds no module. *)
Lemma slow_turn_keeps in_loader line p :
  keeps_or_loads p (fst (fst (slow_turn H in_loader line p))).
Proof.
  unfold slow_turn.
  destruct (json_loads H (PyStr.strip line)) as [v | | e0] eqn:Hd;
    try apply process_line_keeps_or_loads.
  destruct v; try apply process_line_keeps_or_loads.
  destruct (lifecycle_call H (json_get "Event" d) (json_get "Data" d))
    as [[fr f] |]; [| apply process_line_keeps_or_loads].
  assert (Hslow : forall k : option (process G -> process G * outcome pyval),
             keeps_or_loads p
               (fst (fst
                  (let '(p1, exit) :=
                     stdout_interceptor get_standard_output_message
                       (fun q =>
                          let '(q1, r) :=
                            execute_with_timeout H
                              (fun q0 => (q0, StillRunning)) q in
                          (q1, match r with
                               | Ok v => Fell v
                               | Raise e => Threw (through fr e)
                               end)) p in
                   respond H (json_get "Event" d) exit p1, k)))).
  { intros k. unfold stdout_interceptor, execute_with_timeout. cbn [fst].
    match goal with
    | |- context [respond H ?ty ?exit ?q] =>
        destruct (respond_fields H ty exit q) as (_ & Hm1 & Hl1)
    end.
    eapply keeps_or_loads_ext; [| | exact Hm1 | exact Hl1
                                | apply (keeps_or_loads_refl p)];
      reflexivity. }
  destruct in_loader; [| apply Hslow].
  destruct (module p); [apply process_line_keeps_or_loads | apply Hslow].
Qed.

(** As long as no thread left in the loader carries on, the loop loads at
    most once, and only when the processor holds no module. *)
Lemma serve_keeps_or_loads arrivals p left :
  Forall (fun a => a <> Resumes) arrivals ->
  keeps_or_loads p (served H arrivals p left).
Proof.
  unfold served. intros Hall. revert p left.
  induction Hall as [|a arrivals Ha _ IH]; intros p left; simpl.
  - apply keeps_or_loads_refl.
  - destruct a as [line | line | line |]; [| | | now elim Ha].
    + pose proof (process_line_keeps_or_loads line p) as Hk.
      destruct (process_line H line p) as [p1 [|e]]; simpl in *.
      * eapply keeps_or_loads_trans; [exact Hk | apply IH].
      * exact Hk.
    + pose proof (slow_turn_keeps false line p) as Hk.
      destruct (slow_turn H false line p) as [[p1 st] k]; simpl in *.
      destruct st as [|e]; simpl;
        [eapply keeps_or_loads_trans; [exact Hk | apply IH] | exact Hk].
    + pose proof (slow_turn_keeps true line p) as Hk.
      destruct (slow_turn H true line p) as [[p1 st] k]; simpl in *.
      destruct st as [|e]; simpl;
        [eapply keeps_or_loads_trans; [exact Hk | apply IH] | exact Hk].
Qed.

(** With lines only, the loop over what arrives is [start_listening]. *)
Lemma serve_lines lines p left :
  serve H (map Line lines) p left
  = (fst (start_listening H lines p), left, snd (start_listening H lines p)).
Proof.
  revert p. induction lines as [|l lines IH]; intros p; simpl;
    [reflexivity |].
  destruct (process_line H l p) as [p1 [|e]]; [apply IH | reflexivity].
Qed.

End Loading.

(** C7, as amended.  The process starts without a module.  As long as no
    thread that a timeout left before the assignment of the module carries
    on: whatever has arrived, [exec_module] has run at most once, and it
    has run exactly when the processor holds a module; once the processor
    holds a module, whatever arrives after, it holds the module of the same
    identity and no load runs.  With a source file at [filename], the first
    lifecycle call is the one that loads.  On lines alone the loop is
    [start_listening]. *)
Theorem module_is_loaded_at_most_once {G : Type} (H : host G)
        (arrivals more : list arrival) :
  Forall (fun a => a <> Resumes) arrivals ->
  Forall (fun a => a <> Resumes) more ->
  let p1 := served H arrivals initial [] in
  let p2 := served H more p1 (still_left H arrivals initial []) in
  module (@initial G) = None
  /\ loads p1 <= 1
  /\ (module p1 = None <-> loads p1 = 0)
  /\ (forall m, module p1 = Some m ->
      loads p2 = loads p1
      /\ exists m', module p2 = Some m' /\ mod_id m' = mod_id m)
  /\ (forall line event fr f,
         file_state H = SourceFile ->
         json_loads H (PyStr.strip line) = Decoded (JDict event) ->
         lifecycle_call H (json_get "Event" event) (json_get "Data" event)
         = Some (fr, f) ->
         loads (served H [Line line] initial []) = 1
         /\ module_identity (served H [Line line] initial []) = Some 0)
  /\ (forall lines p,
         served H (map Line lines) p [] = fst (start_listening H lines p)).
Proof.
  intros Hno Hno' p1 p2.
  pose proof (serve_keeps_or_loads H arrivals initial [] Hno) as K1.
  pose proof (serve_keeps_or_loads H more p1
                (still_left H arrivals initial []) Hno') as K2.
  fold p1 in K1. fold p2 in K2.
  unfold keeps_or_loads, module_identity in K1, K2. simpl in K1.
  split; [reflexivity |].
  split; [destruct K1 as [[_ ->] | (_ & _ & ->)]; lia |].
  split.
  { destruct K1 as [[Hi ->] | (_ & Hi & ->)];
      destruct (module p1); split; intros E; congruence. }
  split.
  { intros m Hm. rewrite Hm in K2.
    destruct K2 as [[Hi Hl] | (Hn & _)]; [| discriminate].
    split; [exact Hl |].
    destruct (module p2) as [m' |]; [| discriminate].
    exists m'. split; [reflexivity | congruence]. }
  split.
  { intros line event fr f Hfile Hd Hc.
    assert (E : served H [Line line] initial []
                = fst (process_line H line initial)).
    { unfold served. simpl.
      now destruct (process_line H line initial) as [q [|e]]. }
    rewrite E.
    destruct (f (intercepted initial)) as [q o] eqn:Hf.
    rewrite (turn_known H line event fr f initial q o Hd Hc Hf).
    destruct (respond_fields H (json_get "Event" event) (exit_of H fr o)
                (set_sys_stdout (joined H o q) (sys_stdout (@initial G))))
      as (_ & Hm & Hl).
    destruct (joined_fields H o q) as (_ & Hjm & Hjl & _).
    unfold module_identity. rewrite Hm, Hl. simpl. rewrite Hjm, Hjl.
    destruct (lifecycle_call_execute_on H _ _ _ _ Hc)
      as (attr & name & l1 & l2 & l3 & text & args & ->).
    destruct (execute_on_loads_source H attr name l1 l2 l3 text args
                (intercepted initial) eq_refl Hfile) as [HL HI].
    rewrite Hf in HL, HI. simpl in HL, HI. split; [exact HL | exact HI]. }
  intros lines p. unfold served. now rewrite serve_lines.
Qed.

(** C7 at a thread left in the loader that carries on.  At the probe host,
    the thread of a first request for [OnCreate] is still in the loader at
    its deadline: the request is answered with the error of a timeout and
    the processor holds no module.  A request for [OnReceive] then loads
    the module and is answered.  When the thread left in the loader carries
    on, it loads again: the top-level code has run twice and the processor
    holds another module than before. *)
Lemma left_thread_loads_again :
  let first := [SlowLoad (Probe.request "OnCreate" "x")] in
  let second := (first ++ [Line (Probe.request "OnReceive" "x")])%list in
  let third := (second ++ [Resumes])%list in
  let after arrivals := served Probe.probe_host arrivals initial [] in
  module_identity (after first) = None /\ loads (after first) = 0
  /\ stderr_log (after first) = diagnostic_events "Error: Function timed out"
  /\ length (still_left Probe.probe_host first initial []) = 1
  /\ module_identity (after second) = Some 0 /\ loads (after second) = 1
  /\ module_identity (after third) = Some 1 /\ loads (after third) = 2.
Proof. vm_compute. repeat split. Qed.

(** The statement for C7 at three lifecycle calls in a row, the thread of
    the first left in the loader. *)
Lemma module_is_loaded_at_most_once_witness :
  loads (served Probe.probe_host
           [SlowLoad (Probe.request "OnReceive" "x");
            Line (Probe.request "OnCreate" "x");
            Line (Probe.request "OnReceive" "raise")] initial [])
  <= 1.
Proof.
  refine (proj1 (proj2 (module_is_loaded_at_most_once Probe.probe_host
                          [SlowLoad (Probe.request "OnReceive" "x");
                           Line (Probe.request "OnCreate" "x");
                           Line (Probe.request "OnReceive" "raise")] []
                          _ _))).
  - repeat constructor; discriminate.
  - constructor.
Defined.

(** ** The traceback listing *)

Section Listing.

Context {G : Type} (H : host G).

Lemma filtered_tb_first_match (pre : list frame) (f : frame)
      (post : list frame) :
  Forall (fun x => attributable H x = false) pre ->
  attributable H f = true ->
  exists more, filtered_tb H (pre ++ f :: post) = (f :: post) :: more.
Proof.
  unfold attributable. induction 1 as [|x pre Hx _ IH]; intros Hf; simpl.
  - rewrite Hf. now eexists.
  - rewrite Hx. now apply IH.
Qed.

(** The listing starts at the first entry whose file name contains
    [filename] and runs to the end of the traceback. *)
Lemma listing_runs_from_first_match (e : exn) (pre : list frame) (f : frame)
      (post : list frame) :
  exc_tb e = (pre ++ f :: post)%list ->
  Forall (fun x => attributable H x = false) pre ->
  attributable H f = true ->
  filter_processor_traceback H e
  = String.concat EmptyString (map Traceback.format_frame (f :: post)).
Proof.
  intros Htb Hpre Hf. unfold filter_processor_traceback. rewrite Htb.
  destruct (filtered_tb_first_match pre f post Hpre Hf) as [more ->].
  reflexivity.
Qed.

(** When no entry matches, the listing is the placeholder. *)
Lemma listing_without_match (e : exn) :
  Forall (fun x => attributable H x = false) (exc_tb e) ->
  filter_processor_traceback H e = no_relevant_trace.
Proof.
  unfold filter_processor_traceback, attributable.
  induction 1 as [|x tb Hx _ IH]; simpl; [reflexivity |].
  now rewrite Hx.
Qed.

End Listing.

(** C4 at a handler that raises inside a library function.  The handler's
    [on_receive] calls the decoder of the standard library, which raises: the
    traceback has the entry of the handler and then the entry of
    [json/decoder.py].  The file of the latter is not the processor's, and
    the listing written to the diagnostic stream has both entries. *)
Theorem listing_keeps_entries_after_first_match :
  PyStr.contains (filename Probe.probe_host) (co_filename Probe.library_frame)
  = false
  /\ filter_processor_traceback Probe.probe_host Probe.decode_error
     = Traceback.format_frame Probe.handler_frame
         ++ Traceback.format_frame Probe.library_frame
  /\ stderr_log
       (fst (process_line Probe.probe_host (Probe.request "OnReceive" "raise")
               initial))
     = diagnostic_events
         ("Error: Expecting value: line 1 column 1 (char 0)" ++ PyStr.newline
            ++ "Processor traceback:" ++ PyStr.newline
            ++ Traceback.format_frame Probe.handler_frame
            ++ Traceback.format_frame Probe.library_frame).
Proof.
  repeat split; vm_compute; reflexivity.
Qed.

(** * Further properties of the host *)

(** ** The traceback listing *)

(** X1.  When some entry of the traceback of [exc] has a file name that
    contains the processor's [filename], the listing is the formatted
    entries from the first such entry to the end of the traceback, whatever
    files the later entries belong to. *)
Theorem listing_is_suffix_from_first_match {G : Type} (H : host G) (exc : exn)
        (pre : list frame) (f : frame) (post : list frame) :
  exc_tb exc = (pre ++ f :: post)%list ->
  Forall (fun x => attributable H x = false) pre ->
  attributable H f = true ->
  filter_processor_traceback H exc
  = String.concat EmptyString (map Traceback.format_frame (f :: post))
  /\ filter_processor_traceback H exc <> no_relevant_trace.
Proof.
  intros Htb Hpre Hf.
  unfold filter_processor_traceback. rewrite Htb.
  destruct (filtered_tb_first_match H pre f post Hpre Hf) as [more ->].
  split; [reflexivity |].
  unfold Traceback.extract_tb, Traceback.format_list. intros Heq.
  destruct post; simpl in Heq; unfold Traceback.format_frame at 1 in Heq;
    simpl in Heq; discriminate.
Qed.

(** The statement for X1 at the exception of the probe unit as the loop
    catches it: four entries of the host, then the handler's, then the
    library's. *)
Lemma listing_is_suffix_from_first_match_witness :
  filter_processor_traceback Probe.probe_host
    (as_caught Probe.probe_host
       (host_frame Probe.probe_host 134 "start_listening" "result = ...")
       (through (host_frame Probe.probe_host 49 "execute_on_receive"
                   "return self.module.on_receive(data)")
          Probe.decode_error))
  = String.concat EmptyString
      (map Traceback.format_frame [Probe.handler_frame; Probe.library_frame]).
Proof.
  match goal with
  | |- filter_processor_traceback _ ?e = _ =>
      refine (proj1 (listing_is_suffix_from_first_match Probe.probe_host e
                       (firstn 4 (exc_tb e)) Probe.handler_frame
                       [Probe.library_frame] eq_refl _ eq_refl))
  end.
  repeat constructor.
Defined.

(** X2.  When no entry of the traceback has a file name that contains the
    processor's [filename], the listing is the placeholder. *)
Theorem listing_is_placeholder_without_match {G : Type} (H : host G)
        (exc : exn) :
  Forall (fun x => attributable H x = false) (exc_tb exc) ->
  filter_processor_traceback H exc
  = "No relevant stack trace found from the processor script.".
Proof.
  unfold filter_processor_traceback, attributable.
  induction 1 as [|x tb Hx _ IH]; simpl; [reflexivity |].
  now rewrite Hx.
Qed.

(** The statement for X2 at the timeout error of the probe host, whose only
    entry is the host's. *)
Lemma listing_is_placeholder_without_match_witness :
  filter_processor_traceback Probe.probe_host (timeout_error Probe.probe_host)
  = "No relevant stack trace found from the processor script.".
Proof.
  apply (listing_is_placeholder_without_match Probe.probe_host).
  repeat constructor.
Defined.

(** X3.  The test on an entry is a substring test on its file name.  When
    the processor's [filename] occurs in the path of the host's own source
    file, nothing is filtered: the listing of an exception caught by the loop
    starts at the entry of [start_listening] and has every entry. *)
Theorem host_entries_listed_when_paths_overlap {G : Type} (H : host G)
        (fr : frame) (e : exn) :
  PyStr.contains (filename H) (host_file H) = true ->
  co_filename fr = host_file H ->
  filter_processor_traceback H (as_caught H fr e)
  = String.concat EmptyString
      (map Traceback.format_frame
         (fr :: reraise_frame H :: target_frame H :: exc_tb e)).
Proof.
  intros Hsub Hfr. unfold filter_processor_traceback.
  change (exc_tb (as_caught H fr e))
    with (fr :: reraise_frame H :: target_frame H :: exc_tb e).
  cbn [filtered_tb]. rewrite Hfr, Hsub. reflexivity.
Qed.

(** The statement for X3 at a processor for [main.py] run by a host whose
    file is [plugin_main.py]. *)
Lemma host_entries_listed_when_paths_overlap_witness :
  let H := {| filename := "main.py"; timeout := PInt 60;
              host_file := "/app/plugin_main.py"; file_state := SourceFile;
              unit_at := Probe.probe_unit; json_loads := Decoder.decode;
     beyond := default_beyond |} in
  filter_processor_traceback H
    (as_caught H (host_frame H 136 "start_listening" "result = ...")
       (timeout_error H))
  = String.concat EmptyString
      (map Traceback.format_frame
         [host_frame H 136 "start_listening" "result = ..."; reraise_frame H;
          target_frame H;
          host_frame H 79 "execute_with_timeout"
            "raise TimeoutError(f`Execution timed out after {self.timeout} seconds`)"]).
Proof.
  intros H.
  exact (host_entries_listed_when_paths_overlap H
           (host_frame H 136 "start_listening" "result = ...")
           (timeout_error H) eq_refl eq_refl).
Defined.

(** ** Missing functions, missing files and failed loads *)

Lemma lifecycle_call_attr {G : Type} (H : host G) (event_type event_data : json)
      (attr : string) :
  attr_of_event event_type = Some attr ->
  exists fr name l1 l2 l3 text args,
    lifecycle_call H event_type event_data
    = Some (fr, execute_on H attr name l1 l2 l3 text args)
    /\ co_filename fr = host_file H.
Proof.
  unfold attr_of_event, lifecycle_call.
  destruct (is_str event_type "OnCreate");
    [| destruct (is_str event_type "OnReceive");
       [| destruct (is_str event_type "OnDestroy")]];
    intros E; inversion E; subst; clear E;
    unfold execute_on_create, execute_on_receive, execute_on_destroy;
    repeat eexists.
Qed.

(** X4.  When the module is loaded and lacks the function of the event, the
    turn calls nothing of the handler: the process is as before but for one
    error response line and one diagnostic, which names the missing function
    and, the host's file not being the processor's, has the placeholder for
    a listing. *)
Theorem missing_function_is_reported {G : Type} (H : host G) (line : string)
        (event : list (string * json)) (p : process G) (m : module_obj G)
        (attr : string) :
  sys_stdout p = RealStream ->
  json_loads H (PyStr.strip line) = Decoded (JDict event) ->
  attr_of_event (json_get "Event" event) = Some attr ->
  module p = Some m ->
  has_attr (unit_at H) (mod_globals m) attr = false ->
  PyStr.contains (filename H) (host_file H) = false ->
  process_line H line p
  = ({| stdout_log :=
          (stdout_log p
             ++ line_events (error_response (json_get "Event" event)))%list;
        stderr_log :=
          (stderr_log p
             ++ diagnostic_events
                  ("Error: The module does not have an '" ++ attr
                     ++ "' function." ++ PyStr.newline
                     ++ "Processor traceback:" ++ PyStr.newline
                     ++ "No relevant stack trace found from the processor script."))%list;
        sys_stdout := RealStream; module := module p; loads := loads p |},
     Continue).
Proof.
  intros Hp Hd Ha Hm Hno Hhost.
  destruct (lifecycle_call_attr H _ (json_get "Data" event) _ Ha)
    as (fr & name & l1 & l2 & l3 & text & args & Hc & Hfr).
  assert (Hf : execute_on H attr name l1 l2 l3 text args (intercepted p)
               = (intercepted p,
                  Raised (new_exn "AttributeError" false (missing_function attr)
                            (host_frame H l3 name
                               ("raise AttributeError(`The module does not have an '"
                                  ++ attr ++ "' function.`)"))))).
  { unfold execute_on.
    change (module (intercepted p)) with (module p). rewrite Hm.
    change (module (intercepted p)) with (module p). rewrite Hm, Hno.
    reflexivity. }
  rewrite (turn_known H line event fr _ p _ _ Hd Hc Hf).
  simpl exit_of. cbn [joined new_exn plain_exn exc_is_exception].
  rewrite respond_threw by reflexivity. simpl exc_is_timeout.
  unfold exception_message.
  rewrite (listing_without_match H)
    by (simpl; repeat constructor; unfold attributable; simpl;
        rewrite ?Hfr; exact Hhost).
  rewrite print_error_real by (simpl; exact Hp).
  simpl. rewrite Hp, !append_assoc. reflexivity.
Qed.

(** The statement for X4 at the probe unit, which has no [on_destroy], once
    it is loaded. *)
Lemma missing_function_is_reported_witness :
  exists p p',
    module p <> None
    /\ process_line Probe.probe_host (Probe.request "OnDestroy" "x") p
       = (p', Continue)
    /\ module p' = module p
    /\ stdout_log p'
       = (stdout_log p ++ line_events (error_response (JStr "OnDestroy")))%list.
Proof.
  pose (p := fst (process_line Probe.probe_host (Probe.request "OnCreate" "x")
                    initial)).
  pose proof (missing_function_is_reported Probe.probe_host
                (Probe.request "OnDestroy" "x")
                [("Event", JStr "OnDestroy"); ("Data", JDict [("do", JStr "x")])]
                p {| mod_id := 0; mod_globals := 1 |} "on_destroy"
                eq_refl eq_refl eq_refl eq_refl eq_refl eq_refl) as W.
  exists p. eexists.
  split; [discriminate |].
  split; [exact W |]. split; reflexivity.
Defined.

(** X5.  When there is no file at [filename] and no module yet, a lifecycle
    event loads nothing and calls nothing: the process is as before but for
    one error response line and one diagnostic, "File ... does not exist"
    with the placeholder for a listing.  The module field stays unset, so the
    next lifecycle event looks for the file again. *)
Theorem missing_file_is_reported {G : Type} (H : host G) (line : string)
        (event : list (string * json)) (p : process G) (attr : string) :
  sys_stdout p = RealStream ->
  json_loads H (PyStr.strip line) = Decoded (JDict event) ->
  attr_of_event (json_get "Event" event) = Some attr ->
  module p = None ->
  file_state H = Missing ->
  PyStr.contains (filename H) (host_file H) = false ->
  process_line H line p
  = ({| stdout_log :=
          (stdout_log p
             ++ line_events (error_response (json_get "Event" event)))%list;
        stderr_log :=
          (stderr_log p
             ++ diagnostic_events
                  ("Error: File " ++ filename H ++ " does not exist"
                     ++ PyStr.newline
                     ++ "Processor traceback:" ++ PyStr.newline
                     ++ "No relevant stack trace found from the processor script."))%list;
        sys_stdout := RealStream; module := None; loads := loads p |},
     Continue).
Proof.
  intros Hp Hd Ha Hm Hfile Hhost.
  destruct (lifecycle_call_attr H _ (json_get "Data" event) _ Ha)
    as (fr & name & l1 & l2 & l3 & text & args & Hc & Hfr).
  assert (Hf : execute_on H attr name l1 l2 l3 text args (intercepted p)
               = (intercepted p,
                  Raised (through (host_frame H l1 name "self._load_module()")
                            (new_exn "FileNotFoundError" false
                               ("File " ++ filename H ++ " does not exist")
                               (host_frame H 27 "_load_module"
                                  "raise FileNotFoundError(f`File {self.filename} does not exist`)"))))).
  { unfold execute_on, _load_module.
    change (module (intercepted p)) with (module p). rewrite Hm, Hfile.
    reflexivity. }
  rewrite (turn_known H line event fr _ p _ _ Hd Hc Hf).
  simpl exit_of. cbn [joined through new_exn plain_exn exc_is_exception].
  rewrite respond_threw by reflexivity. simpl exc_is_timeout.
  unfold exception_message.
  rewrite (listing_without_match H)
    by (simpl; repeat constructor; unfold attributable; simpl;
        rewrite ?Hfr; exact Hhost).
  rewrite print_error_real by (simpl; exact Hp).
  simpl. rewrite Hp, Hm, !append_assoc. reflexivity.
Qed.

(** The statement for X5 at the probe host with its file taken away. *)
Lemma missing_file_is_reported_witness :
  exists p',
    process_line (with_file_state Probe.probe_host Missing)
      (Probe.request "OnCreate" "x") initial
    = (p', Continue)
    /\ module p' = None
    /\ stdout_log p' = line_events (error_response (JStr "OnCreate")).
Proof.
  pose proof (missing_file_is_reported
                (with_file_state Probe.probe_host Missing)
                (Probe.request "OnCreate" "x")
                [("Event", JStr "OnCreate"); ("Data", JDict [("do", JStr "x")])]
                initial "on_create"
                eq_refl eq_refl eq_refl eq_refl eq_refl eq_refl) as W.
  eexists. split; [exact W |]. split; reflexivity.
Defined.

Section NoSource.

Context {G : Type} (H : host G).
Implicit Types p q : process G.

Lemma execute_on_without_source attr name l1 l2 l3 text args q :
  module q = None ->
  file_state H <> SourceFile ->
  exists e, execute_on H attr name l1 l2 l3 text args q = (q, Raised e).
Proof.
  intros Hm Hfile. unfold execute_on, _load_module. rewrite Hm.
  destruct (file_state H); [| | now elim Hfile]; eexists; reflexivity.
Qed.

Lemma turn_without_source line p :
  module p = None ->
  file_state H <> SourceFile ->
  module (fst (process_line H line p)) = None
  /\ loads (fst (process_line H line p)) = loads p.
Proof.
  intros Hm Hfile.
  destruct (json_loads H (PyStr.strip line)) as [v | | e0] eqn:Hd.
  - destruct v;
      try (unfold process_line; rewrite Hd; split; [exact Hm | reflexivity]).
    destruct (lifecycle_call H (json_get "Event" d) (json_get "Data" d))
      as [[fr f] |] eqn:Hc.
    + destruct (lifecycle_call_execute_on H _ _ _ _ Hc)
        as (attr & name & l1 & l2 & l3 & text & args & ->).
      destruct (execute_on_without_source attr name l1 l2 l3 text args
                  (intercepted p) Hm Hfile) as [e Hf].
      rewrite (turn_known H line d fr _ p _ _ Hd Hc Hf).
      destruct (respond_fields H (json_get "Event" d)
                  (exit_of H fr (Raised e))
                  (set_sys_stdout (joined H (Raised e) (intercepted p))
                     (sys_stdout p)))
        as (_ & -> & ->).
      destruct (joined_fields H (Raised e) (intercepted p))
        as (_ & Hjm & Hjl & _).
      cbn [set_sys_stdout module loads]. rewrite Hjm, Hjl.
      split; [exact Hm | reflexivity].
    + rewrite (turn_unknown H line d p Hd Hc). split; [exact Hm | reflexivity].
  - unfold process_line. rewrite Hd. split; [exact Hm | reflexivity].
  - unfold process_line. rewrite Hd. split; [exact Hm | reflexivity].
Qed.

End NoSource.

(** X6.  While [filename] is not a source file the loader can load, whatever
    lines are read, the processor never gets a module and [exec_module]
    never runs. *)
Theorem never_loaded_without_source {G : Type} (H : host G)
        (lines : list string) (p : process G) :
  file_state H <> SourceFile ->
  module p = None ->
  module (fst (start_listening H lines p)) = None
  /\ loads (fst (start_listening H lines p)) = loads p.
Proof.
  intros Hfile. revert p.
  induction lines as [|l lines IH]; intros p Hm; simpl.
  - split; [exact Hm | reflexivity].
  - destruct (turn_without_source H l p Hm Hfile) as [Hm1 Hl1].
    destruct (process_line H l p) as [p1 [|e]]; simpl in *.
    + destruct (IH p1 Hm1) as [-> ->]. split; [reflexivity | exact Hl1].
    + split; assumption.
Qed.

(** The statement for X6 at the probe host with its file taken away, on
    three lifecycle events. *)
Lemma never_loaded_without_source_witness :
  loads (fst (start_listening (with_file_state Probe.probe_host Missing)
                [Probe.request "OnCreate" "x"; Probe.request "OnReceive" "x";
                 Probe.request "OnDestroy" "x"] initial))
  = 0.
Proof.
  refine (proj2 (never_loaded_without_source
                   (with_file_state Probe.probe_host Missing) _ initial _
                   eq_refl)).
  discriminate.
Defined.

(** X7.  [_load_module] sets the module field before it runs the top-level
    code.  When that code raises, the call ends with the exception, the
    handler's function is not called, and the processor holds the module as
    the top-level code left it; no later lifecycle call runs the top-level
    code again. *)
Theorem failed_load_keeps_the_module {G : Type} (H : host G)
        (event_type event_data : json) (fr : frame)
        (f : process G -> process G * outcome pyval) (p : process G)
        (e : exn) :
  file_state H = SourceFile ->
  module p = None ->
  run_outcome (exec_module (unit_at H)) = Raised e ->
  lifecycle_call H event_type event_data = Some (fr, f) ->
  exists e',
    f p
    = ({| stdout_log := stdout_log (emit (run_writes (exec_module (unit_at H))) p);
          stderr_log := stderr_log p; sys_stdout := sys_stdout p;
          module := Some {| mod_id := loads p;
                            mod_globals := run_globals (exec_module (unit_at H)) |};
          loads := S (loads p) |}, Raised e')
    /\ exc_type e' = exc_type e /\ exc_str e' = exc_str e
    /\ (forall event_type2 event_data2 fr2 f2,
           lifecycle_call H event_type2 event_data2 = Some (fr2, f2) ->
           loads (fst (f2 (fst (f p)))) = S (loads p)).
Proof.
  intros Hfile Hm Hout Hc.
  destruct (lifecycle_call_execute_on H _ _ _ _ Hc)
    as (attr & name & l1 & l2 & l3 & text & args & ->).
  assert (Hf : exists e',
             execute_on H attr name l1 l2 l3 text args p
             = ({| stdout_log :=
                     stdout_log (emit (run_writes (exec_module (unit_at H))) p);
                   stderr_log := stderr_log p; sys_stdout := sys_stdout p;
                   module := Some {| mod_id := loads p;
                                     mod_globals :=
                                       run_globals (exec_module (unit_at H)) |};
                   loads := S (loads p) |}, Raised e')
             /\ exc_type e' = exc_type e /\ exc_str e' = exc_str e).
  { unfold execute_on, _load_module. rewrite Hm, Hfile, Hout.
    eexists. split; [reflexivity | split; reflexivity]. }
  destruct Hf as (e' & Hf & Ht & Hs).
  exists e'. split; [exact Hf |]. split; [exact Ht |]. split; [exact Hs |].
  intros ty2 d2 fr2 f2 Hc2. rewrite Hf. simpl fst.
  destruct (f2 _) as [q o] eqn:Hf2.
  destruct (lifecycle_call_effect H _ _ _ _ _ _ _ Hc2 Hf2) as (_ & _ & _ & Hk).
  unfold keeps_or_loads, module_identity in Hk. simpl in Hk.
  destruct Hk as [[_ Hl] | [Hn _]]; [exact Hl | discriminate].
Qed.

(** The statement for X7 at a unit whose first line, an import, fails: the
    module is kept, and the request after it is answered with a missing
    function, not with a second load. *)
Lemma failed_load_keeps_the_module_witness :
  let H := with_unit Probe.probe_host broken_probe_unit in
  let p := fst (start_listening H
                  [Probe.request "OnCreate" "x"; Probe.request "OnCreate" "x"]
                  initial) in
  loads (fst (execute_on_create H PNone initial)) = 1
  /\ loads p = 1.
Proof.
  intros H p.
  destruct (failed_load_keeps_the_module H (JStr "OnCreate") JNull _ _ initial
              _ eq_refl eq_refl eq_refl eq_refl) as (e' & Hf & _).
  split; [| reflexivity].
  exact (f_equal (fun r => loads (fst r)) Hf).
Defined.

(** ** A [TimeoutError] of the handler's own *)

(** X8.  When the call itself raises an instance of [TimeoutError] that is
    true, the turn is the one of a deadline that elapsed: the diagnostic is
    "Error: Function timed out", with neither the text of the exception nor
    a listing. *)
Theorem handler_timeout_error_reads_as_deadline {G : Type} (H : host G)
        (line : string) (event : list (string * json)) (p p1 : process G)
        (fr : frame) (f : process G -> process G * outcome pyval) (e : exn) :
  sys_stdout p = RealStream ->
  json_loads H (PyStr.strip line) = Decoded (JDict event) ->
  lifecycle_call H (json_get "Event" event) (json_get "Data" event)
  = Some (fr, f) ->
  f (intercepted p) = (p1, Raised e) ->
  exc_is_exception e = true ->
  exc_bool e = true ->
  exc_is_timeout e = true ->
  process_line H line p
  = ({| stdout_log :=
          (stdout_log p1
             ++ line_events (error_response (json_get "Event" event)))%list;
        stderr_log :=
          (stderr_log p ++ diagnostic_events "Error: Function timed out")%list;
        sys_stdout := RealStream; module := module p1; loads := loads p1 |},
     Continue)
  /\ respond H (json_get "Event" event) (exit_of H fr (Raised e))
       (set_sys_stdout p1 (sys_stdout p))
     = respond H (json_get "Event" event) (exit_of H fr StillRunning)
         (set_sys_stdout p1 (sys_stdout p)).
Proof.
  intros Hp Hd Hc Hf Hex Hbool He.
  assert (Hre : reraised e = true) by (unfold reraised; now rewrite Hex, Hbool).
  assert (Hrep : reportable e = true) by (unfold reportable; now rewrite He).
  destruct (lifecycle_call_effect H _ _ _ _ _ _ _ Hc Hf) as (_ & Herr & _).
  rewrite (turn_known H line event fr f p p1 _ Hd Hc Hf).
  rewrite (exit_of_raised H fr e Hre), (joined_raised H e _ Hre).
  cbn [exit_of].
  rewrite (respond_threw H _ (as_caught H fr e) _ Hrep).
  rewrite respond_threw by reflexivity.
  simpl exc_is_timeout. rewrite He.
  split; [| reflexivity].
  rewrite print_error_real by (simpl; exact Hp).
  simpl. rewrite Hp, Herr. reflexivity.
Qed.

(** The statement for X8 at a unit whose [on_receive] raises the
    [TimeoutError] of a socket. *)
Lemma handler_timeout_error_reads_as_deadline_witness :
  stderr_log
    (fst (process_line (with_unit Probe.probe_host impatient_probe_unit)
            (Probe.request "OnReceive" "x") initial))
  = diagnostic_events "Error: Function timed out".
Proof.
  pose proof (proj1 (handler_timeout_error_reads_as_deadline
                       (with_unit Probe.probe_host impatient_probe_unit)
                       (Probe.request "OnReceive" "x")
                       [("Event", JStr "OnReceive");
                        ("Data", JDict [("do", JStr "x")])]
                       initial _ _ _ _ eq_refl eq_refl eq_refl eq_refl eq_refl
                       eq_refl eq_refl))
    as W.
  exact (f_equal (fun r => stderr_log (fst r)) W).
Defined.

(** ** The shape of a turn and of the whole output *)

(** What the loop does with the way the [with] block was left by a
    lifecycle call: one response line and the loop goes on, or nothing and
    an exception leaves the loop. *)
Lemma respond_shape {G : Type} (H : host G) (event_type : json)
      (exit : block_exit) (q : process G) :
  sys_stdout q = RealStream ->
  exit <> Continued ->
  (exists text err,
      snd (respond H event_type exit q) = Continue
      /\ stdout_log (fst (respond H event_type exit q))
         = (stdout_log q ++ line_events text)%list
      /\ stderr_log (fst (respond H event_type exit q))
         = (stderr_log q ++ err)%list
      /\ ((exists s, text = ok_response event_type s /\ err = [])
          \/ (exists diag, text = error_response event_type
                           /\ err = diagnostic_events diag)))
  \/ (exists e, respond H event_type exit q = (q, Halt e)).
Proof.
  intros Hq Hexit.
  assert (Hobject : forall type is_mapping encoding text,
             (exists line err,
                 snd (respond_object H event_type type is_mapping encoding
                        text q) = Continue
                 /\ stdout_log
                      (fst (respond_object H event_type type is_mapping
                              encoding text q))
                    = (stdout_log q ++ line_events line)%list
                 /\ stderr_log
                      (fst (respond_object H event_type type is_mapping
                              encoding text q))
                    = (stderr_log q ++ err)%list
                 /\ ((exists s, line = ok_response event_type s /\ err = [])
                     \/ (exists diag, line = error_response event_type
                                      /\ err = diagnostic_events diag)))
             \/ (exists e,
                    respond_object H event_type type is_mapping encoding
                      text q = (q, Halt e))).
  { intros type is_mapping encoding text.
    destruct (respond_object_shape H event_type type is_mapping encoding
                text q Hq) as [Hline | (e & He & _)];
      [left; exact Hline | right; now exists e]. }
  destruct exit as [[r | o] | | e]; [| | now elim Hexit |];
    cbv beta iota zeta delta [respond].
  - destruct (ordinary _); apply Hobject.
  - apply Hobject.
  - destruct (reportable e) eqn:Hrep.
    + left. fold (respond H event_type (Threw e) q).
      rewrite (respond_threw H _ e _ Hrep).
      rewrite print_error_real by exact Hq.
      do 2 eexists. simpl. repeat split. right. eexists. split; reflexivity.
    + right. unfold reportable in Hrep.
      apply orb_false_iff in Hrep as [Ht Hs]. rewrite Ht.
      destruct (exc_is_exception e); [| eexists; reflexivity].
      destruct (exc_str_raises e); [| discriminate]. eexists. reflexivity.
Qed.

Lemma exit_of_not_continued {G : Type} (H : host G) (fr : frame)
      (o : outcome pyval) :
  exit_of H fr o <> Continued.
Proof.
  unfold exit_of. destruct o as [r | o | e |]; try discriminate.
  destruct (reraised e); discriminate.
Qed.

(** X9.  A turn for a lifecycle event adds to the output stream what the
    interceptor makes of the writes of the call, in order, and to the
    diagnostic stream the report for an exception that ended the thread.
    Then the loop goes on and the turn has added exactly one response line,
    the ok response with no diagnostic or the error response with one
    diagnostic; or an exception leaves the loop and nothing more is
    written. *)
Theorem lifecycle_turn_ends_with_one_response {G : Type} (H : host G)
        (line : string) (event : list (string * json)) (p p1 : process G)
        (fr : frame) (f : process G -> process G * outcome pyval)
        (o : outcome pyval) :
  sys_stdout p = RealStream ->
  json_loads H (PyStr.strip line) = Decoded (JDict event) ->
  lifecycle_call H (json_get "Event" event) (json_get "Data" event)
  = Some (fr, f) ->
  f (intercepted p) = (p1, o) ->
  exists attr,
    attr_of_event (json_get "Event" event) = Some attr
    /\ let out :=
         fold_left
           (fun log message =>
              OutputInterceptor.write
                (Interceptor RealStream get_standard_output_message)
                message log)
           (thread_writes H attr
              (args_of_event (json_get "Event" event)
                 (json_get "Data" event)) p)
           (stdout_log p) in
       let err := (stderr_log p ++ thread_report H o)%list in
       (exists text diag,
           snd (process_line H line p) = Continue
           /\ stdout_log (fst (process_line H line p))
              = (out ++ line_events text)%list
           /\ stderr_log (fst (process_line H line p)) = (err ++ diag)%list
           /\ ((exists s, text = ok_response (json_get "Event" event) s
                          /\ diag = [])
               \/ (exists message,
                      text = error_response (json_get "Event" event)
                      /\ diag = diagnostic_events message)))
       \/ (exists e,
              snd (process_line H line p) = Halt e
              /\ stdout_log (fst (process_line H line p)) = out
              /\ stderr_log (fst (process_line H line p)) = err).
Proof.
  intros Hp Hd Hc Hf.
  destruct (lifecycle_call_shape H _ _ _ _ Hc)
    as (attr & name & l1 & l2 & l3 & text & Ha & ->).
  exists attr. split; [exact Ha |].
  pose proof (execute_on_writes H _ _ _ _ _ _ _ _ _ _ Hf) as HW.
  destruct (execute_on_effect H _ _ _ _ _ _ _ _ _ _ Hf) as (_ & Herr & _).
  cbn [intercepted set_sys_stdout sys_stdout stdout_log stderr_log] in HW, Herr.
  rewrite Hp in HW.
  rewrite (turn_known H line event fr _ p p1 o Hd Hc Hf).
  assert (Hq : sys_stdout (set_sys_stdout (joined H o p1) (sys_stdout p))
               = RealStream) by exact Hp.
  assert (Hout : stdout_log (set_sys_stdout (joined H o p1) (sys_stdout p))
                 = stdout_log p1).
  { simpl. now destruct (joined_fields H o p1) as (_ & _ & _ & ->). }
  assert (Hrep : stderr_log (set_sys_stdout (joined H o p1) (sys_stdout p))
                 = (stderr_log p ++ thread_report H o)%list).
  { simpl. unfold joined, thread_report.
    destruct o as [r | ob | e |]; rewrite <- Herr;
      try (symmetry; apply app_nil_r).
    destruct (exc_is_exception e); [symmetry; apply app_nil_r | reflexivity]. }
  cbv zeta.
  destruct (respond_shape H (json_get "Event" event) (exit_of H fr o) _ Hq
              (exit_of_not_continued H fr o))
    as [(text' & diag & Hs & Ho & He & Hkind) | [e He]].
  - left. exists text', diag. rewrite Ho, He, Hout, Hrep, HW.
    split; [exact Hs |]. split; [reflexivity |]. split; [reflexivity |].
    exact Hkind.
  - right. exists e. rewrite He. cbn [fst snd]. rewrite Hout, Hrep, HW.
    split; [reflexivity |]. split; reflexivity.
Qed.

(** The statement for X9 at a call of the probe unit that prints two lines
    and returns a mapping. *)
Lemma lifecycle_turn_ends_with_one_response_witness :
  exists text,
    stdout_log (fst (process_line Probe.probe_host
                       (Probe.request "OnReceive" "x") initial))
    = ([Write (get_standard_output_message "loading"); Flush;
        Write (get_standard_output_message "working"); Flush;
        Write (get_standard_output_message "indented"); Flush]
         ++ line_events text)%list.
Proof.
  destruct (lifecycle_turn_ends_with_one_response Probe.probe_host
              (Probe.request "OnReceive" "x")
              [("Event", JStr "OnReceive"); ("Data", JDict [("do", JStr "x")])]
              initial _ _ _ _ eq_refl eq_refl eq_refl eq_refl)
    as (attr & Ha & [(text & diag & _ & Hout & _) | (e & Hs & _)]).
  - inversion Ha; subst attr. exists text. exact Hout.
  - discriminate Hs.
Defined.

Section Appending.

Context {G : Type} (H : host G).
Implicit Types p q : process G.

Lemma respond_appends event_type exit q :
  sys_stdout q = RealStream ->
  exists out err,
    stdout_log (fst (respond H event_type exit q)) = (stdout_log q ++ out)%list
    /\ stderr_log (fst (respond H event_type exit q))
       = (stderr_log q ++ err)%list.
Proof.
  intros Hq. destruct exit as [r | | e];
    [| exists [], []; simpl; now rewrite !app_nil_r |].
  - destruct (respond_shape H event_type (Fell r) q Hq)
      as [(text & err & _ & Ho & He & _) | [e He]]; [discriminate | |].
    + now exists (line_events text), err.
    + rewrite He. exists [], []. simpl. now rewrite !app_nil_r.
  - destruct (respond_shape H event_type (Threw e) q Hq)
      as [(text & err & _ & Ho & He & _) | [e' He]]; [discriminate | |].
    + now exists (line_events text), err.
    + rewrite He. exists [], []. simpl. now rewrite !app_nil_r.
Qed.

Lemma process_line_restores line p :
  sys_stdout (fst (process_line H line p)) = sys_stdout p.
Proof.
  destruct (json_loads H (PyStr.strip line)) as [v | | e0] eqn:Hd.
  - destruct v; try (unfold process_line; rewrite Hd; reflexivity).
    destruct (lifecycle_call H (json_get "Event" d) (json_get "Data" d))
      as [[fr f] |] eqn:Hc.
    + destruct (f (intercepted p)) as [p1 o] eqn:Hf.
      rewrite (turn_known H line d fr f p p1 o Hd Hc Hf).
      now destruct (respond_fields H (json_get "Event" d) (exit_of H fr o)
                      (set_sys_stdout (joined H o p1) (sys_stdout p)))
        as (-> & _).
    + rewrite (turn_unknown H line d p Hd Hc). reflexivity.
  - unfold process_line. rewrite Hd. reflexivity.
  - unfold process_line. rewrite Hd. reflexivity.
Qed.

Lemma process_line_appends line p :
  sys_stdout p = RealStream ->
  exists out err,
    stdout_log (fst (process_line H line p)) = (stdout_log p ++ out)%list
    /\ stderr_log (fst (process_line H line p)) = (stderr_log p ++ err)%list.
Proof.
  intros Hp.
  assert (Hi : sys_stdout (intercepted p)
               = Interceptor RealStream get_standard_output_message)
    by (unfold intercepted; simpl; now rewrite Hp).
  destruct (json_loads H (PyStr.strip line)) as [v | | e0] eqn:Hd.
  - destruct v;
      try (unfold process_line; rewrite Hd; exists [], []; simpl;
           now rewrite !app_nil_r).
    destruct (lifecycle_call H (json_get "Event" d) (json_get "Data" d))
      as [[fr f] |] eqn:Hc.
    + destruct (f (intercepted p)) as [p1 o] eqn:Hf.
      pose proof (lifecycle_call_effect H _ _ _ _ _ _ _ Hc Hf) as Heff.
      destruct (thread_captured (intercepted p) p1 Hi Heff) as [W HW].
      destruct Heff as (_ & Herr & _). simpl in HW, Herr.
      rewrite (turn_known H line d fr f p p1 o Hd Hc Hf).
      destruct (respond_appends (json_get "Event" d) (exit_of H fr o)
                  (set_sys_stdout (joined H o p1) (sys_stdout p)) Hp)
        as (out & err & -> & ->).
      simpl. destruct (joined_fields H o p1) as (_ & _ & _ & ->).
      rewrite HW, <- app_assoc.
      exists (flat_map captured W ++ out)%list.
      unfold joined. destruct o as [r | ob | e |];
        try (rewrite Herr; now eexists).
      destruct (exc_is_exception e); simpl; rewrite Herr;
        [now eexists |].
      rewrite <- app_assoc. now eexists.
    + rewrite (turn_unknown H line d p Hd Hc).
      rewrite print_error_intercepted by exact Hi.
      simpl. now eexists; eexists.
  - unfold process_line. rewrite Hd. exists [], []. simpl.
    now rewrite !app_nil_r.
  - unfold process_line. rewrite Hd. exists [], []. simpl.
    now rewrite !app_nil_r.
Qed.

End Appending.

(** X10.  Whatever lines are read, and however the loop ends, [sys.stdout]
    is afterwards the real stream it was before, and the two streams hold
    what they held before followed by what the turns wrote: nothing written
    earlier is changed or lost. *)
Theorem loop_restores_stdout_and_only_appends {G : Type} (H : host G)
        (lines : list string) (p : process G) :
  sys_stdout p = RealStream ->
  sys_stdout (fst (start_listening H lines p)) = RealStream
  /\ exists out err,
      stdout_log (fst (start_listening H lines p)) = (stdout_log p ++ out)%list
      /\ stderr_log (fst (start_listening H lines p))
         = (stderr_log p ++ err)%list.
Proof.
  revert p. induction lines as [|l lines IH]; intros p Hp; simpl.
  - split; [exact Hp |]. exists [], []. now rewrite !app_nil_r.
  - pose proof (process_line_restores H l p) as Hr.
    destruct (process_line_appends H l p Hp) as (out & err & Ho & He).
    destruct (process_line H l p) as [p1 [|e]]; simpl in *.
    + rewrite Hp in Hr.
      destruct (IH p1 Hr) as (Hs & out' & err' & Ho' & He').
      split; [exact Hs |].
      exists (out ++ out')%list, (err ++ err')%list.
      rewrite Ho', He', Ho, He, !app_assoc. split; reflexivity.
    + split; [congruence |]. now exists out, err.
Qed.

(** The statement for X10 at the probe host, on lines that end with one that
    stops the loop. *)
Lemma loop_restores_stdout_and_only_appends_witness :
  sys_stdout
    (fst (start_listening Probe.probe_host
            [Probe.request "OnReceive" "hang"; Probe.request "OnFoo" "x";
             "{oops"] initial))
  = RealStream.
Proof.
  exact (proj1 (loop_restores_stdout_and_only_appends Probe.probe_host
                  [Probe.request "OnReceive" "hang"; Probe.request "OnFoo" "x";
                   "{oops"] initial eq_refl)).
Defined.

(** ** Line framing *)

Lemma all_printable_app (a b : string) :
  all_printable (a ++ b) = all_printable a && all_printable b.
Proof.
  induction a as [|c a IH]; simpl; [reflexivity |].
  now rewrite IH, andb_assoc.
Qed.

Lemma escape_char_printable (c : ascii) :
  all_printable (Json.escape_char c) = true.
Proof.
  destruct c as [[] [] [] [] [] [] [] []]; vm_compute; reflexivity.
Qed.

Lemma encode_str_printable (s : string) :
  all_printable (Json.encode_str s) = true.
Proof.
  unfold Json.encode_str. cbn [all_printable].
  rewrite all_printable_app. simpl.
  induction s as [|c s IH]; simpl; [reflexivity |].
  rewrite all_printable_app, escape_char_printable. simpl.
  rewrite andb_true_r in IH. now rewrite IH.
Qed.

Lemma response_printable (name status data : string) :
  all_printable (response (JStr name) status data) = true.
Proof.
  rewrite response_text.
  change (json_text (JStr name)) with (Json.encode_str name).
  rewrite !all_printable_app, !encode_str_printable. reflexivity.
Qed.

(** X11.  What an interceptor over the real stream does with a write is
    nothing, or one write of one line followed by a flush: a text of
    printable ASCII characters, hence without a line end inside, and then the
    line end.  The same holds for the text of a response whose event is a
    string.  No text a handler prints and no event name can break the
    framing of the output in lines. *)
Theorem written_lines_are_single_printable_lines (message : string)
        (log : list io_event) (name status data : string) :
  (OutputInterceptor.write
     (Interceptor RealStream get_standard_output_message) message log = log
   \/ exists body,
       OutputInterceptor.write
         (Interceptor RealStream get_standard_output_message) message log
       = (log ++ [Write (body ++ PyStr.newline); Flush])%list
       /\ all_printable body = true)
  /\ all_printable (response (JStr name) status data) = true.
Proof.
  split; [| apply response_printable].
  rewrite write_intercepted. unfold captured.
  destruct (PyStr.truthy (PyStr.strip message)).
  - right. eexists. split; [reflexivity |]. apply response_printable.
  - left. apply app_nil_r.
Qed.

(** X12.  Under an interceptor over the real stream, a [print] of several
    arguments is captured argument by argument: each argument that is not
    white space only becomes a line of its own, and the spaces between the
    arguments and the line end are dropped. *)
Theorem print_is_captured_argument_by_argument (args : list string)
        (log : list io_event) :
  print_args (Interceptor RealStream get_standard_output_message) args log
  = (log ++ flat_map captured args)%list.
Proof.
  unfold print_args. rewrite write_intercepted, captured_newline, app_nil_r.
  revert log. induction args as [|x args IH]; intros log.
  - simpl. now rewrite app_nil_r.
  - destruct args as [|y args].
    + cbn [print_items flat_map]. rewrite write_intercepted.
      now rewrite app_nil_r.
    + change (print_items ?f (x :: y :: args) log)
        with (print_items f (y :: args)
                (OutputInterceptor.write f " "
                   (OutputInterceptor.write f x log))).
      rewrite IH, !write_intercepted.
      change (captured " ") with (@nil io_event).
      rewrite app_nil_r, <- app_assoc. reflexivity.
Qed.

(** ** Which results are accepted *)

(** X13.  A call that returns an ordinary dictionary with string keys whose
    values are JSON values (numbers, strings, booleans, [None], lists and
    such dictionaries of these) is not refused: the turn prints the ok
    response with the encoding of the dictionary as [Data], and no
    diagnostic. *)
Theorem json_mapping_is_accepted {G : Type} (H : host G) (line : string)
        (event : list (string * json)) (p p1 : process G) (fr : frame)
        (f : process G -> process G * outcome pyval)
        (d : list (string * json)) :
  sys_stdout p = RealStream ->
  json_loads H (PyStr.strip line) = Decoded (JDict event) ->
  lifecycle_call H (json_get "Event" event) (json_get "Data" event)
  = Some (fr, f) ->
  f (intercepted p) = (p1, Returned (to_py (JDict d))) ->
  ordinary (to_py (JDict d)) = true ->
  process_line H line p
  = ({| stdout_log :=
          (stdout_log p1
             ++ line_events (ok_response (json_get "Event" event)
                               (json_text (JDict d))))%list;
        stderr_log := stderr_log p; sys_stdout := RealStream;
        module := module p1; loads := loads p1 |}, Continue).
Proof.
  intros Hp Hd Hc Hf Hor.
  destruct (lifecycle_call_effect H _ _ _ _ _ _ _ Hc Hf) as (_ & Herr & _).
  rewrite (turn_known H line event fr f p p1 _ Hd Hc Hf).
  cbn [exit_of joined].
  rewrite (respond_fell_ok H _ _ (json_text (JDict d)))
    by (change (to_py (JDict d))
          with (PDict (map (fun kv => (PStr (fst kv), to_py (snd kv))) d))
          in Hor |- *;
        cbv beta iota delta [encoded_result]; rewrite Hor;
        exact (json_text_dumps (JDict d))).
  rewrite print_output_real by exact Hp.
  unfold set_stdout_log. simpl. rewrite Hp, Herr. reflexivity.
Qed.

Lemma all_some_none {A : Type} (l : list (option A)) :
  In None l -> Json.all_some l = None.
Proof.
  unfold Json.all_some. induction l as [|o l IH]; simpl; [tauto |].
  intros [-> | Hin]; [reflexivity |].
  rewrite (IH Hin). now destruct o.
Qed.

Lemma dumps_dict_fails (d : list (pyval * pyval)) (k v : pyval) :
  In (k, v) d ->
  Json.key_text k = None \/ Json.dumps v = None ->
  Json.dumps (PDict d) = None.
Proof.
  intros Hin Hbad. simpl.
  rewrite all_some_none; [reflexivity |].
  apply in_map_iff. exists (k, v). split; [| exact Hin]. simpl.
  destruct Hbad as [-> | ->]; [reflexivity |].
  now destruct (Json.key_text k).
Qed.

(** X14.  A call that returns an ordinary dictionary with one entry the
    encoder refuses, a key that is not a string, a number, a boolean or
    [None], or a value that has no encoding, gets the error response, and a
    diagnostic that says a dictionary was expected and names the type of
    the result as [dict]. *)
Theorem unencodable_mapping_is_refused {G : Type} (H : host G) (line : string)
        (event : list (string * json)) (p p1 : process G) (fr : frame)
        (f : process G -> process G * outcome pyval)
        (d : list (pyval * pyval)) (k v : pyval) :
  sys_stdout p = RealStream ->
  json_loads H (PyStr.strip line) = Decoded (JDict event) ->
  lifecycle_call H (json_get "Event" event) (json_get "Data" event)
  = Some (fr, f) ->
  f (intercepted p) = (p1, Returned (PDict d)) ->
  ordinary (PDict d) = true ->
  In (k, v) d ->
  Json.key_text k = None \/ Json.dumps v = None ->
  process_line H line p
  = ({| stdout_log :=
          (stdout_log p1
             ++ line_events (error_response (json_get "Event" event)))%list;
        stderr_log :=
          (stderr_log p
             ++ diagnostic_events
                  ("Invalid result format. Expecting a dictionary, got dict: "
                     ++ py_repr (PDict d)))%list;
        sys_stdout := RealStream; module := module p1; loads := loads p1 |},
     Continue).
Proof.
  intros Hp Hd Hc Hf Hor Hin Hbad.
  destruct (lifecycle_call_effect H _ _ _ _ _ _ _ Hc Hf) as (_ & Herr & _).
  rewrite (turn_known H line event fr f p p1 _ Hd Hc Hf).
  cbn [exit_of joined].
  rewrite (respond_fell_bad H _ (PDict d))
    by (try exact Hor; cbv beta iota delta [encoded_result]; rewrite Hor;
        exact (dumps_dict_fails d k v Hin Hbad)).
  rewrite print_error_real by exact Hp.
  simpl. rewrite Hp, Herr. reflexivity.
Qed.

(** The statement for X13 at the call of the probe unit for [OnCreate],
    which returns a mapping with a boolean. *)
Lemma json_mapping_is_accepted_witness :
  stderr_log (fst (process_line Probe.probe_host
                     (Probe.request "OnCreate" "x") initial)) = []
  /\ In (Write (ok_response (JStr "OnCreate") (PyStr.dq "{`created`: true}")))
        (stdout_log (fst (process_line Probe.probe_host
                            (Probe.request "OnCreate" "x") initial))).
Proof.
  pose proof (json_mapping_is_accepted Probe.probe_host
                (Probe.request "OnCreate" "x")
                [("Event", JStr "OnCreate"); ("Data", JDict [("do", JStr "x")])]
                initial _ _ _ [("created", JBool true)]
                eq_refl eq_refl eq_refl eq_refl eq_refl) as W.
  rewrite W. split; [reflexivity |]. simpl. right. right. now left.
Defined.

(** The statement for X14 at the call of the probe unit that returns a
    mapping with a set as a value. *)
Lemma unencodable_mapping_is_refused_witness :
  stderr_log (fst (process_line Probe.probe_host
                     (Probe.request "OnReceive" "set") initial))
  = diagnostic_events
      "Invalid result format. Expecting a dictionary, got dict: {'s': {1}}".
Proof.
  pose proof (unencodable_mapping_is_refused Probe.probe_host
                (Probe.request "OnReceive" "set")
                [("Event", JStr "OnReceive");
                 ("Data", JDict [("do", JStr "set")])]
                initial _ _ _ [(PStr "s", PObj "set" "{1}" "{1}")]
                (PStr "s") (PObj "set" "{1}" "{1}")
                eq_refl eq_refl eq_refl eq_refl eq_refl (or_introl eq_refl)
                (or_intror eq_refl)) as W.
  rewrite W. reflexivity.
Defined.

(** ** Requests with missing parts, and blank lines *)

Lemma json_get_absent (key : string) (d : list (string * json)) :
  absent key d -> json_get key d = JNull.
Proof.
  induction 1 as [|[k v] d Hk _ IH]; simpl; [reflexivity |].
  simpl in Hk. destruct (String.eqb_spec k key); [now elim Hk | exact IH].
Qed.

(** X15.  A request that decodes to an object without the key [Event] is an
    unknown event whose type reads [None]: the diagnostic is "Unknown event
    type: None", the error response has [null] as its event and goes out
    through the interceptor, and nothing of the handler is called or
    loaded. *)
Theorem request_without_event_is_unknown {G : Type} (H : host G)
        (line : string) (event : list (string * json)) (p : process G) :
  sys_stdout p = RealStream ->
  json_loads H (PyStr.strip line) = Decoded (JDict event) ->
  absent "Event" event ->
  process_line H line p
  = ({| stdout_log :=
          (stdout_log p
             ++ [Write (get_standard_output_message (error_response JNull));
                 Flush])%list;
        stderr_log :=
          (stderr_log p ++ diagnostic_events "Unknown event type: None")%list;
        sys_stdout := RealStream; module := module p; loads := loads p |},
     Continue)
  /\ error_response JNull
     = PyStr.dq ("{`Event`: null, `Status`: `error`, `Data`: `{\`status\`: \`error\`, "
                   ++ "\`message\`: \`see error log for details\`}`}").
Proof.
  intros Hp Hd Hab. split; [| reflexivity].
  pose proof (json_get_absent "Event" event Hab) as He.
  assert (Hc : lifecycle_call H (json_get "Event" event) (json_get "Data" event)
               = None) by (rewrite He; reflexivity).
  rewrite (turn_unknown H line event p Hd Hc), He.
  rewrite print_error_intercepted
    by (unfold intercepted; simpl; now rewrite Hp).
  simpl. rewrite Hp. reflexivity.
Qed.

(** The statement for X15 at the request [{"Data": {}}]. *)
Lemma request_without_event_is_unknown_witness :
  stderr_log (fst (process_line Probe.probe_host (PyStr.dq "{`Data`: {}}")
                     initial))
  = diagnostic_events "Unknown event type: None".
Proof.
  assert (Hab : absent "Event" [("Data", JDict [])])
    by (repeat constructor; discriminate).
  pose proof (proj1 (request_without_event_is_unknown Probe.probe_host
                       (PyStr.dq "{`Data`: {}}") [("Data", JDict [])] initial
                       eq_refl eq_refl Hab)) as W.
  rewrite W. reflexivity.
Defined.

Lemma lstrip_whitespace_only (s : string) :
  whitespace_only s = true -> PyStr.lstrip s = EmptyString.
Proof.
  induction s as [|c s IH]; simpl; [reflexivity |].
  destruct (PyStr.isspace c); [exact IH | discriminate].
Qed.

(** X16.  A line of white space only, the empty line included, is handed to
    the decoder as the empty text; the decoder refusing the empty text, such
    a line stops the loop with the [ValueError] for the line, and the lines
    after it are not read. *)
Theorem blank_line_halts_the_loop {G : Type} (H : host G) (line : string)
        (rest : list string) (p : process G) :
  whitespace_only line = true ->
  json_loads H EmptyString = Undecodable ->
  PyStr.strip line = EmptyString
  /\ start_listening H (line :: rest) p = (p, Some (invalid_input H line)).
Proof.
  intros Hws Hempty.
  assert (Hs : PyStr.strip line = EmptyString)
    by (unfold PyStr.strip; now rewrite (lstrip_whitespace_only line Hws)).
  split; [exact Hs |].
  simpl. unfold process_line. rewrite Hs, Hempty. reflexivity.
Qed.

(** The statement for X16 at the line that is a line end only. *)
Lemma blank_line_halts_the_loop_witness :
  start_listening Probe.probe_host
    [PyStr.newline; Probe.request "OnReceive" "x"] initial
  = (initial, Some (invalid_input Probe.probe_host PyStr.newline)).
Proof.
  exact (proj2 (blank_line_halts_the_loop Probe.probe_host PyStr.newline
                  [Probe.request "OnReceive" "x"] initial eq_refl eq_refl)).
Defined.

(** * The usage example and the handler of [another_main.py] *)

(** ** Calls on a module to load and on a loaded module *)

Section Calls.

Context {G : Type} (H : host G).
Implicit Types p q : process G.

Lemma emit_real (W : list string) q :
  sys_stdout q = RealStream ->
  stdout_log (emit W q) = (stdout_log q ++ map Write W)%list.
Proof.
  intros Hq. unfold emit. simpl. rewrite Hq.
  generalize (stdout_log q). induction W as [|w W IH]; intros log; simpl.
  - now rewrite app_nil_r.
  - rewrite IH, <- app_assoc. reflexivity.
Qed.

Lemma execute_on_loaded attr name l1 l2 l3 text args q m :
  module q = Some m ->
  has_attr (unit_at H) (mod_globals m) attr = true ->
  execute_on H attr name l1 l2 l3 text args q
  = (let r := call_attr (unit_at H) attr (mod_globals m) args in
     ({| stdout_log := stdout_log (emit (run_writes r) q);
         stderr_log := stderr_log q; sys_stdout := sys_stdout q;
         module := Some {| mod_id := mod_id m; mod_globals := run_globals r |};
         loads := loads q |},
      passed_on (host_frame H l2 name text) (run_outcome r))).
Proof.
  intros Hm Ha. unfold execute_on. rewrite Hm, Hm, Ha.
  unfold emit, set_globals, set_stdout_log. simpl. rewrite Hm.
  destruct (run_outcome _); reflexivity.
Qed.


End Calls.

(** ** [main] *)

Section Main.

Context {G : Type} (H : host G).
Implicit Types p q : process G.

Lemma thread_raw q q1 :
  sys_stdout q = RealStream ->
  thread_effect q q1 ->
  exists W, stdout_log q1 = (stdout_log q ++ map Write W)%list.
Proof.
  intros Hq (_ & _ & [W HW] & _). exists W.
  rewrite HW. now apply emit_real.
Qed.

Lemma print_result_real label value q :
  sys_stdout q = RealStream ->
  print_result label value q
  = set_stdout_log q
      (stdout_log q
         ++ map Write [label; " "; py_str value; PyStr.newline])%list.
Proof.
  intros Hq. unfold print_result, print_args. rewrite Hq. simpl.
  now rewrite <- !app_assoc.
Qed.

Lemma print_other_effect label o fr q :
  sys_stdout (fst (print_other label o fr q)) = sys_stdout q
  /\ stderr_log (fst (print_other label o fr q)) = stderr_log q
  /\ module (fst (print_other label o fr q)) = module q
  /\ loads (fst (print_other label o fr q)) = loads q
  /\ (sys_stdout q = RealStream ->
      exists W,
        stdout_log (fst (print_other label o fr q))
        = (stdout_log q ++ map Write W)%list).
Proof.
  unfold print_other. destruct (opaque_str o) as [text | e]; simpl.
  - repeat split. intros Hq. unfold print_args. rewrite Hq. simpl.
    exists [label; " "; text; PyStr.newline]. now rewrite <- !app_assoc.
  - repeat split. intros Hq. rewrite Hq. simpl.
    exists [label; " "]. now rewrite <- !app_assoc.
Qed.

(** The second half of [main] leaves [sys.stdout] and the diagnostic stream
    as they were, loads at most once, and adds plain writes only. *)
Lemma main_receive_effect q :
  sys_stdout (fst (main_receive H q)) = sys_stdout q
  /\ stderr_log (fst (main_receive H q)) = stderr_log q
  /\ keeps_or_loads q (fst (main_receive H q))
  /\ (sys_stdout q = RealStream ->
      exists W,
        stdout_log (fst (main_receive H q))
        = (stdout_log q ++ map Write W)%list).
Proof.
  unfold main_receive.
  destruct (execute_on_receive H _ q) as [p3 o2] eqn:E2.
  pose proof (execute_on_effect H _ _ _ _ _ _ _ _ _ _ E2) as T2.
  assert (R3 : sys_stdout q = RealStream ->
               exists W, stdout_log p3 = (stdout_log q ++ map Write W)%list).
  { intros Hq. exact (thread_raw q p3 Hq T2). }
  destruct T2 as (S2 & D2 & _ & K2).
  destruct o2 as [r2 | ob | e2 |]; cbn [fst];
    try (split; [exact S2 |]; split; [exact D2 |]; split; [exact K2 |];
         exact R3).
  - split; [exact S2 |]. split; [exact D2 |]. split; [exact K2 |].
    intros Hq. destruct (R3 Hq) as [W3 HW3].
    rewrite print_result_real by congruence. simpl stdout_log.
    exists (W3 ++ ["on_receive result:"; " "; py_str r2; PyStr.newline])%list.
    rewrite HW3, map_app, <- !app_assoc. reflexivity.
  - match goal with
    | |- context [print_other ?l ?o ?fr ?q] =>
        destruct (print_other_effect l o fr q) as (S4 & D4 & M4 & L4 & R4);
        destruct (print_other l o fr q) as [p4 [e |]]
    end; cbn [fst] in *.
    + split; [congruence |]. split; [congruence |].
      split; [eapply keeps_or_loads_ext; [| | exact M4 | exact L4 | exact K2];
              reflexivity |].
      intros Hq. destruct (R3 Hq) as [W3 HW3].
      destruct R4 as [W4 HW4]; [congruence |].
      exists (W3 ++ W4)%list. rewrite HW4, HW3, map_app, <- app_assoc.
      reflexivity.
    + split; [congruence |]. split; [congruence |].
      split; [eapply keeps_or_loads_ext; [| | exact M4 | exact L4 | exact K2];
              reflexivity |].
      intros Hq. destruct (R3 Hq) as [W3 HW3].
      destruct R4 as [W4 HW4]; [congruence |].
      exists (W3 ++ W4)%list. rewrite HW4, HW3, map_app, <- app_assoc.
      reflexivity.
Qed.

End Main.

(** X17.  However it ends, [main] leaves [sys.stdout] bound as it was and
    the diagnostic stream untouched, and runs the top-level code of the unit
    at most once for its two calls.  With [sys.stdout] the real stream, all
    it adds to the output is plain writes: the handler's output and the two
    results are not wrapped in events, and nothing is flushed. *)
Theorem main_prints_raw_and_loads_once {G : Type} (H : host G)
        (p : process G) :
  sys_stdout (fst (main H p)) = sys_stdout p
  /\ stderr_log (fst (main H p)) = stderr_log p
  /\ (loads (fst (main H p)) = loads p \/ loads (fst (main H p)) = S (loads p))
  /\ (sys_stdout p = RealStream ->
      exists W, stdout_log (fst (main H p)) = (stdout_log p ++ map Write W)%list).
Proof.
  unfold main.
  destruct (execute_on_create (main_processor H) _ (new_processor p))
    as [p1 o1] eqn:E1.
  pose proof (execute_on_effect (main_processor H) _ _ _ _ _ _ _ _ _ _ E1)
    as T1.
  assert (L1 : loads p1 = loads p \/ loads p1 = S (loads p)).
  { destruct T1 as (_ & _ & _ & [[_ Hl] | (_ & _ & Hl)]); [left | right];
      exact Hl. }
  assert (R1 : sys_stdout p = RealStream ->
               exists W, stdout_log p1 = (stdout_log p ++ map Write W)%list).
  { intros Hp. exact (thread_raw (new_processor p) p1 Hp T1). }
  destruct T1 as (S1 & D1 & _ & K1). simpl in S1, D1.
  assert (Hrest : forall p2,
             sys_stdout p2 = sys_stdout p1 ->
             stderr_log p2 = stderr_log p1 ->
             module p2 = module p1 -> loads p2 = loads p1 ->
             (sys_stdout p = RealStream ->
              exists W, stdout_log p2 = (stdout_log p ++ map Write W)%list) ->
             sys_stdout (fst (main_receive (main_processor H) p2))
             = sys_stdout p
             /\ stderr_log (fst (main_receive (main_processor H) p2))
                = stderr_log p
             /\ (loads (fst (main_receive (main_processor H) p2)) = loads p
                 \/ loads (fst (main_receive (main_processor H) p2))
                    = S (loads p))
             /\ (sys_stdout p = RealStream ->
                 exists W,
                   stdout_log (fst (main_receive (main_processor H) p2))
                   = (stdout_log p ++ map Write W)%list)).
  { intros p2 S2 D2 M2 L2 R2.
    destruct (main_receive_effect (main_processor H) p2)
      as (S3 & D3 & K3 & R3).
    split; [congruence |]. split; [congruence |]. split.
    - assert (K2 : keeps_or_loads (new_processor p) p2).
      { eapply keeps_or_loads_ext; [| | exact M2 | exact L2 | exact K1];
          reflexivity. }
      destruct (keeps_or_loads_trans _ _ _ K2 K3) as [[_ Hl] | (_ & _ & Hl)];
        [left | right]; exact Hl.
    - intros Hp. destruct (R2 Hp) as [W2 HW2].
      destruct R3 as [W3 HW3]; [congruence |].
      exists (W2 ++ W3)%list. rewrite HW3, HW2, map_app, <- app_assoc.
      reflexivity. }
  destruct o1 as [r1 | ob | e1 |]; cbn [fst];
    try (repeat split; assumption).
  - apply Hrest; try reflexivity.
    intros Hp. destruct (R1 Hp) as [W1 HW1].
    rewrite print_result_real by congruence. simpl stdout_log.
    exists (W1 ++ ["on_create result:"; " "; py_str r1; PyStr.newline])%list.
    rewrite HW1, map_app, <- !app_assoc. reflexivity.
  - match goal with
    | |- context [print_other ?l ?o ?fr ?q] =>
        destruct (print_other_effect l o fr q) as (S4 & D4 & M4 & L4 & R4);
        destruct (print_other l o fr q) as [p4 [e |]]
    end; cbn [fst] in *.
    + split; [congruence |]. split; [congruence |].
      split; [destruct L1; [left | right]; congruence |].
      intros Hp. destruct (R1 Hp) as [W1 HW1].
      destruct R4 as [W4 HW4]; [congruence |].
      exists (W1 ++ W4)%list. rewrite HW4, HW1, map_app, <- app_assoc.
      reflexivity.
    + apply Hrest; try assumption.
      intros Hp. destruct (R1 Hp) as [W1 HW1].
      destruct R4 as [W4 HW4]; [congruence |].
      exists (W1 ++ W4)%list. rewrite HW4, HW1, map_app, <- app_assoc.
      reflexivity.
Qed.

(** The statement for X17 at the unit of [another_main.py] with the sample
    calculator. *)
Lemma main_prints_raw_and_loads_once_witness :
  exists W,
    stdout_log (fst (main AnotherMain.sample_host initial)) = map Write W.
Proof.
  exact (proj2 (proj2 (proj2
           (main_prints_raw_and_loads_once AnotherMain.sample_host initial)))
           eq_refl).
Defined.



(** ** The handler of [another_main.py] *)

(** X19.  [foo_value] and [bar_value] start as [None] and are only ever set
    to what [float] gives: whatever function of the unit is called, with
    whatever arguments and whatever comes of it, globals that are each
    [None] or a float stay so, and the calculator stays the one made at load
    time. *)
Theorem globals_stay_none_or_float (unit_path : string)
        (py_float : pyval -> result string)
        (helper : result AnotherMain.calculator) (name : string)
        (g : AnotherMain.globals) (args : list pyval) :
  AnotherMain.well_formed g = true ->
  exists g',
    run_globals
      (call_attr (AnotherMain.another_main unit_path py_float helper) name
         (Some g) args)
    = Some g'
    /\ AnotherMain.well_formed g' = true
    /\ AnotherMain.my_calculator g' = AnotherMain.my_calculator g.
Proof.
  intros Hg. unfold AnotherMain.well_formed in *.
  apply andb_true_iff in Hg. destruct Hg as [Hf Hb].
  assert (Hsame : exists g', Some g = Some g'
                             /\ AnotherMain.none_or_float (AnotherMain.foo_value g')
                                && AnotherMain.none_or_float (AnotherMain.bar_value g')
                                = true
                             /\ AnotherMain.my_calculator g'
                                = AnotherMain.my_calculator g).
  { exists g. now rewrite Hf, Hb. }
  simpl.
  destruct (String.eqb name "on_create");
    [| destruct (String.eqb name "on_receive")].
  - destruct args as [|data [|x args]]; try exact Hsame.
    unfold AnotherMain.on_create.
    destruct (AnotherMain.py_get data "foo" (PInt 0)); try exact Hsame.
    destruct (py_float a); try exact Hsame.
    eexists. split; [reflexivity |]. simpl. now rewrite Hb.
  - destruct args as [|data [|x args]]; try exact Hsame.
    unfold AnotherMain.on_receive.
    destruct (AnotherMain.py_get data "bar" (AnotherMain.bar_value g));
      try exact Hsame.
    destruct (py_float a); try exact Hsame.
    destruct (AnotherMain.add _ _ _);
      [destruct (AnotherMain.subtract _ _ _);
       [destruct (AnotherMain.multiply _ _ _) |] |];
      (eexists; split; [reflexivity |]; simpl; now rewrite Hf).
  - destruct args as [|x args]; exact Hsame.
Qed.

(** The statement for X19 at a first [on_create] with the sample [float]. *)
Lemma globals_stay_none_or_float_witness :
  exists g',
    run_globals
      (call_attr (unit_at AnotherMain.sample_host) "on_create"
         (Some {| AnotherMain.my_calculator := AnotherMain.sample_calculator;
                  AnotherMain.foo_value := PNone;
                  AnotherMain.bar_value := PNone |})
         [PDict [(PStr "foo", PStr "20")]])
    = Some g'
    /\ AnotherMain.well_formed g' = true.
Proof.
  destruct (globals_stay_none_or_float "/srv/plugins/another_main.py"
              AnotherMain.sample_float (Ok AnotherMain.sample_calculator)
              "on_create"
              {| AnotherMain.my_calculator := AnotherMain.sample_calculator;
                 AnotherMain.foo_value := PNone;
                 AnotherMain.bar_value := PNone |}
              [PDict [(PStr "foo", PStr "20")]] eq_refl)
    as (g' & Hg & Hw & _).
  exists g'. split; [exact Hg | exact Hw].
Defined.

Section LoadedTurns.

Context {G : Type} (H : host G).
Implicit Types p q : process G.

Lemma lifecycle_call_exact (event_type event_data : json) (attr : string) :
  attr_of_event event_type = Some attr ->
  exists fr name l1 l2 l3 text,
    lifecycle_call H event_type event_data
    = Some (fr, execute_on H attr name l1 l2 l3 text
                  (args_of_event event_type event_data))
    /\ co_filename fr = host_file H.
Proof.
  unfold attr_of_event, lifecycle_call, args_of_event.
  destruct (is_str event_type "OnCreate");
    [| destruct (is_str event_type "OnReceive");
       [| destruct (is_str event_type "OnDestroy")]];
    intros E; inversion E; subst; clear E;
    unfold execute_on_create, execute_on_receive, execute_on_destroy;
    repeat eexists.
Qed.

(** The turn for a lifecycle event on a loaded module that has the
    function: the call runs under the interceptor, then the loop responds. *)
Lemma loaded_turn line event p m attr :
  sys_stdout p = RealStream ->
  json_loads H (PyStr.strip line) = Decoded (JDict event) ->
  attr_of_event (json_get "Event" event) = Some attr ->
  module p = Some m ->
  has_attr (unit_at H) (mod_globals m) attr = true ->
  exists fr frc,
    co_filename fr = host_file H /\ co_filename frc = host_file H
    /\ process_line H line p
       = (let r := call_attr (unit_at H) attr (mod_globals m)
                     (args_of_event (json_get "Event" event)
                        (json_get "Data" event)) in
          respond H (json_get "Event" event)
            (exit_of H fr (passed_on frc (run_outcome r)))
            (joined H (passed_on frc (run_outcome r))
               {| stdout_log :=
                    (stdout_log p ++ flat_map captured (run_writes r))%list;
                  stderr_log := stderr_log p; sys_stdout := RealStream;
                  module := Some {| mod_id := mod_id m;
                                    mod_globals := run_globals r |};
                  loads := loads p |})).
Proof.
  intros Hp Hd Ha Hm Hattr.
  destruct (lifecycle_call_exact _ (json_get "Data" event) _ Ha)
    as (fr & name & l1 & l2 & l3 & text & Hc & Hfr).
  exists fr, (host_frame H l2 name text).
  split; [exact Hfr |]. split; [reflexivity |].
  pose proof (execute_on_loaded H attr name l1 l2 l3 text
                (args_of_event (json_get "Event" event)
                   (json_get "Data" event))
                (intercepted p) m Hm Hattr) as Hf.
  cbn zeta in Hf.
  rewrite (turn_known H line event fr _ p _ _ Hd Hc Hf).
  cbn zeta. rewrite joined_set_sys_stdout. unfold set_sys_stdout.
  cbn [stdout_log stderr_log sys_stdout module loads].
  rewrite emit_intercepted
    by (unfold intercepted; simpl; now rewrite Hp).
  rewrite Hp. reflexivity.
Qed.


End LoadedTurns.

(** X20.  On the loaded unit, whose globals are each [None] or a float, a
    request for [OnDestroy] changes nothing and prints nothing but its
    response: the ok response whose [Data] is the encoding of the mapping of
    [final_foo] and [final_bar] to the two globals, [null] for a global that
    was never set. *)
Theorem destroy_reports_the_globals (H : host (option AnotherMain.globals))
        (unit_path : string) (py_float : pyval -> result string)
        (helper : result AnotherMain.calculator) (line : string)
        (event : list (string * json))
        (p : process (option AnotherMain.globals))
        (m : module_obj (option AnotherMain.globals))
        (g : AnotherMain.globals) :
  unit_at H = AnotherMain.another_main unit_path py_float helper ->
  sys_stdout p = RealStream ->
  json_loads H (PyStr.strip line) = Decoded (JDict event) ->
  json_get "Event" event = JStr "OnDestroy" ->
  module p = Some m ->
  mod_globals m = Some g ->
  AnotherMain.well_formed g = true ->
  exists sf sb,
    Json.dumps (AnotherMain.foo_value g) = Some sf
    /\ Json.dumps (AnotherMain.bar_value g) = Some sb
    /\ process_line H line p
       = ({| stdout_log :=
               (stdout_log p
                  ++ line_events
                       (ok_response (JStr "OnDestroy")
                          (PyStr.dq "{`final_foo`: " ++ sf
                             ++ PyStr.dq ", `final_bar`: " ++ sb ++ "}")))%list;
             stderr_log := stderr_log p; sys_stdout := RealStream;
             module := module p; loads := loads p |}, Continue).
Proof.
  intros Hunit Hp Hd Hev Hm Hg Hwf.
  destruct (loaded_turn H line event p m "on_destroy" Hp Hd)
    as (fr & frc & _ & _ & Hturn);
    [now rewrite Hev | exact Hm | rewrite Hunit, Hg; reflexivity |].
  rewrite Hturn. clear Hturn. cbn zeta. rewrite Hev, Hunit, Hg.
  change (call_attr (AnotherMain.another_main unit_path py_float helper)
            "on_destroy" (Some g) (args_of_event (JStr "OnDestroy") _))
    with (AnotherMain.on_destroy g).
  unfold AnotherMain.on_destroy, AnotherMain.stay.
  cbn [run_writes run_globals run_outcome passed_on exit_of joined flat_map].
  unfold AnotherMain.well_formed in Hwf.
  apply andb_true_iff in Hwf. destruct Hwf as [Hf Hb].
  destruct m as [i mg]. simpl in Hg. subst mg.
  destruct (AnotherMain.foo_value g) as [| | | rf | | | | |];
    try discriminate Hf;
    destruct (AnotherMain.bar_value g) as [| | | rb | | | | |];
    try discriminate Hb;
    do 2 eexists; (split; [reflexivity |]); (split; [reflexivity |]);
    match goal with
    | |- context [respond H ?ty (Fell (Value ?r)) ?q] =>
        rewrite (respond_fell_ok H ty r _ q eq_refl)
    end;
    rewrite print_output_real by reflexivity;
    unfold set_stdout_log; simpl; rewrite app_nil_r, Hm;
    unfold ok_response, response, json_text; simpl;
    rewrite ?append_assoc; reflexivity.
Qed.

(** The statement for X20 at the sample host after a request for
    [OnCreate]. *)
Lemma destroy_reports_the_globals_witness :
  exists p p',
    process_line AnotherMain.sample_host (PyStr.dq "{`Event`: `OnDestroy`}") p
    = (p', Continue)
    /\ stdout_log p'
       = (stdout_log p
            ++ line_events
                 (ok_response (JStr "OnDestroy")
                    (PyStr.dq "{`final_foo`: 20.0, `final_bar`: null}")))%list.
Proof.
  pose (p := fst (process_line AnotherMain.sample_host
                    (PyStr.dq "{`Event`: `OnCreate`, `Data`: {`foo`: `20`}}")
                    initial)).
  pose (g := {| AnotherMain.my_calculator := AnotherMain.sample_calculator;
                AnotherMain.foo_value := PFloat "20.0";
                AnotherMain.bar_value := PNone |}).
  destruct (destroy_reports_the_globals AnotherMain.sample_host
              "/srv/plugins/another_main.py" AnotherMain.sample_float
              (Ok AnotherMain.sample_calculator)
              (PyStr.dq "{`Event`: `OnDestroy`}") [("Event", JStr "OnDestroy")]
              p {| mod_id := 0; mod_globals := Some g |} g
              eq_refl eq_refl eq_refl eq_refl eq_refl eq_refl eq_refl)
    as (sf & sb & Hf & Hb & W).
  exists p. eexists. split; [exact W |].
  vm_compute in Hf, Hb. inversion Hf. inversion Hb. reflexivity.
Defined.



(** X22.  On the loaded unit, a request for [OnReceive] whose [bar] [float]
    accepts and on which the calculator's [add] raises an exception that is
    raised again and has a diagnostic is answered with the error response,
    after what [on_receive] had done by then: [bar_value] is set to the new
    float and stays so, and the notice has gone out as a [StandardOutput]
    line. *)
Theorem failed_receive_keeps_its_effects
        (H : host (option AnotherMain.globals)) (unit_path : string)
        (py_float : pyval -> result string)
        (helper : result AnotherMain.calculator) (line : string)
        (event : list (string * json))
        (p : process (option AnotherMain.globals))
        (m : module_obj (option AnotherMain.globals))
        (g : AnotherMain.globals) (d : list (pyval * pyval)) (v : pyval)
        (bar : string) (e : exn) :
  unit_at H = AnotherMain.another_main unit_path py_float helper ->
  sys_stdout p = RealStream ->
  json_loads H (PyStr.strip line) = Decoded (JDict event) ->
  json_get "Event" event = JStr "OnReceive" ->
  to_py (json_get "Data" event) = PDict d ->
  AnotherMain.dict_find "bar" d = Some v ->
  py_float v = Ok bar ->
  module p = Some m ->
  mod_globals m = Some g ->
  AnotherMain.add (AnotherMain.my_calculator g) (AnotherMain.foo_value g)
    (PFloat bar)
  = Raise e ->
  reraised e = true ->
  reportable e = true ->
  exists diag,
    process_line H line p
    = ({| stdout_log :=
            (stdout_log p
               ++ [Write (get_standard_output_message
                            AnotherMain.on_receive_notice);
                   Flush]
               ++ line_events (error_response (JStr "OnReceive")))%list;
          stderr_log := (stderr_log p ++ diagnostic_events diag)%list;
          sys_stdout := RealStream;
          module :=
            Some {| mod_id := mod_id m;
                    mod_globals :=
                      Some {| AnotherMain.my_calculator :=
                                AnotherMain.my_calculator g;
                              AnotherMain.foo_value := AnotherMain.foo_value g;
                              AnotherMain.bar_value := PFloat bar |} |};
          loads := loads p |}, Continue).
Proof.
  intros Hunit Hp Hd Hev Hdata Hfind Hfl Hm Hg Hadd Hre Hrep.
  destruct (loaded_turn H line event p m "on_receive" Hp Hd)
    as (fr & frc & _ & _ & T);
    [now rewrite Hev | exact Hm | rewrite Hunit, Hg; reflexivity |].
  cbn zeta in T. rewrite Hev, Hunit, Hg in T.
  change (args_of_event (JStr "OnReceive") (json_get "Data" event))
    with [to_py (json_get "Data" event)] in T.
  rewrite Hdata in T.
  change (call_attr (AnotherMain.another_main unit_path py_float helper)
            "on_receive" (Some g) [PDict d])
    with (AnotherMain.on_receive unit_path py_float g (PDict d)) in T.
  unfold AnotherMain.on_receive, AnotherMain.py_get in T.
  rewrite Hfind, Hfl, Hadd in T.
  unfold AnotherMain.stay in T.
  cbn [run_writes run_globals run_outcome passed_on] in T.
  match type of T with
  | context [exit_of H fr (Raised ?e1)] =>
      rewrite (exit_of_raised H fr e1 Hre), (joined_raised H e1 _ Hre) in T;
      rewrite (respond_threw H _ (as_caught H fr e1) _ Hrep) in T
  end.
  rewrite print_error_real in T by reflexivity.
  eexists. rewrite T.
  cbn [stdout_log stderr_log sys_stdout module loads flat_map app].
  change (captured AnotherMain.on_receive_notice)
    with [Write (get_standard_output_message AnotherMain.on_receive_notice);
          Flush].
  rewrite captured_newline. cbn [app]. rewrite <- !app_assoc. reflexivity.
Qed.

(** The statement for X22 at a request for [OnReceive] on the sample host
    before any [OnCreate]: [foo_value] is [None] and the calculator raises. *)
Lemma failed_receive_keeps_its_effects_witness :
  exists p p',
    process_line AnotherMain.sample_host
      (PyStr.dq "{`Event`:`OnReceive`,`Data`:{`bar`:`10`}}") p
    = (p', Continue)
    /\ module_identity p' = Some 0
    /\ In (Write (error_response (JStr "OnReceive"))) (stdout_log p').
Proof.
  pose (p := fst (process_line AnotherMain.sample_host
                    (PyStr.dq "{`Event`: `OnDestroy`}") initial)).
  pose (g := {| AnotherMain.my_calculator := AnotherMain.sample_calculator;
                AnotherMain.foo_value := PNone;
                AnotherMain.bar_value := PNone |}).
  destruct (failed_receive_keeps_its_effects AnotherMain.sample_host
              "/srv/plugins/another_main.py" AnotherMain.sample_float
              (Ok AnotherMain.sample_calculator)
              (PyStr.dq "{`Event`:`OnReceive`,`Data`:{`bar`:`10`}}")
              [("Event", JStr "OnReceive"); ("Data", JDict [("bar", JStr "10")])]
              p {| mod_id := 0; mod_globals := Some g |} g
              [(PStr "bar", PStr "10")] (PStr "10") "10.0" _
              eq_refl eq_refl eq_refl eq_refl eq_refl eq_refl eq_refl eq_refl
              eq_refl eq_refl eq_refl eq_refl)
    as (diag & W).
  exists p. eexists. split; [exact W |]. split; [reflexivity |].
  simpl. right. right. right. right. right. now left.
Defined.

Section FailedLoad.

Context {G : Type} (H : host G).
Implicit Types p q : process G.

Lemma execute_on_failed_load attr name l1 l2 l3 text args q e :
  module q = None ->
  file_state H = SourceFile ->
  run_outcome (exec_module (unit_at H)) = Raised e ->
  execute_on H attr name l1 l2 l3 text args q
  = ({| stdout_log := stdout_log (emit (run_writes (exec_module (unit_at H))) q);
        stderr_log := stderr_log q; sys_stdout := sys_stdout q;
        module := Some {| mod_id := loads q;
                          mod_globals := run_globals (exec_module (unit_at H)) |};
        loads := S (loads q) |},
     Raised (through (host_frame H l1 name "self._load_module()")
               (through (host_frame H 31 "_load_module"
                           "spec.loader.exec_module(self.module)") e))).
Proof.
  intros Hm Hfile Hout. unfold execute_on, _load_module.
  rewrite Hm, Hfile, Hout. reflexivity.
Qed.

Lemma execute_on_missing attr name l1 l2 l3 text args q m :
  module q = Some m ->
  has_attr (unit_at H) (mod_globals m) attr = false ->
  execute_on H attr name l1 l2 l3 text args q
  = (q, Raised (new_exn "AttributeError" false (missing_function attr)
                  (host_frame H l3 name
                     ("raise AttributeError(`The module does not have an '"
                        ++ attr ++ "' function.`)")))).
Proof.
  intros Hm Hno. unfold execute_on. rewrite Hm, Hm, Hno. reflexivity.
Qed.

End FailedLoad.

(** X23.  When the import of the calculator at the top of the unit fails
    with an exception that is raised again and has a diagnostic, the first
    lifecycle request reports that exception, and the module stays, with
    nothing bound in it: the next lifecycle request does not load again and
    is answered with the error for a missing function, the host's file not
    being the processor's. *)
Theorem failed_import_leaves_no_function
        (H : host (option AnotherMain.globals)) (unit_path : string)
        (py_float : pyval -> result string) (e : exn)
        (line1 line2 : string) (event1 event2 : list (string * json))
        (attr1 attr2 : string) (p : process (option AnotherMain.globals)) :
  unit_at H = AnotherMain.another_main unit_path py_float (Raise e) ->
  reraised e = true ->
  reportable e = true ->
  file_state H = SourceFile ->
  PyStr.contains (filename H) (host_file H) = false ->
  sys_stdout p = RealStream ->
  module p = None ->
  json_loads H (PyStr.strip line1) = Decoded (JDict event1) ->
  attr_of_event (json_get "Event" event1) = Some attr1 ->
  json_loads H (PyStr.strip line2) = Decoded (JDict event2) ->
  attr_of_event (json_get "Event" event2) = Some attr2 ->
  exists diag,
    start_listening H [line1; line2] p
    = ({| stdout_log :=
            (stdout_log p
               ++ line_events (error_response (json_get "Event" event1))
               ++ line_events (error_response (json_get "Event" event2)))%list;
          stderr_log :=
            (stderr_log p
               ++ diagnostic_events diag
               ++ diagnostic_events
                    ("Error: The module does not have an '" ++ attr2
                       ++ "' function." ++ PyStr.newline
                       ++ "Processor traceback:" ++ PyStr.newline
                       ++ "No relevant stack trace found from the processor script."))%list;
          sys_stdout := RealStream;
          module := Some {| mod_id := loads p; mod_globals := None |};
          loads := S (loads p) |}, None).
Proof.
  intros Hunit Hre Hrep Hfile Hhost Hp Hm Hd1 Ha1 Hd2 Ha2.
  destruct (lifecycle_call_exact H _ (json_get "Data" event1) _ Ha1)
    as (fr1 & n1 & a1 & b1 & c1 & t1 & Hc1 & _).
  destruct (lifecycle_call_exact H _ (json_get "Data" event2) _ Ha2)
    as (fr2 & n2 & a2 & b2 & c2 & t2 & Hc2 & Hfr2).
  assert (Hout : run_outcome (exec_module (unit_at H)) = Raised e)
    by (rewrite Hunit; reflexivity).
  pose proof (execute_on_failed_load H attr1 n1 a1 b1 c1 t1
                (args_of_event (json_get "Event" event1)
                   (json_get "Data" event1))
                (intercepted p) e Hm Hfile Hout) as Hf1.
  cbn [start_listening].
  rewrite (turn_known H line1 event1 fr1 _ p _ _ Hd1 Hc1 Hf1).
  match goal with
  | |- context [exit_of H fr1 (Raised ?e1)] =>
      rewrite (exit_of_raised H fr1 e1 Hre), (joined_raised H e1 _ Hre);
      rewrite (respond_threw H _ (as_caught H fr1 e1) _ Hrep)
  end.
  rewrite print_error_real by exact Hp.
  rewrite Hunit.
  cbn [exec_module AnotherMain.another_main run_writes run_globals].
  match goal with
  | |- context [process_line H line2 ?q] =>
      pose proof (execute_on_missing H attr2 n2 a2 b2 c2 t2
                    (args_of_event (json_get "Event" event2)
                       (json_get "Data" event2))
                    (intercepted q)
                    {| mod_id := loads p; mod_globals := None |} eq_refl)
        as Hf2;
      assert (Hno : has_attr (unit_at H) None attr2 = false)
        by (rewrite Hunit; reflexivity);
      rewrite (turn_known H line2 event2 fr2 _ q _ _ Hd2 Hc2 (Hf2 Hno))
  end.
  simpl exit_of. cbn [joined new_exn plain_exn exc_is_exception].
  rewrite respond_threw by reflexivity.
  cbn [exc_is_timeout as_caught through new_exn plain_exn].
  unfold exception_message.
  rewrite (listing_without_match H)
    by (simpl; repeat constructor; unfold attributable; simpl;
        rewrite ?Hfr2; exact Hhost).
  rewrite print_error_real by exact Hp.
  eexists.
  cbn [stdout_log stderr_log sys_stdout module loads set_sys_stdout intercepted
       emit set_stdout_log fold_left exc_str new_exn plain_exn through
       as_caught].
  rewrite Hp, <- !app_assoc.
  unfold missing_function. rewrite !append_assoc. reflexivity.
Qed.

(** The statement for X23 at the sample host when the package of the
    calculator is not installed. *)
Lemma failed_import_leaves_no_function_witness :
  let H := with_unit AnotherMain.sample_host
             (AnotherMain.another_main "/srv/plugins/another_main.py"
                AnotherMain.sample_float
                (Raise (plain_exn "ModuleNotFoundError" false
            "No module named 'calculator'"
            []))) in
  exists p,
    start_listening H
      [PyStr.dq "{`Event`:`OnCreate`,`Data`:{`foo`:`20`}}";
       PyStr.dq "{`Event`:`OnReceive`,`Data`:{`bar`:`10`}}"] initial
    = (p, None)
    /\ loads p = 1
    /\ stdout_log p
       = (line_events (error_response (JStr "OnCreate"))
            ++ line_events (error_response (JStr "OnReceive")))%list.
Proof.
  intros H.
  destruct (failed_import_leaves_no_function H "/srv/plugins/another_main.py"
              AnotherMain.sample_float _
              (PyStr.dq "{`Event`:`OnCreate`,`Data`:{`foo`:`20`}}")
              (PyStr.dq "{`Event`:`OnReceive`,`Data`:{`bar`:`10`}}")
              [("Event", JStr "OnCreate"); ("Data", JDict [("foo", JStr "20")])]
              [("Event", JStr "OnReceive"); ("Data", JDict [("bar", JStr "10")])]
              "on_create" "on_receive" initial
              eq_refl eq_refl eq_refl eq_refl eq_refl eq_refl eq_refl eq_refl
              eq_refl eq_refl eq_refl)
    as (diag & W).
  eexists. split; [exact W |]. split; reflexivity.
Defined.

(** ** Decoding what was written *)

Lemma parse_string_escape_char (c : ascii) (tail : string) :
  Decoder.parse_string (Json.escape_char c ++ tail)
  = match Decoder.parse_string tail with
    | Some (t, rest) => Some (String c t, rest)
    | None => None
    end.
Proof.
  destruct c as [[] [] [] [] [] [] [] []]; reflexivity.
Qed.

Lemma parse_string_escaped (s rest : string) :
  Decoder.parse_string
    (PyStr.flat_map_string Json.escape_char s ++ String PyStr.dquote rest)
  = Some (s, rest).
Proof.
  induction s as [|c s IH]; [reflexivity |].
  cbn [PyStr.flat_map_string]. rewrite append_assoc.
  now rewrite parse_string_escape_char, IH.
Qed.

Lemma parse_encoded_value (n : nat) (s rest : string) :
  Decoder.parse_value (S n) (Json.encode_str s ++ rest)
  = Some (JStr s, rest).
Proof.
  unfold Json.encode_str. cbn [append Decoder.parse_value].
  change (Decoder.is_char PyStr.dquote 34) with true. cbn iota.
  rewrite append_assoc. cbn [append].
  now rewrite parse_string_escaped.
Qed.

Lemma parse_response (n : nat) (name status data tail : string) :
  Decoder.parse_value (S (S (S (S (S n)))))
    (response (JStr name) status data ++ tail)
  = Some (JDict [("Event", JStr name); ("Status", JStr status);
                 ("Data", JStr data)], tail).
Proof.
  rewrite response_text.
  change (json_text (JStr name)) with (Json.encode_str name).
  rewrite !append_assoc.
  simpl. rewrite !append_assoc. cbn [append].
  rewrite parse_string_escaped. simpl.
  rewrite parse_string_escaped. simpl.
  rewrite parse_string_escaped. simpl.
  reflexivity.
Qed.

Lemma append_empty (s : string) : s ++ EmptyString = s.
Proof. induction s as [|c s IH]; simpl; [reflexivity | now rewrite IH]. Qed.

Lemma length_append (a b : string) :
  String.length (a ++ b) = String.length a + String.length b.
Proof. induction a as [|c a IH]; simpl; [reflexivity | now rewrite IH]. Qed.

Lemma loads_response (name status data tail : string) :
  Decoder.skip_ws tail = EmptyString ->
  Decoder.loads (response (JStr name) status data ++ tail)
  = Some (JDict [("Event", JStr name); ("Status", JStr status);
                 ("Data", JStr data)]).
Proof.
  intros Htail. unfold Decoder.loads.
  destruct (response_braced (JStr name) status data) as [body Hb].
  assert (Hskip : Decoder.skip_ws (response (JStr name) status data ++ tail)
                  = response (JStr name) status data ++ tail)
    by (rewrite Hb; reflexivity).
  assert (Hfuel : exists n,
             2 * String.length (response (JStr name) status data ++ tail) + 2
             = S (S (S (S (S n))))).
  { rewrite Hb, !length_append. cbn [String.length].
    exists (S (2 * (String.length body + String.length tail))). lia. }
  destruct Hfuel as [n ->]. rewrite Hskip, parse_response, Htail.
  reflexivity.
Qed.

(** X24.  What the host writes decodes to what it was given.  The text of a
    response whose event is a string decodes to the object with that event,
    that status and, as [Data], exactly the string passed; and the line an
    interceptor writes for a text decodes to the [StandardOutput] event whose
    [Data] is the text without its leading and trailing white space,
    whatever characters it holds: quotes, backslashes, line ends inside,
    control characters. *)
Theorem written_lines_decode_to_what_was_sent (name status data message : string)
        (log : list io_event) :
  Decoder.loads (response (JStr name) status data)
  = Some (JDict [("Event", JStr name); ("Status", JStr status);
                 ("Data", JStr data)])
  /\ Decoder.loads (get_standard_output_message message)
     = Some (JDict [("Event", JStr "StandardOutput"); ("Status", JStr "ok");
                    ("Data", JStr message)])
  /\ (OutputInterceptor.write
        (Interceptor RealStream get_standard_output_message) message log = log
      \/ exists text,
          OutputInterceptor.write
            (Interceptor RealStream get_standard_output_message) message log
          = (log ++ [Write text; Flush])%list
          /\ Decoder.loads text
             = Some (JDict [("Event", JStr "StandardOutput");
                            ("Status", JStr "ok");
                            ("Data", JStr (PyStr.strip message))])).
Proof.
  split.
  { rewrite <- (append_empty (response (JStr name) status data)).
    now apply loads_response. }
  split.
  { unfold get_standard_output_message.
    fold (response (JStr "StandardOutput") "ok" message).
    now apply loads_response. }
  rewrite write_intercepted. unfold captured.
  destruct (PyStr.truthy (PyStr.strip message)).
  - right. eexists. split; [reflexivity |].
    unfold get_standard_output_message.
    fold (response (JStr "StandardOutput") "ok" (PyStr.strip message)).
    now apply loads_response.
  - left. apply app_nil_r.
Qed.
